(** * File-based contents utilities of IPython's notebook server

    A shallow embedding of [IPython/html/services/contents/fileio.py]:
    the [atomic_writing] context manager and the [FileManagerMixin]
    helpers ([perm_to_403], [_copy], [_get_os_path], [_read_file],
    [_save_file], [_read_notebook], [_save_notebook]), together with the
    part of the
    Python runtime they call (POSIX path arithmetic, the text codecs,
    base64, and a small file system). *)

From Stdlib Require Import ZArith NArith Ascii String List Lia.
From Stdlib Require Import Strings.Byte.
From stdpp Require Import gmap strings list.

(* ===================================================================== *)
(** * Python [str] operations on paths and messages *)
(* ===================================================================== *)

(** Paths and messages are values of [string]; the operations are defined
    on the list of characters. *)
Module Str.
Local Open Scope char_scope.

Definition chars : string -> list ascii := list_ascii_of_string.
Definition text : list ascii -> string := string_of_list_ascii.

Definition sep : ascii := "/".

Definition is_sep (a : ascii) : bool := Ascii.eqb a sep.

(** [l.startswith(p)] *)
Fixpoint startswith_l (l p : list ascii) {struct p} : bool :=
  match p, l with
  | [], _ => true
  | _ :: _, [] => false
  | b :: p', a :: l' => Ascii.eqb a b && startswith_l l' p'
  end.

(** [l.split(c)]: the pieces between occurrences of [c]; never empty. *)
Fixpoint split_l (c : ascii) (l : list ascii) : list (list ascii) :=
  match l with
  | [] => [[]]
  | a :: l' =>
      if Ascii.eqb a c then [] :: split_l c l'
      else match split_l c l' with
           | h :: t => (a :: h) :: t
           | [] => [[a]]
           end
  end.

(** [l.lstrip(c)], [l.rstrip(c)], [l.strip(c)] for a single character. *)
Fixpoint lstrip_l (c : ascii) (l : list ascii) : list ascii :=
  match l with
  | a :: l' => if Ascii.eqb a c then lstrip_l c l' else l
  | [] => []
  end.

Fixpoint rstrip_l (c : ascii) (l : list ascii) : list ascii :=
  match l with
  | [] => []
  | a :: l' =>
      match rstrip_l c l' with
      | [] => if Ascii.eqb a c then [] else [a]
      | r => a :: r
      end
  end.

Definition strip_l (c : ascii) (l : list ascii) : list ascii :=
  rstrip_l c (lstrip_l c l).

(** [c.join(parts)] *)
Fixpoint join_l (c : ascii) (parts : list (list ascii)) : list ascii :=
  match parts with
  | [] => []
  | [p] => p
  | p :: rest => p ++ c :: join_l c rest
  end.

Definition nonempty (l : list ascii) : bool :=
  match l with [] => false | _ => true end.

(** [l.endswith(c)] for a single character. *)
Definition endswith_char (l : list ascii) (c : ascii) : bool :=
  match last l with
  | Some a => Ascii.eqb a c
  | None => false
  end.

Definition startswith (s p : string) : bool := startswith_l (chars s) (chars p).

(** [needle in s] *)
Fixpoint contains_l (l needle : list ascii) : bool :=
  startswith_l l needle ||
  match l with
  | [] => false
  | _ :: l' => contains_l l' needle
  end.

Definition contains (s needle : string) : bool :=
  contains_l (chars s) (chars needle).

End Str.

(* ===================================================================== *)
(** * [os.path] on a POSIX host ([posixpath]) *)
(* ===================================================================== *)

Module posixpath.
Import Str.
Local Open Scope char_scope.

(** [isabs(p)] *)
Definition isabs_l (p : list ascii) : bool := startswith_l p [sep].

(** One step of [join(a, *p)]: the loop body for a component [b]. *)
Definition join2_l (path b : list ascii) : list ascii :=
  if startswith_l b [sep] then b
  else if negb (nonempty path) || endswith_char path sep then path ++ b
  else path ++ sep :: b.

(** [join(a, *p)] *)
Definition join_path_l (a : list ascii) (p : list (list ascii)) : list ascii :=
  fold_left join2_l p a.

(** The part of [p] up to and including the last separator, and the
    rest: [p[:i]] and [p[i:]] for [i = p.rfind(sep) + 1]. *)
Fixpoint rcut_l (p : list ascii) : list ascii * list ascii :=
  match p with
  | [] => ([], [])
  | a :: p' =>
      let '(h, t) := rcut_l p' in
      if nonempty h then (a :: h, t)
      else if is_sep a then ([a], t)
      else ([], a :: t)
  end.

(** [split(p)]: head and tail; trailing separators are stripped from the
    head unless it consists of separators only. *)
Definition split_l' (p : list ascii) : list ascii * list ascii :=
  let '(head, tail) := rcut_l p in
  if nonempty head && nonempty (rstrip_l sep head)
  then (rstrip_l sep head, tail)
  else (head, tail).

(** The loop of [normpath] over the components, building [new_comps]. *)
Definition norm_step (initial_slashes : nat) (new_comps : list (list ascii))
    (comp : list ascii) : list (list ascii) :=
  let dotdot := ["."; "."] in
  if bool_decide (comp = []) || bool_decide (comp = ["."]) then new_comps
  else if negb (bool_decide (comp = dotdot))
          || (bool_decide (initial_slashes = 0) && bool_decide (new_comps = []))
          || (bool_decide (new_comps <> []) && bool_decide (last new_comps = Some dotdot))
       then new_comps ++ [comp]
       else if bool_decide (new_comps <> []) then removelast new_comps
       else new_comps.

(** [normpath(path)] *)
Definition normpath_l (path : list ascii) : list ascii :=
  if bool_decide (path = []) then ["."] else
  let initial_slashes :=
    if startswith_l path [sep] then
      if startswith_l path [sep; sep] && negb (startswith_l path [sep; sep; sep])
      then 2 else 1
    else 0 in
  let comps := fold_left (norm_step initial_slashes) (split_l sep path) [] in
  let path' := repeat sep initial_slashes ++ join_l sep comps in
  if bool_decide (path' = []) then ["."] else path'.

(** [abspath(path)], in a process whose working directory is [cwd]. *)
Definition abspath_l (cwd path : list ascii) : list ascii :=
  normpath_l (if isabs_l path then path else join_path_l cwd [path]).

Definition join (a b : string) : string := text (join2_l (chars a) (chars b)).
Definition split (p : string) : string * string :=
  let '(h, t) := split_l' (chars p) in (text h, text t).
Definition dirname (p : string) : string := fst (split p).
Definition basename (p : string) : string := snd (split p).
Definition normpath (p : string) : string := text (normpath_l (chars p)).
Definition abspath (cwd p : string) : string :=
  text (abspath_l (chars cwd) (chars p)).

End posixpath.

(* ===================================================================== *)
(** * Exceptions and outcomes *)
(* ===================================================================== *)

(** What [str(e)] and [repr(e)] give for an exception raised by the
    runtime, a library or the caller. *)
Record exc_text := ExcText { as_str : string; as_repr : string }.

(** Exceptions other than tornado's [HTTPError], by the classes the
    module's [except] clauses tell apart. *)
Inductive pyexc : Type :=
| OSError (errno : option Z) (filename : option string) (t : exc_text)
    (* OSError, IOError and their subclasses *)
| UnicodeError (t : exc_text)
    (* UnicodeDecodeError, UnicodeEncodeError *)
| binascii_Error (t : exc_text)
| OtherException (cls : string) (t : exc_text)
    (* any other subclass of Exception *)
| NonException (cls : string) (t : exc_text).
    (* KeyboardInterrupt, SystemExit, GeneratorExit *)

Definition str_of (e : pyexc) : string :=
  match e with
  | OSError _ _ t | UnicodeError t | binascii_Error t
  | OtherException _ t | NonException _ t => as_str t
  end.

Definition repr_of (e : pyexc) : string :=
  match e with
  | OSError _ _ t | UnicodeError t | binascii_Error t
  | OtherException _ t | NonException _ t => as_repr t
  end.

(** [isinstance(e, Exception)] *)
Definition is_Exception (e : pyexc) : bool :=
  match e with NonException _ _ => false | _ => true end.

Inductive exn : Type :=
| Py (e : pyexc)
| HTTPError (status_code : Z) (log_message : string) (reason : option string).

Inductive result (A : Type) : Type :=
| Return (a : A)
| Raise (e : exn).
Arguments Return {A} a.
Arguments Raise {A} e.

Module errno.
Definition EPERM : Z := 1.
Definition ENOENT : Z := 2.
Definition EACCES : Z := 13.
Definition EEXIST : Z := 17.
Definition ENOTDIR : Z := 20.
Definition EISDIR : Z := 21.
Definition ENOSPC : Z := 28.
Definition ELOOP : Z := 40.
End errno.

(* ===================================================================== *)
(** * [IPython.html.utils] *)
(* ===================================================================== *)

Module utils.
Import Str.

Definition api_parts (s : list ascii) : list (list ascii) :=
  filter (fun p => nonempty p = true) (split_l sep (strip_l sep s)).

(** Modelled from the spec: [to_os_path] is imported from
    [IPython.html.utils], which is not among the sources.  The spec has
    the resolver convert the slash-separated virtual path to a
    native-separator path relative to root: the non-empty segments of
    the virtual path are joined onto [root] with [os.path.join]. *)
Definition to_os_path (path root : string) : string :=
  text (posixpath.join_path_l (chars root) (api_parts (chars path))).

(** Modelled from the spec: [to_api_path] is imported from
    [IPython.html.utils], which is not among the sources.  The spec has
    it invert the resolver against root: a leading [root] is removed
    from the file-system path and the remaining non-empty segments are
    joined with slashes. *)
Definition to_api_path (os_path root : string) : string :=
  let p := chars os_path in
  let p := if startswith_l p (chars root)
           then drop (length (chars root)) p else p in
  text (join_l sep (api_parts p)).

End utils.

(* ===================================================================== *)
(** * [FileManagerMixin]: path resolution and permission errors *)
(* ===================================================================== *)

(** The attributes a class using the mixin provides ([log] is only
    written to). *)
Record FileManagerMixin := { root_dir : string }.

(** [_get_os_path(self, path)], in a process whose working directory is
    [cwd]. *)
Definition _get_os_path (self : FileManagerMixin) (cwd : string) (path : string)
  : result string :=
  let root := posixpath.abspath cwd (root_dir self) in
  let os_path := utils.to_os_path path root in
  if negb (Str.startswith
             (posixpath.abspath cwd os_path +:+ String Str.sep "") root)
  then Raise (HTTPError 404 (path +:+ " is outside root contents directory") None)
  else Return os_path.

(** The body of [perm_to_403]'s [except (OSError, IOError) as e] clause. *)
Definition perm_to_403_handler (self : FileManagerMixin) (os_path : string)
    (e : exn) : exn :=
  match e with
  | Py (OSError eno filename _) =>
      if bool_decide (eno = Some errno.EPERM) || bool_decide (eno = Some errno.EACCES)
      then
        let os_path :=
          if bool_decide (os_path = "") then
            match filename with
            | Some f => if bool_decide (f = "") then "unknown file" else f
            | None => "unknown file"
            end
          else os_path in
        let path := utils.to_api_path os_path (root_dir self) in
        HTTPError 403 ("Permission denied: " +:+ path) None
      else e
  | _ => e
  end.

(** [with self.perm_to_403(os_path): block], on the outcome of [block]. *)
Definition perm_to_403 {A} (self : FileManagerMixin) (os_path : string)
    (block : result A) : result A :=
  match block with
  | Return a => Return a
  | Raise e => Raise (perm_to_403_handler self os_path e)
  end.

(* ===================================================================== *)
(** * Text codecs and base64 of the Python runtime *)
(* ===================================================================== *)

(** The contents of a file are [bytes] ([list byte]); the text handed to
    and returned by the generic-file helpers is a [str] whose characters
    range over all of Unicode: a list of code points. *)
Definition bytes := list byte.
Definition unicode := list N.

#[global] Instance byte_eq_dec : EqDecision byte := Byte.byte_eq_dec.

Module codecs.
Local Open Scope N_scope.

Definition byte_of (n : N) : byte :=
  match Byte.of_N (n mod 256) with
  | Some b => b
  | None => x00
  end.

Definition in_range (lo hi n : N) : bool := (lo <=? n) && (n <=? hi).

(** A continuation byte [10xxxxxx]. *)
Definition is_cont (b : byte) : bool := in_range 128 191 (Byte.to_N b).
Definition low6 (b : byte) : N := N.land (Byte.to_N b) 63.

(** [s.encode('utf8')] for one code point: surrogates are refused. *)
Definition encode_utf8_char (c : N) : option bytes :=
  if c <? 128 then Some [byte_of c]
  else if c <? 2048 then
    Some [byte_of (N.lor 192 (N.shiftr c 6));
          byte_of (N.lor 128 (N.land c 63))]
  else if c <? 65536 then
    if in_range 55296 57343 c then None
    else Some [byte_of (N.lor 224 (N.shiftr c 12));
               byte_of (N.lor 128 (N.land (N.shiftr c 6) 63));
               byte_of (N.lor 128 (N.land c 63))]
  else if c <? 1114112 then
    Some [byte_of (N.lor 240 (N.shiftr c 18));
          byte_of (N.lor 128 (N.land (N.shiftr c 12) 63));
          byte_of (N.lor 128 (N.land (N.shiftr c 6) 63));
          byte_of (N.lor 128 (N.land c 63))]
  else None.

Fixpoint encode_utf8 (s : unicode) : option bytes :=
  match s with
  | [] => Some []
  | c :: s' =>
      match encode_utf8_char c, encode_utf8 s' with
      | Some bs, Some r => Some (bs ++ r)
      | _, _ => None
      end
  end.

(** [b.decode('utf8')], strict: only the well-formed byte sequences of
    the Unicode standard (shortest form, no surrogates, at most
    U+10FFFF) are accepted. *)
Fixpoint decode_utf8 (bs : bytes) : option unicode :=
  match bs with
  | [] => Some []
  | b0 :: r =>
      let n0 := Byte.to_N b0 in
      if n0 <? 128 then cons n0 <$> decode_utf8 r
      else if in_range 194 223 n0 then
        match r with
        | b1 :: r1 =>
            if is_cont b1
            then cons (N.lor (N.shiftl (N.land n0 31) 6) (low6 b1))
                   <$> decode_utf8 r1
            else None
        | _ => None
        end
      else if in_range 224 239 n0 then
        match r with
        | b1 :: b2 :: r2 =>
            let lo := if n0 =? 224 then 160 else 128 in
            let hi := if n0 =? 237 then 159 else 191 in
            if in_range lo hi (Byte.to_N b1) && is_cont b2
            then cons (N.lor (N.shiftl (N.land n0 15) 12)
                         (N.lor (N.shiftl (low6 b1) 6) (low6 b2)))
                   <$> decode_utf8 r2
            else None
        | _ => None
        end
      else if in_range 240 244 n0 then
        match r with
        | b1 :: b2 :: b3 :: r3 =>
            let lo := if n0 =? 240 then 144 else 128 in
            let hi := if n0 =? 244 then 143 else 191 in
            if in_range lo hi (Byte.to_N b1) && is_cont b2 && is_cont b3
            then cons (N.lor (N.shiftl (N.land n0 7) 18)
                         (N.lor (N.shiftl (low6 b1) 12)
                            (N.lor (N.shiftl (low6 b2) 6) (low6 b3))))
                   <$> decode_utf8 r3
            else None
        | _ => None
        end
      else None
  end.

(** [s.encode('ascii')] *)
Fixpoint encode_ascii (s : unicode) : option bytes :=
  match s with
  | [] => Some []
  | c :: s' =>
      if c <? 128 then cons (byte_of c) <$> encode_ascii s' else None
  end.

(** [b.decode('ascii')] *)
Fixpoint decode_ascii (bs : bytes) : option unicode :=
  match bs with
  | [] => Some []
  | b :: r =>
      if Byte.to_N b <? 128 then cons (Byte.to_N b) <$> decode_ascii r
      else None
  end.

(** The [str] of a literal in the ASCII range. *)
Definition u (s : string) : unicode :=
  map (fun a => N_of_ascii a) (list_ascii_of_string s).

End codecs.

(** [base64.encodestring], [base64.decodestring] and the [binascii]
    functions under them. *)
Module base64.
Import codecs.
Local Open Scope N_scope.

Definition alphabet : bytes :=
  list_byte_of_string
    "ABCDEFGHIJKLMNOPQRSTUVWXYZabcdefghijklmnopqrstuvwxyz0123456789+/".

Definition PAD : byte := "="%byte.
Definition NL : byte := x0a.

Definition table_b2a (n : N) : byte := nth (N.to_nat n) alphabet PAD.

(** Three bytes give four characters; a rest of one or two bytes is
    padded with [=]. *)
Fixpoint b2a_groups (data : bytes) : bytes :=
  match data with
  | [] => []
  | [a] =>
      let a := Byte.to_N a in
      [table_b2a (N.shiftr a 2); table_b2a (N.shiftl (N.land a 3) 4); PAD; PAD]
  | [a; b] =>
      let a := Byte.to_N a in
      let b := Byte.to_N b in
      [table_b2a (N.shiftr a 2);
       table_b2a (N.lor (N.shiftl (N.land a 3) 4) (N.shiftr b 4));
       table_b2a (N.shiftl (N.land b 15) 2); PAD]
  | a :: b :: c :: rest =>
      let a := Byte.to_N a in
      let b := Byte.to_N b in
      let c := Byte.to_N c in
      table_b2a (N.shiftr a 2)
      :: table_b2a (N.lor (N.shiftl (N.land a 3) 4) (N.shiftr b 4))
      :: table_b2a (N.lor (N.shiftl (N.land b 15) 2) (N.shiftr c 6))
      :: table_b2a (N.land c 63)
      :: b2a_groups rest
  end.

(** [binascii.b2a_base64(data)]: one line, with its newline. *)
Definition b2a_base64 (data : bytes) : bytes := b2a_groups data ++ [NL].

Definition MAXLINESIZE : nat := 76.
Definition MAXBINSIZE : nat := (MAXLINESIZE / 4) * 3.

(** [[s[i : i + n] for i in range(0, len(s), n)]] *)
Fixpoint chunks_upto (fuel n : nat) (s : bytes) : list bytes :=
  match fuel, s with
  | O, _ | _, [] => []
  | S fuel', _ => take n s :: chunks_upto fuel' n (drop n s)
  end.
Definition chunks (n : nat) (s : bytes) : list bytes :=
  chunks_upto (length s) n s.

(** [base64.encodestring(s)] *)
Definition encodestring (s : bytes) : bytes :=
  concat (map b2a_base64 (chunks MAXBINSIZE s)).

Fixpoint index_of (b : byte) (l : bytes) (i : N) : option N :=
  match l with
  | [] => None
  | x :: l' => if Byte.eqb x b then Some i else index_of b l' (i + 1)
  end.

(** [table_a2b_base64]: the value of a character; the pad character
    has value 0, any other character outside the alphabet has none. *)
Definition table_a2b (b : byte) : option N :=
  if Byte.eqb b PAD then Some 0 else index_of b alphabet 0.

(** [binascii_find_valid(s, slen, num)]: the [(num+1)]-th character of
    [s] that has a value. *)
Fixpoint find_valid (s : bytes) (num : nat) : option byte :=
  match s with
  | [] => None
  | c :: s' =>
      if (Byte.to_N c <=? 127) && bool_decide (table_a2b c <> None)
      then match num with
           | O => Some c
           | S num' => find_valid s' num'
           end
      else find_valid s' num
  end.

(** The loop of [binascii.a2b_base64]; the result is the final
    [leftbits] and the bytes produced. *)
Fixpoint a2b_loop (data : bytes) (quad_pos leftbits leftchar : N) (out : bytes)
  : N * bytes :=
  match data with
  | [] => (leftbits, out)
  | this_ch :: rest =>
      let c := Byte.to_N this_ch in
      if (127 <? c) || (c =? 13) || (c =? 10) || (c =? 32)
      then a2b_loop rest quad_pos leftbits leftchar out
      else if Byte.eqb this_ch PAD then
        if (quad_pos <? 2)
           || ((quad_pos =? 2) && negb (bool_decide (find_valid data 1 = Some PAD)))
        then a2b_loop rest quad_pos leftbits leftchar out
        else (0, out)
      else
        match table_a2b this_ch with
        | None => a2b_loop rest quad_pos leftbits leftchar out
        | Some v =>
            let quad_pos := N.land (quad_pos + 1) 3 in
            let leftchar := N.lor (N.shiftl leftchar 6) v in
            let leftbits := leftbits + 6 in
            if 8 <=? leftbits then
              let leftbits := leftbits - 8 in
              a2b_loop rest quad_pos leftbits
                (N.land leftchar (N.shiftl 1 leftbits - 1))
                (out ++ [byte_of (N.land (N.shiftr leftchar leftbits) 255)])
            else a2b_loop rest quad_pos leftbits leftchar out
        end
  end.

(** [binascii.a2b_base64(data)]; [None] stands for
    [binascii.Error("Incorrect padding")]. *)
Definition a2b_base64 (data : bytes) : option bytes :=
  let '(leftbits, out) := a2b_loop data 0 0 0 [] in
  if leftbits =? 0 then Some out else None.

(** [base64.decodestring(s)] *)
Definition decodestring (s : bytes) : option bytes := a2b_base64 s.

End base64.

(* ===================================================================== *)
(** * The host: file system, open files, refused calls *)
(* ===================================================================== *)

Record meta := Meta { st_mode : N; st_flags : N }.

(** What a path name denotes.  Names are taken as they are spelled. *)
Inductive node : Type :=
| File (data : bytes) (m : meta)
| Dir (m : meta)
| Symlink (target : string).

(** The calls the module makes to the host. *)
Inductive syscall : Type :=
| sys_stat (path : string)
| sys_readlink (path : string)
| sys_mkdir (path : string)
| sys_open (path : string) (writing : bool)
| sys_read (path : string)
| sys_write (path : string)
| sys_fsync (path : string)
| sys_close (path : string)
| sys_chmod (path : string)
| sys_chflags (path : string)
| sys_remove (path : string)
| sys_rename (src dst : string)
| sys_rmtree (path : string).

(** [tempfile]'s random names are made of these characters; a draw is a
    non-empty sequence of indices into them. *)
Definition name_characters : list ascii :=
  list_ascii_of_string "abcdefghijklmnopqrstuvwxyz0123456789_".

Definition draw : Type := N * list N.

Definition name_char (i : N) : ascii :=
  nth (N.to_nat (i mod 37)) name_characters "a"%char.

Definition name_of (d : draw) : string :=
  string_of_list_ascii (map name_char (fst d :: snd d)).

(** The state of the host.  [refused] says which calls the host turns
    down and with which error number (permissions, a full disk, a device
    error); [tmp_names] are the draws [tempfile] will make, in order. *)
Record world := World {
  fs : gmap string node;
  open_files : list string;
  tmp_names : list draw;
  refused : syscall -> option Z;
  os_name : string;
  has_chflags : bool
}.

Definition set_fs (f : gmap string node -> gmap string node) (w : world) : world :=
  World (f (fs w)) (open_files w) (tmp_names w) (refused w) (os_name w) (has_chflags w).

Definition set_open_files (f : list string -> list string) (w : world) : world :=
  World (fs w) (f (open_files w)) (tmp_names w) (refused w) (os_name w) (has_chflags w).

Definition set_tmp_names (l : list draw) (w : world) : world :=
  World (fs w) (open_files w) l (refused w) (os_name w) (has_chflags w).

(** ** Computations that read and change the host and may raise *)

Definition M (A : Type) : Type := world -> result A * world.

Definition ret {A} (a : A) : M A := fun w => (Return a, w).
Definition raise {A} (e : exn) : M A := fun w => (Raise e, w).
Definition bind {A B} (m : M A) (k : A -> M B) : M B :=
  fun w =>
    match m w with
    | (Return a, w') => k a w'
    | (Raise e, w') => (Raise e, w')
    end.

(** [try: m  except <classes matched by handles>: handler] *)
Definition try_except {A} (m : M A) (handles : exn -> bool) (handler : exn -> M A)
  : M A :=
  fun w =>
    match m w with
    | (Raise e, w') => if handles e then handler e w' else (Raise e, w')
    | r => r
    end.

Notation "x <- c1 ;; c2" := (bind c1 (fun x => c2))
  (at level 100, c1 at next level, right associativity).
Notation "c1 ;; c2" := (bind c1 (fun _ => c2))
  (at level 100, right associativity).

Definition get {A} (f : world -> A) : M A := fun w => (Return (f w), w).
Definition modify (f : world -> world) : M unit := fun w => (Return tt, f w).

Definition os_text : exc_text := ExcText "OSError" "OSError()".

Definition os_error (eno : Z) (filename : string) : exn :=
  Py (OSError (Some eno) (Some filename) os_text).

(** A call is first put to the host, which may refuse it. *)
Definition call (c : syscall) (filename : string) : M unit :=
  fun w =>
    match refused w c with
    | Some eno => (Raise (os_error eno filename), w)
    | None => (Return tt, w)
    end.

Definition is_OSError (e : exn) : bool :=
  match e with Py (OSError _ _ _) => true | _ => false end.

(** ** Names and links *)

Definition SYMLOOP_MAX : nat := 40.

(** The name a path leads to once the links at its end are followed;
    [None] when they do not end. *)
Fixpoint follow (fuel : nat) (m : gmap string node) (p : string) : option string :=
  match m !! p with
  | Some (Symlink t) =>
      match fuel with
      | O => None
      | S fuel' => follow fuel' m (posixpath.join (posixpath.dirname p) t)
      end
  | _ => Some p
  end.

(** [os.stat(path)]: the name reached and what is there. *)
Definition os_stat (path : string) : M (string * node) :=
  call (sys_stat path) path ;;
  m <- get fs ;;
  match follow SYMLOOP_MAX m path with
  | None => raise (os_error errno.ELOOP path)
  | Some k =>
      match m !! k with
      | Some n => ret (k, n)
      | None => raise (os_error errno.ENOENT path)
      end
  end.

(** [os.path.exists], [os.path.isfile]: [False] when [os.stat] fails. *)
Definition os_path_exists (path : string) : M bool :=
  fun w => match os_stat path w with
           | (Return _, _) => (Return true, w)
           | (Raise _, _) => (Return false, w)
           end.

Definition os_path_isfile (path : string) : M bool :=
  fun w => match os_stat path w with
           | (Return (_, File _ _), _) => (Return true, w)
           | _ => (Return false, w)
           end.

(** [os.path.islink(path)] *)
Definition os_path_islink (path : string) : M bool :=
  fun w => match fs w !! path with
           | Some (Symlink _) => (Return true, w)
           | _ => (Return false, w)
           end.

(** [os.readlink(path)] *)
Definition os_readlink (path : string) : M string :=
  call (sys_readlink path) path ;;
  m <- get fs ;;
  match m !! path with
  | Some (Symlink t) => ret t
  | Some _ => raise (os_error 22 path)
  | None => raise (os_error errno.ENOENT path)
  end.

(** Whether a new entry can be made under the name [k]: the directory it
    lies in must exist (a name without directory part lies in the working
    directory). *)
Definition parent_is_dir (m : gmap string node) (k : string) : bool :=
  let d := posixpath.dirname k in
  if bool_decide (d = "") then true
  else match follow SYMLOOP_MAX m d with
       | Some d' => match m !! d' with Some (Dir _) => true | _ => false end
       | None => false
       end.

(** ** Directories *)

(** [os.mkdir(path, mode)] *)
Definition os_mkdir (path : string) (mode : N) : M unit :=
  call (sys_mkdir path) path ;;
  m <- get fs ;;
  match m !! path with
  | Some _ => raise (os_error errno.EEXIST path)
  | None =>
      if parent_is_dir m path
      then modify (set_fs (insert path (Dir (Meta mode 0))))
      else raise (os_error errno.ENOENT path)
  end.

Definition is_EEXIST (e : exn) : bool :=
  match e with
  | Py (OSError (Some eno) _ _) => bool_decide (eno = errno.EEXIST)
  | _ => false
  end.

(** [tempfile.mkdtemp(prefix=prefix, dir=dir)]: names are drawn until
    one is free. *)
Fixpoint mkdtemp_from (names : list draw) (prefix dir : string) : M string :=
  match names with
  | [] =>
      raise (Py (OSError (Some errno.EEXIST) None
                   (ExcText "No usable temporary directory name found"
                            "FileExistsError()")))
  | name :: rest =>
      let file := posixpath.join dir (prefix +:+ name_of name) in
      modify (set_tmp_names rest) ;;
      try_except (os_mkdir file 448 ;; ret file) is_EEXIST
        (fun _ => mkdtemp_from rest prefix dir)
  end.

Definition tempfile_mkdtemp (prefix dir : string) : M string :=
  names <- get tmp_names ;;
  mkdtemp_from names prefix dir.

(** Whether [k] is [dir] or lies under it. *)
Definition under (dir k : string) : bool :=
  bool_decide (k = dir) || Str.startswith k (dir +:+ "/").

(** [shutil.rmtree(path)] *)
Definition shutil_rmtree (path : string) : M unit :=
  call (sys_rmtree path) path ;;
  m <- get fs ;;
  match m !! path with
  | Some (Dir _) =>
      modify (set_fs (filter (fun kv => under path (fst kv) = false)))
  | Some (File _ _) => raise (os_error errno.ENOTDIR path)
  | Some (Symlink _) =>
      raise (Py (OSError None None
                   (ExcText "Cannot call rmtree on a symbolic link" "OSError()")))
  | None => raise (os_error errno.ENOENT path)
  end.

(** ** Files *)

(** An open file object: the name it was opened under (links followed),
    whether it is in text mode, and what has been written to it but not
    yet handed to the host. *)
Record fileobj := FileObj { f_name : string; f_text : bool; f_buf : bytes }.

Definition default_meta : meta := Meta 420 0.

(** [io.open(path, 'w')] and [io.open(path, 'wb')] *)
Definition io_open_w (path : string) (text : bool) : M fileobj :=
  call (sys_open path true) path ;;
  m <- get fs ;;
  match follow SYMLOOP_MAX m path with
  | None => raise (os_error errno.ELOOP path)
  | Some k =>
      let opened :=
        modify (set_open_files (cons k)) ;; ret (FileObj k text []) in
      match m !! k with
      | Some (File _ mt) => modify (set_fs (insert k (File [] mt))) ;; opened
      | Some (Dir _) => raise (os_error errno.EISDIR path)
      | Some (Symlink _) => raise (os_error errno.ELOOP path)
      | None =>
          if bool_decide (posixpath.basename k = "")
          then raise (os_error errno.EISDIR path)
          else if parent_is_dir m k
          then modify (set_fs (insert k (File [] default_meta))) ;; opened
          else raise (os_error errno.ENOENT path)
      end
  end.

(** [io.open(path, 'r')] and [io.open(path, 'rb')] *)
Definition io_open_r (path : string) (text : bool) : M fileobj :=
  call (sys_open path false) path ;;
  m <- get fs ;;
  match follow SYMLOOP_MAX m path with
  | None => raise (os_error errno.ELOOP path)
  | Some k =>
      match m !! k with
      | Some (File _ _) =>
          modify (set_open_files (cons k)) ;; ret (FileObj k text [])
      | Some (Dir _) => raise (os_error errno.EISDIR path)
      | Some (Symlink _) => raise (os_error errno.ELOOP path)
      | None => raise (os_error errno.ENOENT path)
      end
  end.

(** [f.read()] on a file opened with ['rb']. *)
Definition f_read (f : fileobj) : M bytes :=
  call (sys_read (f_name f)) (f_name f) ;;
  m <- get fs ;;
  match m !! f_name f with
  | Some (File data _) => ret data
  | _ => raise (os_error errno.ENOENT (f_name f))
  end.

(** What the block of a [with] statement does with the file object it
    is given: it returns or raises, and it has written some bytes to the
    file object. *)
Definition block : Type := fileobj -> result unit * bytes.

(** [f.write(b)] on a file opened with ['wb']. *)
Definition f_write (f : fileobj) (b : bytes) : result unit * bytes :=
  (Return tt, b).

(** [f.write(s)] on a file opened with ['w', encoding='utf-8']. *)
Definition f_write_text (f : fileobj) (s : unicode) : result unit * bytes :=
  match codecs.encode_utf8 s with
  | Some b => f_write f b
  | None =>
      (Raise (Py (UnicodeError
                    (ExcText "'utf-8' codec can't encode: surrogates not allowed"
                             "UnicodeEncodeError()"))), [])
  end.

(** The file object once [b] has been written to it: the bytes are
    buffered. *)
Definition buffered (f : fileobj) (b : bytes) : fileobj :=
  FileObj (f_name f) (f_text f) (f_buf f ++ b).

Definition append_data (k : string) (b : bytes) (m : gmap string node)
  : gmap string node :=
  match m !! k with
  | Some (File data mt) => <[k := File (data ++ b) mt]> m
  | _ => m
  end.

(** [f.flush()]: the buffer, if there is any, goes to the host. *)
Definition f_flush (f : fileobj) : M fileobj :=
  if bool_decide (f_buf f = []) then ret f
  else
    call (sys_write (f_name f)) (f_name f) ;;
    modify (set_fs (append_data (f_name f) (f_buf f))) ;;
    ret (FileObj (f_name f) (f_text f) []).

(** [os.fsync(f.fileno())] *)
Definition os_fsync (f : fileobj) : M unit :=
  call (sys_fsync (f_name f)) (f_name f).

Fixpoint remove_one (k : string) (l : list string) : list string :=
  match l with
  | [] => []
  | x :: l' => if bool_decide (x = k) then l' else x :: remove_one k l'
  end.

(** [f.close()]: flushes; the descriptor is released whether or not the
    flush or the close itself fails. *)
Definition f_close (f : fileobj) : M unit :=
  fun w =>
    let '(r, w1) := f_flush f w in
    let w2 := set_open_files (remove_one (f_name f)) w1 in
    match r with
    | Raise e => (Raise e, w2)
    | Return _ => call (sys_close (f_name f)) (f_name f) w2
    end.

(** [os.remove(path)] *)
Definition os_remove (path : string) : M unit :=
  call (sys_remove path) path ;;
  m <- get fs ;;
  match m !! path with
  | Some (Dir _) => raise (os_error errno.EISDIR path)
  | Some _ => modify (set_fs (delete path))
  | None => raise (os_error errno.ENOENT path)
  end.

(** [os.rename(src, dst)] for a file or a link [src] (the module renames
    nothing else; a directory is turned down).  On Windows an existing
    [dst] is not replaced. *)
Definition os_rename (src dst : string) : M unit :=
  call (sys_rename src dst) src ;;
  m <- get fs ;;
  nt <- get (fun w => bool_decide (os_name w = "nt")) ;;
  match m !! src with
  | None => raise (os_error errno.ENOENT src)
  | Some (Dir _) => raise (Py (OSError None (Some src) os_text))
  | Some n =>
      match m !! dst with
      | Some (Dir _) => raise (os_error errno.EISDIR dst)
      | Some _ =>
          if nt then raise (os_error errno.EEXIST dst)
          else modify (set_fs (fun m => <[dst := n]> (delete src m)))
      | None =>
          if parent_is_dir m dst
          then modify (set_fs (fun m => <[dst := n]> (delete src m)))
          else raise (os_error errno.ENOENT dst)
      end
  end.

Definition node_meta (n : node) : meta :=
  match n with
  | File _ mt | Dir mt => mt
  | Symlink _ => default_meta
  end.

Definition set_node_meta (f : meta -> meta) (n : node) : node :=
  match n with
  | File d mt => File d (f mt)
  | Dir mt => Dir (f mt)
  | Symlink t => Symlink t
  end.

(** [os.chmod(path, mode)] and [os.chflags(path, flags)] *)
Definition os_chmeta (c : syscall) (path : string) (f : meta -> meta) : M unit :=
  call c path ;;
  m <- get fs ;;
  match follow SYMLOOP_MAX m path with
  | None => raise (os_error errno.ELOOP path)
  | Some k =>
      match m !! k with
      | Some n => modify (set_fs (insert k (set_node_meta f n)))
      | None => raise (os_error errno.ENOENT path)
      end
  end.

Definition os_chmod (path : string) (mode : N) : M unit :=
  os_chmeta (sys_chmod path) path (fun mt => Meta mode (st_flags mt)).

Definition os_chflags (path : string) (flags : N) : M unit :=
  os_chmeta (sys_chflags path) path (fun mt => Meta (st_mode mt) flags).

(** [shutil.copymode(src, dst)] *)
Definition shutil_copymode (src dst : string) : M unit :=
  st <- os_stat src ;;
  os_chmod dst (st_mode (node_meta (snd st))).

(* ===================================================================== *)
(** * [atomic_writing] *)
(* ===================================================================== *)

(** [_copy_metadata(src, dst)] *)
Definition _copy_metadata (src dst : string) : M unit :=
  shutil_copymode src dst ;;
  st <- os_stat src ;;
  chflags <- get has_chflags ;;
  if chflags then os_chflags dst (st_flags (node_meta (snd st))) else ret tt.

(** What [atomic_writing] has set up when it yields. *)
Record staging := Staging {
  dest : string;       (* [path], after the link at its end is resolved *)
  tmp_dir : string;
  tmp_path : string;
  handle : fileobj
}.

(** [atomic_writing], up to its [yield fileobj]. *)
Definition atomic_writing_enter (path : string) (text : bool) : M staging :=
  islink <- os_path_islink path ;;
  path <- (if islink : bool
           then target <- os_readlink path ;;
                ret (posixpath.join (posixpath.dirname path) target)
           else ret path) ;;
  let '(dirname, basename) := posixpath.split path in
  tmp_dir <- tempfile_mkdtemp basename dirname ;;
  let tmp_path := posixpath.join tmp_dir basename in
  fileobj <- io_open_w tmp_path text ;;
  ret (Staging path tmp_dir tmp_path fileobj).

(** The [except:] clause around the [yield]: the block raised [e]. *)
Definition atomic_writing_rollback (s : staging) (fileobj : fileobj) (e : exn)
  : M unit :=
  f_close fileobj ;;
  shutil_rmtree (tmp_dir s) ;;
  raise e.

(** [atomic_writing], after a block that did not raise. *)
Definition atomic_writing_commit (s : staging) (fileobj : fileobj) : M unit :=
  fileobj <- f_flush fileobj ;;
  os_fsync fileobj ;;
  f_close fileobj ;;
  try_except (_copy_metadata (dest s) (tmp_path s)) is_OSError (fun _ => ret tt) ;;
  nt <- get (fun w => bool_decide (os_name w = "nt")) ;;
  ex <- os_path_exists (dest s) ;;
  (if nt && ex then os_remove (dest s) else ret tt) ;;
  os_rename (tmp_path s) (dest s) ;;
  shutil_rmtree (tmp_dir s).

(** [with atomic_writing(path, text=text) as f: block(f)].  The block has
    the file object and nothing else: it writes to it and returns or
    raises. *)
Definition atomic_writing (path : string) (text : bool) (blk : block) : M unit :=
  s <- atomic_writing_enter path text ;;
  match blk (handle s) with
  | (Raise e, written) =>
      atomic_writing_rollback s (buffered (handle s) written) e
  | (Return _, written) =>
      atomic_writing_commit s (buffered (handle s) written)
  end.

(* ===================================================================== *)
(** * [FileManagerMixin]: reading and writing *)
(* ===================================================================== *)

(** [with self.perm_to_403(os_path): m] *)
Definition with_perm_to_403 {A} (self : FileManagerMixin) (os_path : string)
    (m : M A) : M A :=
  fun w => let '(r, w') := m w in (perm_to_403 self os_path r, w').

(** [with opening as f: block(f)] for a file object: [f] is closed on the
    way out, however the block ends. *)
Definition with_file {A} (opening : M fileobj) (block : fileobj -> M A) : M A :=
  f <- opening ;;
  fun w =>
    let '(r, w1) := block f w in
    match f_close f w1 with
    | (Raise e, w2) => (Raise e, w2)
    | (Return _, w2) => (r, w2)
    end.

(** [with self.open(os_path, 'r' or 'rb') as f: block(f)] *)
Definition FileManagerMixin_open {A} (self : FileManagerMixin) (os_path : string)
    (text : bool) (block : fileobj -> M A) : M A :=
  with_perm_to_403 self os_path (with_file (io_open_r os_path text) block).

(** [with self.atomic_writing(os_path, text=text) as f: block(f)] *)
Definition FileManagerMixin_atomic_writing (self : FileManagerMixin)
    (os_path : string) (text : bool) (blk : block) : M unit :=
  with_perm_to_403 self os_path (atomic_writing os_path text blk).

(** The text of an exception put into a message with [%s] and [%r].  An
    [HTTPError] is never formatted by the module. *)
Definition exn_str (e : exn) : string :=
  match e with Py e => str_of e | HTTPError _ msg _ => msg end.
Definition exn_repr (e : exn) : string :=
  match e with Py e => repr_of e | HTTPError _ msg _ => msg end.

(** [isinstance(e, Exception)] *)
Definition exn_is_Exception (e : exn) : bool :=
  match e with Py e => is_Exception e | HTTPError _ _ _ => true end.

Definition is_UnicodeError (e : exn) : bool :=
  match e with Py (UnicodeError _) => true | _ => false end.

(** [b.decode(...)], [s.encode(...)] and [base64.decodestring(b)] as
    they raise. *)
Definition of_codec {A} (o : option A) (e : pyexc) : result A :=
  match o with Some a => Return a | None => Raise (Py e) end.

Definition bytes_decode_utf8 (b : bytes) : result unicode :=
  of_codec (codecs.decode_utf8 b)
    (UnicodeError (ExcText "'utf-8' codec can't decode bytes: invalid data"
                           "UnicodeDecodeError()")).
Definition bytes_decode_ascii (b : bytes) : result unicode :=
  of_codec (codecs.decode_ascii b)
    (UnicodeError (ExcText "'ascii' codec can't decode byte: ordinal not in range(128)"
                           "UnicodeDecodeError()")).
Definition str_encode_utf8 (s : unicode) : result bytes :=
  of_codec (codecs.encode_utf8 s)
    (UnicodeError (ExcText "'utf-8' codec can't encode character: surrogates not allowed"
                           "UnicodeEncodeError()")).
Definition str_encode_ascii (s : unicode) : result bytes :=
  of_codec (codecs.encode_ascii s)
    (UnicodeError (ExcText "'ascii' codec can't encode character: ordinal not in range(128)"
                           "UnicodeEncodeError()")).
Definition base64_decodestring (b : bytes) : result bytes :=
  of_codec (base64.decodestring b)
    (binascii_Error (ExcText "Incorrect padding" "Error('Incorrect padding')")).

Definition lift {A} (r : result A) : M A := fun w => (r, w).

(** The end of [_read_file]: from the bytes read to the result. *)
Definition _read_file_decode (os_path : string) (format : option string)
    (bcontent : bytes) : result (unicode * string) :=
  let as_base64 : result (unicode * string) :=
    match bytes_decode_ascii (base64.encodestring bcontent) with
    | Return s => Return (s, "base64")
    | Raise e => Raise e
    end in
  if bool_decide (format = None) || bool_decide (format = Some "text")
  then
    match bytes_decode_utf8 bcontent with
    | Return s => Return (s, "text")
    | Raise e =>
        if is_UnicodeError e then
          if bool_decide (format = Some "text")
          then Raise (HTTPError 400 (os_path +:+ " is not UTF-8 encoded")
                        (Some "bad format"))
          else as_base64
        else Raise e
    end
  else as_base64.

(** [_read_file(self, os_path, format)]; [format] is [None] when it is
    not specified. *)
Definition _read_file (self : FileManagerMixin) (os_path : string)
    (format : option string) : M (unicode * string) :=
  isfile <- os_path_isfile os_path ;;
  if negb isfile
  then raise (HTTPError 400 ("Cannot read non-file " +:+ os_path) None)
  else
    bcontent <- FileManagerMixin_open self os_path false f_read ;;
    lift (_read_file_decode os_path format bcontent).

(** The [try] block of [_save_file]: from the content to the bytes. *)
Definition _save_file_encode (content : unicode) (format : option string)
  : result bytes :=
  if bool_decide (format = Some "text")
  then str_encode_utf8 content
  else match str_encode_ascii content with
       | Return b64_bytes => base64_decodestring b64_bytes
       | Raise e => Raise e
       end.

(** [_save_file(self, os_path, content, format)] *)
Definition _save_file (self : FileManagerMixin) (os_path : string)
    (content : unicode) (format : option string) : M unit :=
  if negb (bool_decide (format = Some "text") || bool_decide (format = Some "base64"))
  then raise (HTTPError 400
                "Must specify format of file contents as 'text' or 'base64'" None)
  else
    match _save_file_encode content format with
    | Raise e =>
        if exn_is_Exception e
        then raise (HTTPError 400
                      ("Encoding error saving " +:+ os_path +:+ ": " +:+ exn_str e)
                      None)
        else raise e
    | Return bcontent =>
        FileManagerMixin_atomic_writing self os_path false
          (fun f => f_write f bcontent)
    end.

(** What a file opened for reading in text mode hands out ([io.open]
    with ['r'] and the default [newline=None]): a carriage return
    followed by a line feed, and a carriage return alone, are read as a
    line feed. *)
Fixpoint universal_newlines (s : unicode) : unicode :=
  match s with
  | [] => []
  | c :: s' =>
      if (c =? 13)%N then
        10%N :: match s' with
                | c' :: s'' =>
                    if (c' =? 10)%N then universal_newlines s''
                    else universal_newlines s'
                | [] => []
                end
      else c :: universal_newlines s'
  end.

(** ** Notebooks

    [IPython.nbformat] is the document codec, a collaborator outside the
    module: [reads] parses the text of a notebook at a version, [writes]
    gives the text of a notebook. *)
Section Notebooks.

Variable notebook : Type.
Variable nbformat_reads : unicode -> Z -> result notebook.
Variable nbformat_writes : notebook -> result unicode.

(** [nbformat.read(f, as_version=as_version)] on a file opened with
    ['r', encoding='utf-8']: the bytes are decoded and, the file being
    in text mode, the line endings are translated before the text is
    parsed. *)
Definition nbformat_read (f : fileobj) (as_version : Z) : M notebook :=
  b <- f_read f ;;
  s <- lift (bytes_decode_utf8 b) ;;
  lift (nbformat_reads (universal_newlines s) as_version).

(** [nbformat.write(nb, f, version=nbformat.NO_CONVERT)] *)
Definition nbformat_write (nb : notebook) (f : fileobj) : result unit * bytes :=
  match nbformat_writes nb with
  | Return s => f_write_text f s
  | Raise e => (Raise e, [])
  end.

(** [_read_notebook(self, os_path, as_version)] *)
Definition _read_notebook (self : FileManagerMixin) (os_path : string)
    (as_version : Z) : M notebook :=
  FileManagerMixin_open self os_path true
    (fun f =>
       try_except (nbformat_read f as_version) exn_is_Exception
         (fun e => raise (HTTPError 400
                            ("Unreadable Notebook: " +:+ os_path +:+ " " +:+ exn_repr e)
                            None))).

(** [_save_notebook(self, os_path, nb)] *)
Definition _save_notebook (self : FileManagerMixin) (os_path : string)
    (nb : notebook) : M unit :=
  FileManagerMixin_atomic_writing self os_path true (nbformat_write nb).

End Notebooks.

(* ===================================================================== *)
(** * [FileManagerMixin._copy] *)
(* ===================================================================== *)

(** [shutil._samefile(src, dst)]: [False] when either cannot be
    examined. *)
Definition shutil_samefile (src dst : string) : M bool :=
  fun w => match os_stat src w, os_stat dst w with
           | (Return (k1, _), _), (Return (k2, _), _) =>
               (Return (bool_decide (k1 = k2)), w)
           | _, _ => (Return false, w)
           end.

(** [with open(dst, 'wb') as fdst: copyfileobj(fsrc, fdst)] *)
Definition copy_into (fsrc : fileobj) (dst : string) : M unit :=
  fdst <- io_open_w dst false ;;
  fun w =>
    match f_read fsrc w with
    | (Return data, w1) => f_close (buffered fdst data) w1
    | (Raise e, w1) =>
        match f_close fdst w1 with
        | (Raise e', w2) => (Raise e', w2)
        | (Return _, w2) => (Raise e, w2)
        end
    end.

(** [shutil.copyfile(src, dst)]; [shutil.Error] is an [EnvironmentError]. *)
Definition shutil_copyfile (src dst : string) : M unit :=
  same <- shutil_samefile src dst ;;
  if same : bool
  then raise (Py (OSError None None
                    (ExcText (src +:+ " and " +:+ dst +:+ " are the same file")
                             "Error()")))
  else with_file (io_open_r src false) (fun fsrc => copy_into fsrc dst).

Definition is_ENOTSUP (e : exn) : bool :=
  match e with
  | Py (OSError (Some eno) _ _) => bool_decide (eno = 95%Z)
  | _ => false
  end.

(** [shutil.copystat(src, dst)]: permission bits and flags (the times of
    a file are not part of the host). *)
Definition shutil_copystat (src dst : string) : M unit :=
  st <- os_stat src ;;
  os_chmod dst (st_mode (node_meta (snd st))) ;;
  chflags <- get has_chflags ;;
  if chflags : bool
  then try_except (os_chflags dst (st_flags (node_meta (snd st)))) is_ENOTSUP
         (fun _ => ret tt)
  else ret tt.

(** [_copy(self, src, dest)]; the message to [self.log] does not touch
    the host. *)
Definition _copy (self : FileManagerMixin) (src dest : string) : M unit :=
  shutil_copyfile src dest ;;
  try_except (shutil_copystat src dest) is_OSError (fun _ => ret tt).

(* ===================================================================== *)
(** * Conditions on the host, and sample hosts *)
(* ===================================================================== *)

(** [path] leads to a regular file holding [data]. *)
Definition file_at (w : world) (path : string) (data : bytes) : Prop :=
  exists k mt,
    follow SYMLOOP_MAX (fs w) path = Some k /\ fs w !! k = Some (File data mt).

(** [path] leads to a regular file holding [data], and the host lets it
    be examined, opened for reading, read and closed. *)
Definition readable (w : world) (path : string) (data : bytes) : Prop :=
  refused w (sys_stat path) = None
  /\ refused w (sys_open path false) = None
  /\ exists k mt,
       follow SYMLOOP_MAX (fs w) path = Some k
       /\ fs w !! k = Some (File data mt)
       /\ refused w (sys_read k) = None
       /\ refused w (sys_close k) = None.

(** Every name under which something lies exists itself: for a name [k]
    of the file system, each proper prefix of [k] that ends before a
    separator (the empty prefix apart) is a name of the file system. *)
Definition ancestors_in (m : gmap string node) (k : string) : bool :=
  forallb
    (fun i =>
       negb (Str.is_sep (nth i (Str.chars k) "a"%char))
       || bool_decide (i = 0)
       || bool_decide (is_Some (m !! Str.text (take i (Str.chars k)))))
    (seq 0 (length (Str.chars k))).

Definition fs_wf (m : gmap string node) : Prop :=
  map_Forall (fun k _ => ancestors_in m k = true) m.

Definition sample_fs : gmap string node :=
  list_to_map
    [("/", Dir (Meta 493 0));
     ("/srv", Dir (Meta 493 0));
     ("/srv/nb", Dir (Meta 493 0));
     ("/srv/nb/a.txt", File (list_byte_of_string "old") (Meta 384 0));
     ("/srv/nb/raw.bin", File [x00; x01; xff] (Meta 420 0))].

Definition sample_draws : list draw :=
  [(10, [29; 23; 35; 16; 28; 0; 1]); (5, [5; 5; 5; 5; 5; 5; 5])]%N.

(** A host that refuses nothing. *)
Definition sample_world : world :=
  World sample_fs [] sample_draws (fun _ => None) "posix" false.

(** A host on which the staging directory of [/srv/nb/a.txt] cannot be
    removed (error 16, device or resource busy). *)
Definition busy_world : world :=
  World sample_fs [] sample_draws
    (fun c => match c with
              | sys_rmtree p =>
                  if bool_decide (p = "/srv/nb/a.txtk3x9q2ab") then Some 16%Z else None
              | _ => None
              end)
    "posix" false.

(** A host on which no directory can be made in [/srv/nb] (error 13,
    permission denied). *)
Definition readonly_world : world :=
  World sample_fs [] sample_draws
    (fun c => match c with
              | sys_mkdir p =>
                  if Str.startswith p "/srv/nb/" then Some errno.EACCES else None
              | _ => None
              end)
    "posix" false.

(** A host on which no file can be opened for reading (error 13,
    permission denied). *)
Definition locked_world : world :=
  World sample_fs [] sample_draws
    (fun c => match c with
              | sys_open _ false => Some errno.EACCES
              | _ => None
              end)
    "posix" false.

Definition sample_manager : FileManagerMixin := {| root_dir := "/srv/nb" |}.

Definition boom : exn :=
  Py (OtherException "ValueError" (ExcText "boom" "ValueError('boom')")).

(* ===================================================================== *)
(** * Notions used in the statements and proofs *)
(* ===================================================================== *)

(** A character [base64.encodestring] writes on a line. *)
Definition b64_char (b : byte) : Prop := In b (base64.PAD :: base64.alphabet).

(** A segment of a path: not empty and without separator. *)
Definition segment (p : list ascii) : Prop :=
  p <> [] /\ Forall (fun a : ascii => a <> Str.sep) p.

(** What [join] puts between a path and a segment. *)
Definition joint (r : list ascii) : list ascii :=
  if negb (Str.nonempty r) || Str.endswith_char r Str.sep then [] else [Str.sep].

(** The staging directory of [p] made with the draw [d]. *)
Definition staging_dir (p : string) (d : draw) : string :=
  posixpath.join (posixpath.dirname p) (posixpath.basename p +:+ name_of d).

(** The destination of [atomic_writing(path)]: [path], or where the
    link at [path] points. *)
Definition resolved_dest (m : gmap string node) (path : string) : string :=
  match m !! path with
  | Some (Symlink target) => posixpath.join (posixpath.dirname path) target
  | _ => path
  end.

(** The host once [atomic_writing] has set up the staging directory [td]
    and opened the temporary file [tp] in it. *)
Definition staged (w : world) (td tp : string) (rest : list draw) : world :=
  World (<[tp := File [] default_meta]> (<[td := Dir (Meta 448 0)]> (fs w)))
        (tp :: open_files w) rest (refused w) (os_name w) (has_chflags w).

(** A block that writes three bytes and raises. *)
Definition failing_block : block :=
  fun _ => (Raise boom, list_byte_of_string "par").

(** What [atomic_writing("/srv/nb/a.txt")] sets up on the sample hosts. *)
Definition sample_staging : staging :=
  Staging "/srv/nb/a.txt" "/srv/nb/a.txtk3x9q2ab" "/srv/nb/a.txtk3x9q2ab/a.txt"
    (FileObj "/srv/nb/a.txtk3x9q2ab/a.txt" false []).

(** The host refuses no call made to read [path]. *)
Definition reads_allowed (w : world) (path : string) : Prop :=
  refused w (sys_stat path) = None
  /\ refused w (sys_open path false) = None
  /\ forall k, refused w (sys_read k) = None /\ refused w (sys_close k) = None.

(* ===================================================================== *)
(** * More sample hosts *)
(* ===================================================================== *)

(** The sample host with a link [/srv/nb/latest] to [a.txt]. *)
Definition linked_world : world :=
  World (<["/srv/nb/latest" := Symlink "a.txt"]> sample_fs) [] sample_draws
    (fun _ => None) "posix" false.

(** A block that writes three bytes and returns. *)
Definition writing_block : block :=
  fun f => f_write f (list_byte_of_string "new").

(** The sample host, refusing every change of permission bits (error 1,
    operation not permitted). *)
Definition strict_world : world :=
  World sample_fs [] sample_draws
    (fun c => match c with sys_chmod _ => Some errno.EPERM | _ => None end)
    "posix" false.

(** The sample host, refusing to open any file for writing (error 28, no
    space left on device). *)
Definition full_world : world :=
  World sample_fs [] sample_draws
    (fun c => match c with sys_open _ true => Some errno.ENOSPC | _ => None end)
    "posix" false.

(** A Windows host that refuses every renaming (error 13). *)
Definition windows_world : world :=
  World sample_fs [] sample_draws
    (fun c => match c with sys_rename _ _ => Some errno.EACCES | _ => None end)
    "nt" false.

(** The sample host, refusing to synchronize any file (error 5,
    input/output error). *)
Definition failing_disk_world : world :=
  World sample_fs [] sample_draws
    (fun c => match c with sys_fsync _ => Some 5%Z | _ => None end)
    "posix" false.

(* ===================================================================== *)
(** * Notions used for the staging area, copies and normalized paths *)
(* ===================================================================== *)

(** The head [split] gives: it does not end with a separator, or it
    consists of separators. *)
Definition split_head (h : list ascii) : Prop :=
  (h <> [] /\ forall a, last h = Some a -> a <> Str.sep)
  \/ Forall (fun a : ascii => a = Str.sep) h.

(** The host once the temporary file holds [b] with the metadata [mt]
    and is closed. *)
Definition written_world (w : world) (td tp : string) (rest : list draw)
    (b : bytes) (mt : meta) : world :=
  World (<[tp := File b mt]> (<[td := Dir (Meta 448 0)]> (fs w)))
        (open_files w) rest (refused w) (os_name w) (has_chflags w).

(** The host once [atomic_writing] has put [b] at [dst]. *)
Definition installed_world (w : world) (dst : string) (rest : list draw)
    (b : bytes) (mt : meta) : world :=
  World (<[dst := File b mt]> (fs w))
        (open_files w) rest (refused w) (os_name w) (has_chflags w).

(** The end of [atomic_writing]: from [os.name == 'nt'] on. *)
Definition commit_tail (s : staging) : M unit :=
  nt <- get (fun w => bool_decide (os_name w = "nt")) ;;
  ex <- os_path_exists (dest s) ;;
  (if nt && ex then os_remove (dest s) else ret tt) ;;
  os_rename (tmp_path s) (dest s) ;;
  shutil_rmtree (tmp_dir s).

(** What [atomic_writing] needs from the host to set up the staging
    area with the draw [d] and to put a file at the destination. *)
Definition writes_allowed (w : world) (path : string) (d : draw) : Prop :=
  let dst := resolved_dest (fs w) path in
  let td := staging_dir dst d in
  let tp := posixpath.join td (posixpath.basename dst) in
  refused w (sys_readlink path) = None
  /\ refused w (sys_mkdir td) = None
  /\ refused w (sys_open tp true) = None
  /\ refused w (sys_write tp) = None
  /\ refused w (sys_fsync tp) = None
  /\ refused w (sys_close tp) = None
  /\ refused w (sys_rename tp dst) = None
  /\ refused w (sys_rmtree td) = None.

(** The metadata the new file gets from a destination with the
    metadata [mt0]: its permission bits, and its flags where the host
    has [os.chflags]. *)
Definition copied_meta (w : world) (mt0 : meta) : meta :=
  Meta (st_mode mt0) (if has_chflags w then st_flags mt0 else st_flags default_meta).

(** The file system of [W] is that of [w] with the staging directory
    [td] and something at the temporary file [tp]. *)
Definition only_staging (w : world) (td tp : string) (W : world) : Prop :=
  exists n, fs W = <[tp := n]> (<[td := Dir (Meta 448 0)]> (fs w)).

(** The bytes behind a name. *)
Definition node_data (n : option node) : option bytes :=
  match n with Some (File d _) => Some d | _ => None end.

(** The links of a file system. *)
Definition node_link (n : option node) : option string :=
  match n with Some (Symlink t) => Some t | _ => None end.

(** Two file systems with the same links and the same bytes behind
    every name. *)
Definition same_content (m m' : gmap string node) : Prop :=
  forall x, node_link (m' !! x) = node_link (m !! x)
            /\ node_data (m' !! x) = node_data (m !! x).

(** A segment that [normpath] keeps as it is: neither [.] nor [..]. *)
Definition plain (c : list ascii) : Prop :=
  segment c /\ c <> ["."%char] /\ c <> ["."%char; "."%char].

(* ===================================================================== *)
(** * Facts about strings and paths *)
(* ===================================================================== *)

Section StrFacts.
Import Str.

Lemma chars_text (l : list ascii) : chars (text l) = l.
Proof. apply list_ascii_of_string_of_list_ascii. Qed.

Lemma text_chars (s : string) : text (chars s) = s.
Proof. apply string_of_list_ascii_of_string. Qed.

Lemma chars_app (a b : string) : chars (a +:+ b) = chars a ++ chars b.
Proof. induction a as [|c a IH]; simpl; [done|]. unfold chars in *. simpl. by rewrite IH. Qed.

Lemma chars_inj (a b : string) : chars a = chars b -> a = b.
Proof. intros H. rewrite <- (text_chars a), <- (text_chars b). by rewrite H. Qed.

Lemma ascii_eqb_true (a b : ascii) : Ascii.eqb a b = true <-> a = b.
Proof. apply Ascii.eqb_eq. Qed.

Lemma startswith_l_spec (l p : list ascii) :
  startswith_l l p = true <-> exists r, l = p ++ r.
Proof.
  revert l. induction p as [|b p IH]; intros l; simpl.
  - split; [intros _; by exists l | intros _; reflexivity].
  - destruct l as [|a l]; simpl.
    + split; [done|]. intros [r Hr]. discriminate.
    + rewrite andb_true_iff, ascii_eqb_true, IH. split.
      * intros [-> [r ->]]. eauto.
      * intros [r Hr]. injection Hr as -> ->. eauto.
Qed.

Lemma startswith_l_app (p r : list ascii) : startswith_l (p ++ r) p = true.
Proof. apply startswith_l_spec. eauto. Qed.

Lemma startswith_l_shorter (l p q : list ascii) :
  startswith_l l (p ++ q) = true -> startswith_l l p = true.
Proof.
  rewrite !startswith_l_spec. intros [r ->]. exists (q ++ r). by rewrite app_assoc.
Qed.

End StrFacts.

(* ===================================================================== *)
(** * Path resolution *)
(* ===================================================================== *)

(** What [_get_os_path] tests. *)
Lemma get_os_path_test (self : FileManagerMixin) (cwd path : string) :
  let root := posixpath.abspath cwd (root_dir self) in
  let os_path := utils.to_os_path path root in
  _get_os_path self cwd path =
    if Str.startswith (posixpath.abspath cwd os_path +:+ "/") root
    then Return os_path
    else Raise (HTTPError 404 (path +:+ " is outside root contents directory") None).
Proof.
  intros root os_path. unfold _get_os_path. fold root. fold os_path.
  change (String Str.sep "") with "/".
  by destruct (Str.startswith _ _).
Qed.

(** A path that lies inside root by the test with a separator on both
    sides is resolved. *)
Lemma get_os_path_inside (self : FileManagerMixin) (cwd path : string) :
  let root := posixpath.abspath cwd (root_dir self) in
  let os_path := utils.to_os_path path root in
  Str.startswith (posixpath.abspath cwd os_path +:+ "/") (root +:+ "/") = true ->
  _get_os_path self cwd path = Return os_path.
Proof.
  intros root os_path H. rewrite get_os_path_test. fold root. fold os_path.
  unfold Str.startswith in *. rewrite (chars_app root) in H.
  by rewrite (startswith_l_shorter _ _ _ H).
Qed.

(** C1 (as the code has it): with root [/root], the virtual path
    [../root2] normalizes to [/root2], a sibling of root whose name
    extends root's.  It is outside root, and the test with a separator on
    both sides says so, but [_get_os_path] appends the separator to the
    path only and compares with the bare root: the path is resolved, no
    404 is raised. *)
Theorem get_os_path_resolves_sibling :
  let self := {| root_dir := "/root" |} in
  _get_os_path self "/home" "../root2" = Return "/root/../root2"
  /\ posixpath.abspath "/home" "/root/../root2" = "/root2"
  /\ Str.startswith ("/root2" +:+ "/") ("/root" +:+ "/") = false
  /\ Str.startswith ("/root2" +:+ "/") "/root" = true.
Proof. repeat split; vm_compute; reflexivity. Qed.

(** Paths that leave root for a directory that is no such sibling are
    refused, and paths that use [..] and stay inside are resolved. *)
Example get_os_path_examples :
  let self := {| root_dir := "/root" |} in
  _get_os_path self "/home" "../etc/passwd"
    = Raise (HTTPError 404 "../etc/passwd is outside root contents directory" None)
  /\ _get_os_path self "/home" "a/../b.txt" = Return "/root/a/../b.txt"
  /\ _get_os_path self "/home" "a/../../root/b.txt" = Return "/root/a/../../root/b.txt"
  /\ _get_os_path self "/home" "" = Return "/root".
Proof. repeat split; vm_compute; reflexivity. Qed.

(* ===================================================================== *)
(** * [_save_file]: what is refused before anything is written *)
(* ===================================================================== *)

Lemma save_file_checks_format (self : FileManagerMixin) (os_path : string)
    (content : unicode) (format : option string) (w : world) :
  format <> Some "text" ->
  format <> Some "base64" ->
  _save_file self os_path content format w
  = (Raise (HTTPError 400
              "Must specify format of file contents as 'text' or 'base64'" None),
     w).
Proof.
  intros Ht Hb. unfold _save_file.
  rewrite (bool_decide_eq_false_2 _ Ht), (bool_decide_eq_false_2 _ Hb).
  reflexivity.
Qed.

(** C6: [_save_file] with a format that is neither ['text'] nor
    ['base64'] (or with none) raises the 400 "Must specify format"
    error, and the host is left exactly as it was: the check comes
    before any staging or writing. *)
Theorem save_file_bad_format (self : FileManagerMixin) (os_path : string)
    (content : unicode) (format : option string) (w : world) :
  format <> Some "text" ->
  format <> Some "base64" ->
  _save_file self os_path content format w
  = (Raise (HTTPError 400
              "Must specify format of file contents as 'text' or 'base64'" None),
     w).
Proof. apply save_file_checks_format. Qed.

Lemma save_file_bad_format_witness :
  _save_file sample_manager "/srv/nb/a.txt" (codecs.u "<a/>") (Some "xml") sample_world
  = (Raise (HTTPError 400
              "Must specify format of file contents as 'text' or 'base64'" None),
     sample_world).
Proof.
  apply (save_file_bad_format sample_manager "/srv/nb/a.txt" (codecs.u "<a/>")
           (Some "xml") sample_world); discriminate.
Defined.

Lemma encode_ascii_non_ascii (s : unicode) :
  Exists (fun c => (128 <= c)%N) s -> codecs.encode_ascii s = None.
Proof.
  induction 1 as [c s Hc | c s _ IH]; simpl.
  - apply N.ltb_ge in Hc. by rewrite Hc.
  - rewrite IH. by destruct (c <? 128)%N.
Qed.

(** C10: [_save_file] with format ['base64'] and a content that has a
    character outside ASCII raises the 400 "Encoding error saving"
    error: [content.encode('ascii')] raises, [base64.decodestring] is
    not reached, and the host is left exactly as it was. *)
Theorem save_file_base64_non_ascii (self : FileManagerMixin) (os_path : string)
    (content : unicode) (w : world) :
  Exists (fun c => (128 <= c)%N) content ->
  exists t,
    str_encode_ascii content = Raise (Py (UnicodeError t))
    /\ _save_file self os_path content (Some "base64") w
       = (Raise (HTTPError 400
                   ("Encoding error saving " +:+ os_path +:+ ": " +:+ as_str t)
                   None),
          w).
Proof.
  intros H. apply encode_ascii_non_ascii in H.
  eexists. unfold _save_file, _save_file_encode, str_encode_ascii. rewrite H. simpl.
  split; reflexivity.
Qed.

Lemma save_file_base64_non_ascii_witness :
  exists t,
    str_encode_ascii [99; 233]%N = Raise (Py (UnicodeError t))
    /\ _save_file sample_manager "/srv/nb/a.bin" [99; 233]%N (Some "base64")
         sample_world
       = (Raise (HTTPError 400
                   ("Encoding error saving " +:+ "/srv/nb/a.bin" +:+ ": " +:+ as_str t)
                   None),
          sample_world).
Proof.
  apply (save_file_base64_non_ascii sample_manager "/srv/nb/a.bin" [99; 233]%N
           sample_world).
  apply Exists_cons_tl, Exists_cons_hd. lia.
Defined.

(* ===================================================================== *)
(** * Running computations on the host *)
(* ===================================================================== *)

Lemma bind_run {A B} (m : M A) (k : A -> M B) (w : world) :
  bind m k w = match m w with
               | (Return a, w') => k a w'
               | (Raise e, w') => (Raise e, w')
               end.
Proof. reflexivity. Qed.

Lemma bind_Return_inv {A B} (m : M A) (k : A -> M B) (w w' : world) (b : B) :
  bind m k w = (Return b, w') ->
  exists a w1, m w = (Return a, w1) /\ k a w1 = (Return b, w').
Proof.
  unfold bind. destruct (m w) as [[a|e] w1]; [eauto | discriminate].
Qed.

Lemma call_allowed (c : syscall) (filename : string) (w : world) :
  refused w c = None -> call c filename w = (Return tt, w).
Proof. unfold call. by intros ->. Qed.

Lemma call_refused (c : syscall) (filename : string) (w : world) (eno : Z) :
  refused w c = Some eno -> call c filename w = (Raise (os_error eno filename), w).
Proof. unfold call. by intros ->. Qed.

Lemma call_Return_inv (c : syscall) (filename : string) (w w' : world) (u : unit) :
  call c filename w = (Return u, w') -> refused w c = None /\ w' = w.
Proof.
  unfold call. destruct (refused w c); [discriminate|]. by intros [= _ ->].
Qed.

Lemma world_reopen (k : string) (w : world) :
  set_open_files (remove_one k) (set_open_files (cons k) w) = w.
Proof.
  destruct w. unfold set_open_files. simpl.
  by rewrite bool_decide_eq_true_2.
Qed.

(* ===================================================================== *)
(** * [_read_file] *)
(* ===================================================================== *)

Lemma readable_file_at (w : world) (path : string) (data : bytes) :
  readable w path data -> file_at w path data.
Proof. intros (_ & _ & k & mt & ? & ? & _). exists k, mt. done. Qed.

Lemma os_stat_file (w : world) (path k : string) (n : node) :
  refused w (sys_stat path) = None ->
  follow SYMLOOP_MAX (fs w) path = Some k ->
  fs w !! k = Some n ->
  os_stat path w = (Return (k, n), w).
Proof.
  intros Hs Hf Hk. unfold os_stat. rewrite bind_run, (call_allowed _ _ _ Hs).
  rewrite bind_run. unfold get. rewrite Hf, Hk. reflexivity.
Qed.

Lemma os_stat_inv (w w' : world) (path k : string) (n : node) :
  os_stat path w = (Return (k, n), w') ->
  follow SYMLOOP_MAX (fs w) path = Some k /\ fs w !! k = Some n /\ w' = w.
Proof.
  unfold os_stat. intros H.
  apply bind_Return_inv in H as (u & w1 & Hc & H).
  apply call_Return_inv in Hc as [_ ->].
  rewrite bind_run in H. unfold get in H.
  destruct (follow SYMLOOP_MAX (fs w) path) as [k'|]; [|discriminate].
  destruct (fs w !! k') as [n'|] eqn:Hk; [|discriminate].
  unfold ret in H. by injection H as -> -> ->.
Qed.

(** Reading a file the host lets us read gives its bytes and leaves the
    host as it was. *)
Lemma open_read (self : FileManagerMixin) (w : world) (path : string) (data : bytes) :
  readable w path data ->
  FileManagerMixin_open self path false f_read w = (Return data, w).
Proof.
  intros (_ & Ho & k & mt & Hf & Hk & Hr & Hc).
  unfold FileManagerMixin_open, with_perm_to_403, with_file.
  rewrite bind_run. unfold io_open_r.
  rewrite bind_run, (call_allowed _ _ _ Ho), bind_run. unfold get.
  rewrite Hf, Hk. rewrite bind_run. unfold modify, ret.
  unfold f_read. simpl f_name.
  rewrite bind_run, call_allowed by exact Hr. rewrite bind_run. unfold get.
  cbn [fs set_open_files]. rewrite Hk. unfold ret.
  unfold f_close, f_flush. simpl f_buf. rewrite bool_decide_eq_true_2 by done.
  unfold ret. simpl f_name. rewrite world_reopen.
  rewrite (call_allowed _ _ _ Hc). reflexivity.
Qed.

Lemma read_file_readable (self : FileManagerMixin) (w : world) (path : string)
    (format : option string) (data : bytes) :
  readable w path data ->
  _read_file self path format w = (_read_file_decode path format data, w).
Proof.
  intros Hr. pose proof Hr as (Hs & _ & k & mt & Hf & Hk & _).
  unfold _read_file. rewrite bind_run. unfold os_path_isfile.
  rewrite (os_stat_file _ _ _ _ Hs Hf Hk). cbn [negb].
  rewrite bind_run, (open_read _ _ _ _ Hr). reflexivity.
Qed.

(** When [_read_file] returns, it returns what [_read_file_decode] makes
    of the bytes of the file the path leads to. *)
Lemma read_file_Return_inv (self : FileManagerMixin) (w w' : world) (path : string)
    (format : option string) (x : unicode * string) :
  _read_file self path format w = (Return x, w') ->
  exists data, file_at w path data /\ _read_file_decode path format data = Return x.
Proof.
  unfold _read_file. intros H.
  apply bind_Return_inv in H as (isfile & w1 & Hi & H).
  unfold os_path_isfile in Hi.
  destruct (os_stat path w) as [[[k n]|e] ws] eqn:Hs.
  2:{ injection Hi as <- <-. discriminate. }
  apply os_stat_inv in Hs as (Hf & Hk & ->).
  destruct n as [data mt| |]; injection Hi as <- <-; try discriminate.
  cbn [negb] in H.
  apply bind_Return_inv in H as (b & w2 & Ho & H).
  unfold lift in H. injection H as H _.
  exists data. split; [by exists k, mt|].
  enough (b = data) by congruence.
  unfold FileManagerMixin_open, with_perm_to_403 in Ho.
  destruct (with_file _ _ w) as [r w3] eqn:Hw.
  destruct r as [b'|e]; [|discriminate]. injection Ho as -> ->.
  unfold with_file in Hw. rewrite bind_run in Hw.
  unfold io_open_r in Hw. rewrite bind_run in Hw.
  destruct (call _ _ w) as [[u|e] wc] eqn:Hc; [|discriminate].
  apply call_Return_inv in Hc as [_ ->].
  rewrite bind_run in Hw. unfold get in Hw. rewrite Hf, Hk in Hw.
  rewrite bind_run in Hw. unfold modify, ret in Hw.
  unfold f_read in Hw. simpl f_name in Hw. rewrite bind_run in Hw.
  destruct (call _ _ _) as [[u'|e] wc] eqn:Hc.
  2:{ destruct (f_close _ _) as [[?|?] ?]; discriminate. }
  apply call_Return_inv in Hc as [_ ->].
  rewrite bind_run in Hw. unfold get in Hw. cbn [fs set_open_files] in Hw.
  rewrite Hk in Hw. unfold ret in Hw.
  destruct (f_close _ _) as [[?|?] ?]; [|discriminate].
  by injection Hw as -> _.
Qed.

(* ===================================================================== *)
(** * The shape of [base64.encodestring]'s output *)
(* ===================================================================== *)

Section Base64Shape.
Import base64.

(** Induction on a list, three elements at a time. *)
Lemma list_ind3 {A} (P : list A -> Prop) :
  P [] -> (forall a, P [a]) -> (forall a b, P [a; b]) ->
  (forall a b c r, P r -> P (a :: b :: c :: r)) ->
  forall l, P l.
Proof.
  intros H0 H1 H2 H3 l.
  assert (H : forall n (l : list A), length l < n -> P l).
  { induction n as [|n IH]; intros l' Hl; [lia|].
    destruct l' as [|a [|b [|c r]]]; auto.
    apply H3, IH. simpl in Hl. lia. }
  apply (H (S (length l))). lia.
Qed.

Lemma table_b2a_char (n : N) : b64_char (table_b2a n).
Proof.
  unfold table_b2a, b64_char.
  destruct (nth_in_or_default (N.to_nat n) alphabet PAD) as [H| ->].
  - by right.
  - by left.
Qed.

Lemma b64_char_props (b : byte) :
  b64_char b -> (Byte.to_N b < 128)%N /\ b <> NL.
Proof.
  intros Hb. revert b Hb.
  apply (proj1 (List.Forall_forall
                  (fun b => (Byte.to_N b < 128)%N /\ b <> NL) (PAD :: alphabet))).
  vm_compute.
  repeat (constructor; [split; [reflexivity | discriminate]|]). constructor.
Qed.

Lemma b2a_groups_chars (data : bytes) : Forall b64_char (b2a_groups data).
Proof.
  induction data as [|a|a b|a b c r IH] using list_ind3; simpl;
    repeat (constructor; [first [apply table_b2a_char | by left]|]);
    first [assumption | constructor].
Qed.

Lemma b2a_groups_no_newline (data : bytes) : ~ In NL (b2a_groups data).
Proof.
  intros H. pose proof (b2a_groups_chars data) as Hc.
  rewrite List.Forall_forall in Hc. by destruct (b64_char_props _ (Hc _ H)).
Qed.

Lemma b2a_groups_length (data : bytes) :
  length (b2a_groups data) = 4 * ((length data + 2) / 3).
Proof.
  induction data as [|a|a b|a b c r IH] using list_ind3; try reflexivity.
  cbn [b2a_groups length]. rewrite IH.
  replace (S (S (S (length r))) + 2) with (length r + 2 + 1 * 3) by lia.
  rewrite Nat.div_add by lia. lia.
Qed.

Lemma b2a_groups_nonempty (data : bytes) : data <> [] -> 0 < length (b2a_groups data).
Proof. destruct data as [|a [|b [|c r]]]; [done| simpl; lia ..]. Qed.

Lemma chunks_upto_spec (n fuel : nat) (s : bytes) :
  0 < n -> length s <= fuel ->
  let cs := chunks_upto fuel n s in
  Forall (fun c => 0 < length c <= n) cs
  /\ (s <> [] -> cs <> [])
  /\ (forall i c, cs !! i = Some c -> S i < length cs -> length c = n).
Proof.
  intros Hn. revert s. induction fuel as [|fuel IH]; intros s Hs.
  - destruct s; [|simpl in Hs; lia]. simpl. repeat split; [constructor|done|done].
  - destruct s as [|a s]; [simpl; repeat split; [constructor|done|done]|].
    cbn [chunks_upto]. remember (a :: s) as s' eqn:Es.
    assert (Hd : length (drop n s') <= fuel).
    { rewrite length_drop. subst s'. simpl in *. lia. }
    destruct (IH (drop n s') Hd) as (IH1 & IH2 & IH3).
    repeat split.
    + constructor; [|exact IH1]. rewrite length_take. subst s'. simpl. lia.
    + done.
    + intros [|i] c Hc Hi; simpl in *.
      * injection Hc as <-.
        assert (Hne : drop n s' <> []).
        { intros E. rewrite E in Hi. destruct fuel; simpl in Hi; lia. }
        rewrite length_take. apply Nat.min_l.
        destruct (decide (n <= length s')) as [|Hlt]; [done|].
        destruct Hne. apply drop_ge. lia.
      * apply (IH3 i c Hc). lia.
Qed.

(** The lines of [encodestring]: at most 76 characters of the base64
    alphabet each, exactly 76 but for the last, and each followed by a
    newline. *)
Lemma encodestring_lines (data : bytes) :
  let lines := map b2a_groups (chunks MAXBINSIZE data) in
  encodestring data = concat (map (fun ln => ln ++ [NL]) lines)
  /\ (data <> [] -> lines <> [])
  /\ Forall (fun ln => ~ In NL ln /\ 0 < length ln <= 76) lines
  /\ (forall i ln, lines !! i = Some ln -> S i < length lines -> length ln = 76).
Proof.
  intros lines. unfold lines, encodestring.
  destruct (chunks_upto_spec MAXBINSIZE (length data) data) as (H1 & H2 & H3);
    [vm_compute; lia | done |]. fold (chunks MAXBINSIZE data) in *.
  repeat split.
  - by rewrite map_map.
  - intros Hd E. apply H2 in Hd. by destruct (chunks MAXBINSIZE data).
  - apply Forall_map. eapply Forall_impl; [exact H1|].
    intros c [Hc0 Hc]. cbv beta. split; [apply b2a_groups_no_newline|].
    split; [apply b2a_groups_nonempty; destruct c; [simpl in Hc0; lia | done]|].
    rewrite b2a_groups_length.
    assert ((length c + 2) / 3 <= (MAXBINSIZE + 2) / 3)
      by (apply Nat.Div0.div_le_mono; lia).
    change ((MAXBINSIZE + 2) / 3) with 19 in *. lia.
  - intros i ln Hl Hi. rewrite length_map in Hi.
    rewrite list_lookup_fmap in Hl.
    destruct (chunks MAXBINSIZE data !! i) as [c|] eqn:Hc; [|discriminate].
    injection Hl as <-. rewrite b2a_groups_length, (H3 i c Hc Hi). reflexivity.
Qed.

Lemma encodestring_ascii (data : bytes) :
  Forall (fun b => (Byte.to_N b < 128)%N) (encodestring data).
Proof.
  unfold encodestring. apply Forall_concat, Forall_map, Forall_forall.
  intros c _. unfold b2a_base64. apply Forall_app. split.
  - eapply Forall_impl; [apply b2a_groups_chars|]. intros b Hb.
    by destruct (b64_char_props b Hb).
  - constructor; [reflexivity | constructor].
Qed.

Lemma concat_lines_last (lines : list bytes) :
  lines <> [] -> last (concat (map (fun ln => ln ++ [NL]) lines)) = Some NL.
Proof.
  induction lines as [|ln lines IH]; [done|]. intros _. cbn [map concat].
  destruct lines as [|ln' lines].
  - simpl. rewrite app_nil_r. apply last_snoc.
  - rewrite last_app. by rewrite IH.
Qed.

Lemma encodestring_last (data : bytes) :
  data <> [] -> last (encodestring data) = Some NL.
Proof.
  intros Hd. destruct (encodestring_lines data) as (-> & Hne & _).
  apply concat_lines_last. by apply Hne.
Qed.

End Base64Shape.

Lemma decode_ascii_of (l : bytes) :
  Forall (fun b => (Byte.to_N b < 128)%N) l ->
  codecs.decode_ascii l = Some (map Byte.to_N l).
Proof.
  induction 1 as [|b l Hb _ IH]; [done|]. simpl.
  apply N.ltb_lt in Hb. rewrite Hb, IH. reflexivity.
Qed.

Lemma to_N_inj (a b : byte) : Byte.to_N a = Byte.to_N b -> a = b.
Proof.
  intros H. apply (f_equal Byte.of_N) in H. rewrite !Byte.of_to_N in H. congruence.
Qed.

Lemma map_to_N_inj (l1 l2 : bytes) : map Byte.to_N l1 = map Byte.to_N l2 -> l1 = l2.
Proof.
  revert l2. induction l1 as [|a l1 IH]; intros [|b l2] H; try discriminate; [done|].
  injection H as Hab H. f_equal; [by apply to_N_inj | by apply IH].
Qed.

(* ===================================================================== *)
(** * What [_read_file] returns *)
(* ===================================================================== *)

Lemma read_file_decode_base64 (path : string) (format : option string)
    (data : bytes) (c : unicode) :
  _read_file_decode path format data = Return (c, "base64") ->
  c = map Byte.to_N (base64.encodestring data).
Proof.
  unfold _read_file_decode, bytes_decode_ascii.
  rewrite (decode_ascii_of _ (encodestring_ascii data)). cbn [of_codec].
  destruct (_ || _).
  - destruct (bytes_decode_utf8 data) as [s|e]; [discriminate|].
    destruct (is_UnicodeError e); [|discriminate].
    destruct (bool_decide _); [discriminate|]. by intros [= <-].
  - by intros [= <-].
Qed.

Lemma read_file_decode_not_utf8 (path : string) (data : bytes) :
  codecs.decode_utf8 data = None ->
  _read_file_decode path (Some "text") data
  = Raise (HTTPError 400 (path +:+ " is not UTF-8 encoded") (Some "bad format"))
  /\ _read_file_decode path None data
     = Return (map Byte.to_N (base64.encodestring data), "base64").
Proof.
  intros Hd. unfold _read_file_decode, bytes_decode_utf8, bytes_decode_ascii.
  rewrite Hd, (decode_ascii_of _ (encodestring_ascii data)).
  split; reflexivity.
Qed.

(** C5: for a file whose bytes are not valid UTF-8 (and that the host
    lets us read), [_read_file] with format ['text'] raises the 400 "is
    not UTF-8 encoded" error, and [_read_file] with no format returns the
    base64 encoding of the bytes with format ['base64']. *)
Theorem read_file_not_utf8 (self : FileManagerMixin) (w : world) (path : string)
    (data : bytes) :
  readable w path data ->
  codecs.decode_utf8 data = None ->
  _read_file self path (Some "text") w
  = (Raise (HTTPError 400 (path +:+ " is not UTF-8 encoded") (Some "bad format")), w)
  /\ _read_file self path None w
     = (Return (map Byte.to_N (base64.encodestring data), "base64"), w).
Proof.
  intros Hr Hd. rewrite !(read_file_readable _ _ _ _ _ Hr).
  destruct (read_file_decode_not_utf8 path data Hd) as [-> ->]. done.
Qed.

Lemma sample_raw_readable : readable sample_world "/srv/nb/raw.bin" [x00; x01; xff].
Proof.
  split; [reflexivity|]. split; [reflexivity|].
  exists "/srv/nb/raw.bin", (Meta 420 0). repeat split; vm_compute; reflexivity.
Defined.

Lemma read_file_not_utf8_witness :
  _read_file sample_manager "/srv/nb/raw.bin" (Some "text") sample_world
  = (Raise (HTTPError 400 ("/srv/nb/raw.bin" +:+ " is not UTF-8 encoded")
              (Some "bad format")), sample_world)
  /\ _read_file sample_manager "/srv/nb/raw.bin" None sample_world
     = (Return (map Byte.to_N (base64.encodestring [x00; x01; xff]), "base64"),
        sample_world).
Proof.
  apply (read_file_not_utf8 sample_manager sample_world "/srv/nb/raw.bin"
           [x00; x01; xff]).
  - exact sample_raw_readable.
  - vm_compute. reflexivity.
Defined.

(** C8: whenever [_read_file] returns with format ['base64'], whatever
    format was asked for, the content is [base64.encodestring] of the
    bytes of the file: lines of at most 76 characters of the base64
    alphabet, all but the last of exactly 76, each followed by a newline.
    For a file that is not empty the content ends with a newline and is
    not the base64 encoding on a single line. *)
Theorem read_file_base64_is_mime (self : FileManagerMixin) (w w' : world)
    (path : string) (format : option string) (c : unicode) :
  _read_file self path format w = (Return (c, "base64"), w') ->
  exists data lines,
    file_at w path data
    /\ c = map Byte.to_N (base64.encodestring data)
    /\ base64.encodestring data = concat (map (fun ln => ln ++ [base64.NL]) lines)
    /\ Forall (fun ln => ~ In base64.NL ln /\ 0 < length ln <= 76) lines
    /\ (forall i ln, lines !! i = Some ln -> S i < length lines -> length ln = 76)
    /\ (data <> [] ->
        last c = Some 10%N /\ c <> map Byte.to_N (base64.b2a_groups data)).
Proof.
  intros H. apply read_file_Return_inv in H as (data & Hf & H).
  apply read_file_decode_base64 in H.
  destruct (encodestring_lines data) as (Hl & Hne & Hall & Hfull).
  exists data, (map base64.b2a_groups (base64.chunks base64.MAXBINSIZE data)).
  repeat split; try done.
  - subst c. rewrite fmap_last, (encodestring_last _ H0). reflexivity.
  - subst c. intros E. apply map_to_N_inj in E.
    apply (b2a_groups_no_newline data). rewrite <- E.
    pose proof (encodestring_last data H0) as Hlast.
    apply last_Some in Hlast as [l' ->]. apply in_app_iff. right. by left.
Qed.

Lemma read_file_base64_is_mime_witness :
  exists data lines,
    file_at sample_world "/srv/nb/raw.bin" data
    /\ map Byte.to_N (base64.encodestring [x00; x01; xff])
       = map Byte.to_N (base64.encodestring data)
    /\ base64.encodestring data = concat (map (fun ln => ln ++ [base64.NL]) lines)
    /\ Forall (fun ln => ~ In base64.NL ln /\ 0 < length ln <= 76) lines
    /\ (forall i ln, lines !! i = Some ln -> S i < length lines -> length ln = 76)
    /\ (data <> [] ->
        last (map Byte.to_N (base64.encodestring [x00; x01; xff])) = Some 10%N
        /\ map Byte.to_N (base64.encodestring [x00; x01; xff])
           <> map Byte.to_N (base64.b2a_groups data)).
Proof.
  apply (read_file_base64_is_mime sample_manager sample_world sample_world
           "/srv/nb/raw.bin" (Some "base64")).
  vm_compute. reflexivity.
Defined.

(* ===================================================================== *)
(** * Segments of a path: [split], [strip] and [join] *)
(* ===================================================================== *)

Section Segments.
Import Str.

Local Abbreviation no_sep := (Forall (fun a : ascii => a <> sep)).

Lemma eqb_sep (a : ascii) : Ascii.eqb a sep = true <-> a = sep.
Proof. apply Ascii.eqb_eq. Qed.

Lemma eqb_not_sep (a : ascii) : a <> sep -> Ascii.eqb a sep = false.
Proof. intros H. apply Ascii.eqb_neq. done. Qed.

Lemma contains_l_length (l n : list ascii) :
  contains_l l n = true -> length n <= length l.
Proof.
  induction l as [|a l IH]; simpl.
  - rewrite orb_false_r. intros H. apply startswith_l_spec in H as [r Hr].
    by destruct n.
  - rewrite orb_true_iff. intros [H|H].
    + apply startswith_l_spec in H as [r Hr]. apply (f_equal length) in Hr.
      rewrite length_app in Hr. simpl in Hr. lia.
    + apply IH in H. lia.
Qed.

Lemma contains_l_same_length (l n : list ascii) :
  contains_l l n = true -> length n = length l -> l = n.
Proof.
  destruct l as [|a l]; simpl.
  - intros _ Hn. by destruct n.
  - rewrite orb_true_iff. intros [H|H] Hn.
    + apply startswith_l_spec in H as [r Hr]. pose proof (f_equal length Hr) as Hr'.
      rewrite length_app in Hr'.
      destruct r; [by rewrite app_nil_r in Hr | simpl in *; lia].
    + apply contains_l_length in H. lia.
Qed.

Lemma contains_l_skip (P c n' : list ascii) :
  no_sep P ->
  contains_l (P ++ c) (sep :: n') = true -> contains_l c (sep :: n') = true.
Proof.
  induction 1 as [|a P Ha _ IH]; [done|]. cbn [app contains_l startswith_l].
  rewrite (eqb_not_sep a Ha). simpl. exact IH.
Qed.

Lemma lstrip_l_length (c : ascii) (l : list ascii) : length (lstrip_l c l) <= length l.
Proof. induction l as [|a l IH]; simpl; [lia|]. destruct (Ascii.eqb a c); simpl; lia. Qed.

Lemma rstrip_l_length (c : ascii) (l : list ascii) : length (rstrip_l c l) <= length l.
Proof.
  induction l as [|a l IH]; simpl; [lia|].
  destruct (rstrip_l c l); [destruct (Ascii.eqb a c)|]; simpl in *; lia.
Qed.

Lemma strip_l_length (c : ascii) (l : list ascii) : length (strip_l c l) <= length l.
Proof.
  unfold strip_l. etrans; [apply rstrip_l_length | apply lstrip_l_length].
Qed.

Lemma split_l_nonnil (c : ascii) (l : list ascii) : split_l c l <> [].
Proof.
  induction l as [|a l IH]; simpl; [done|].
  destruct (Ascii.eqb a c); [done|]. by destruct (split_l c l).
Qed.

Lemma join_l_cons (c : ascii) (p : list ascii) (rest : list (list ascii)) :
  rest <> [] -> join_l c (p :: rest) = p ++ c :: join_l c rest.
Proof. by destruct rest. Qed.

Lemma join_split_l (l : list ascii) : join_l sep (split_l sep l) = l.
Proof.
  induction l as [|a l IH]; [done|]. cbn [split_l].
  destruct (Ascii.eqb a sep) eqn:E.
  - apply eqb_sep in E as ->.
    rewrite join_l_cons by apply split_l_nonnil. by rewrite IH.
  - pose proof (split_l_nonnil sep l) as Hn.
    destruct (split_l sep l) as [|h t]; [done|].
    destruct t; simpl in *; by rewrite <- IH.
Qed.

Lemma split_l_no_sep (l : list ascii) : Forall no_sep (split_l sep l).
Proof.
  induction l as [|a l IH]; simpl; [by repeat constructor|].
  destruct (Ascii.eqb a sep) eqn:E; [by constructor|].
  apply Ascii.eqb_neq in E.
  destruct (split_l sep l) as [|h t]; [by repeat constructor|].
  inversion IH; subst. constructor; [by constructor | done].
Qed.

Lemma join_filter_length (X : list (list ascii)) :
  length (join_l sep (filter (fun p => nonempty p = true) X))
  <= length (join_l sep X).
Proof.
  induction X as [|p X IH]; [done|].
  assert (Hj : forall q Y, length (join_l sep (q :: Y))
                          = length q + match Y with [] => 0 | _ => S (length (join_l sep Y)) end).
  { intros q [|y Y]; [simpl; lia|]. rewrite join_l_cons by done.
    rewrite length_app. simpl. lia. }
  rewrite Hj. rewrite filter_cons. case_decide as Hp.
  - rewrite Hj. destruct X as [|x X]; [done|].
    destruct (filter _ (x :: X)); simpl in *; lia.
  - destruct X as [|x X]; [simpl; lia|]. lia.
Qed.

Lemma api_parts_length (l : list ascii) :
  length (join_l sep (utils.api_parts l)) <= length l.
Proof.
  unfold utils.api_parts. etrans; [apply join_filter_length|].
  rewrite join_split_l. apply strip_l_length.
Qed.

Lemma api_parts_segments (l : list ascii) : Forall segment (utils.api_parts l).
Proof.
  unfold utils.api_parts.
  pose proof (split_l_no_sep (strip_l sep l)) as H.
  induction H as [|p X Hp _ IH]; [constructor|].
  rewrite filter_cons. case_decide as Hn; [|exact IH].
  constructor; [|exact IH]. split; [by destruct p | done].
Qed.

Lemma join_segments_head (X : list (list ascii)) :
  Forall segment X -> startswith_l (join_l sep X) [sep] = false.
Proof.
  intros HX. destruct HX as [|p Y [Hne Hp] _]; [done|].
  destruct p as [|a p]; [done|]. inversion Hp; subst.
  assert (E : exists r, join_l sep ((a :: p) :: Y) = a :: r).
  { destruct Y; simpl; eauto. }
  destruct E as [r ->]. simpl. by rewrite eqb_not_sep.
Qed.

(** The message of the 403 error does not contain an absolute path it
    was made from. *)
Lemma api_path_hides (prefix os_path root : string) :
  no_sep (chars prefix) ->
  startswith os_path "/" = true ->
  contains (prefix +:+ utils.to_api_path os_path root) os_path = false.
Proof.
  intros Hp Habs. apply not_true_is_false. intros Hc.
  unfold contains, utils.to_api_path in Hc. rewrite chars_app, chars_text in Hc.
  unfold startswith in Habs.
  destruct (chars os_path) as [|a n'] eqn:En; [discriminate|].
  simpl in Habs. rewrite andb_true_r in Habs. apply eqb_sep in Habs as ->.
  set (p := if startswith_l (sep :: n') (chars root)
            then drop (length (chars root)) (sep :: n') else sep :: n') in *.
  apply contains_l_skip in Hc; [|done].
  assert (Hlen : length p <= length (sep :: n')).
  { unfold p. destruct (startswith_l _ _); [rewrite length_drop|]; lia. }
  pose proof (api_parts_length p) as Hl.
  pose proof (contains_l_length _ _ Hc) as Hl'.
  apply contains_l_same_length in Hc; [|lia].
  pose proof (join_segments_head _ (api_parts_segments p)) as Hh.
  rewrite Hc in Hh. simpl in Hh. discriminate.
Qed.

(** ** [to_api_path] inverts [to_os_path] *)

Lemma last_no_sep (p : list ascii) (a : ascii) :
  no_sep p -> last p = Some a -> a <> sep.
Proof.
  intros Hp Hl. apply last_Some in Hl as [l' ->].
  apply Forall_app in Hp as [_ Hp]. by inversion Hp.
Qed.

Lemma join2_l_segment (r p : list ascii) :
  segment p -> posixpath.join2_l r p = r ++ joint r ++ p.
Proof.
  intros [Hne Hp]. unfold posixpath.join2_l, joint.
  destruct p as [|a p]; [done|]. inversion Hp; subst.
  cbn [startswith_l]. rewrite eqb_not_sep by done. cbn [andb].
  by destruct (_ || _).
Qed.

Lemma join_segments_last (X : list (list ascii)) (a : ascii) :
  Forall segment X -> last (join_l sep X) = Some a -> a <> sep.
Proof.
  induction 1 as [|p X [Hne Hp] HX IH]; [done|].
  destruct X as [|x X].
  - simpl. by apply last_no_sep.
  - rewrite join_l_cons by done. rewrite last_app.
    destruct (last (sep :: join_l sep (x :: X))) as [y|] eqn:Hy;
      [|by apply last_None in Hy].
    intros [= ->]. rewrite last_cons in Hy.
    destruct (last (join_l sep (x :: X))) as [z|] eqn:Hz.
    + injection Hy as ->. by apply IH.
    + inversion HX as [|? ? [Hx _] _]; subst.
      apply last_None in Hz. destruct x; [done|]. by destruct X.
Qed.

Lemma joint_after_segment (r p : list ascii) :
  segment p -> joint (r ++ p) = [sep].
Proof.
  intros [Hne Hp]. unfold joint, endswith_char. rewrite last_app.
  destruct (last p) as [a|] eqn:Hl; [|by apply last_None in Hl].
  rewrite (eqb_not_sep a) by (by eapply last_no_sep).
  destruct r, p; done.
Qed.

Lemma join_path_l_segments (r : list ascii) (X : list (list ascii)) :
  Forall segment X ->
  posixpath.join_path_l r X
  = r ++ match X with [] => [] | _ => joint r ++ join_l sep X end.
Proof.
  unfold posixpath.join_path_l. intros HX. revert r.
  induction HX as [|p X Hp HX IH]; intros r.
  - by rewrite app_nil_r.
  - cbn [fold_left]. rewrite (join2_l_segment r p Hp), IH.
    destruct X as [|x X]; [by rewrite app_nil_r|].
    rewrite (join_l_cons sep p (x :: X)) by done.
    rewrite (app_assoc r), (joint_after_segment _ p Hp).
    by rewrite <- !app_assoc.
Qed.

End Segments.

Section Inversion.
Import Str.

Local Abbreviation no_sep := (Forall (fun a : ascii => a <> sep)).

Lemma lstrip_l_id (l : list ascii) :
  startswith_l l [sep] = false -> lstrip_l sep l = l.
Proof.
  destruct l as [|a l]; [done|]. simpl. rewrite andb_true_r. by intros ->.
Qed.

Lemma rstrip_l_id (l : list ascii) :
  (forall a, last l = Some a -> a <> sep) -> rstrip_l sep l = l.
Proof.
  induction l as [|a l IH]; [done|]. intros H. cbn [rstrip_l].
  destruct l as [|b l].
  - simpl. by rewrite eqb_not_sep by (by apply H).
  - rewrite IH; [done|]. intros c Hc. apply H. by rewrite last_cons, Hc.
Qed.

Lemma split_l_segment (p : list ascii) : no_sep p -> split_l sep p = [p].
Proof.
  induction 1 as [|a p Ha _ IH]; [done|]. cbn [split_l].
  by rewrite eqb_not_sep, IH.
Qed.

Lemma split_l_app_sep (p l : list ascii) :
  no_sep p -> split_l sep (p ++ sep :: l) = p :: split_l sep l.
Proof.
  induction 1 as [|a p Ha _ IH]; [done|].
  cbn [app split_l]. by rewrite eqb_not_sep, IH.
Qed.

Lemma split_join_segments (X : list (list ascii)) :
  Forall segment X -> X <> [] -> split_l sep (join_l sep X) = X.
Proof.
  induction 1 as [|p X [Hne Hp] HX IH]; [done|]. intros _.
  destruct X as [|x X]; [by apply split_l_segment|].
  rewrite join_l_cons by done. rewrite split_l_app_sep by done.
  by rewrite IH.
Qed.

Lemma filter_segments (X : list (list ascii)) :
  Forall segment X -> filter (fun p => nonempty p = true) X = X.
Proof.
  induction 1 as [|p X [Hne Hp] _ IH]; [done|].
  rewrite filter_cons, IH. case_decide as H; [done|]. by destruct p.
Qed.

Lemma api_parts_joined (r : list ascii) (X : list (list ascii)) :
  Forall segment X ->
  utils.api_parts (match X with [] => [] | _ => joint r ++ join_l sep X end) = X.
Proof.
  intros HX. destruct X as [|x X]; [done|]. unfold utils.api_parts, strip_l.
  pose proof (join_segments_head _ HX) as Hh.
  assert (lstrip_l sep (joint r ++ join_l sep (x :: X)) = join_l sep (x :: X)) as ->.
  { unfold joint. destruct (_ || _); simpl app.
    - by apply lstrip_l_id.
    - cbn [lstrip_l]. rewrite (proj2 (eqb_sep sep)) by done. by apply lstrip_l_id. }
  rewrite rstrip_l_id by (intros a; by apply join_segments_last).
  rewrite split_join_segments by done. by apply filter_segments.
Qed.

(** [to_api_path] gives back the segments of the virtual path that
    [to_os_path] joined onto root, whatever root is. *)
Lemma to_api_path_to_os_path (path root : string) :
  utils.to_api_path (utils.to_os_path path root) root
  = text (join_l sep (utils.api_parts (chars path))).
Proof.
  unfold utils.to_api_path, utils.to_os_path. rewrite chars_text.
  pose proof (api_parts_segments (chars path)) as HX.
  rewrite (join_path_l_segments _ _ HX), startswith_l_app, drop_app_length.
  by rewrite api_parts_joined.
Qed.

Lemma prefix_no_sep : no_sep (chars "Permission denied: ").
Proof. vm_compute. repeat (constructor; [discriminate|]). constructor. Qed.

End Inversion.

(* ===================================================================== *)
(** * [perm_to_403] *)
(* ===================================================================== *)

Lemma absolute_nonempty (os_path : string) :
  Str.startswith os_path "/" = true -> os_path <> "".
Proof. by intros H ->. Qed.

(** What [perm_to_403] makes of a permission failure of the operation
    it wraps. *)
Lemma with_perm_to_403_forbidden {A} (self : FileManagerMixin) (os_path : string)
    (m : M A) (w w' : world) (eno : Z) (filename : option string) (t : exc_text) :
  os_path <> "" ->
  eno = errno.EPERM \/ eno = errno.EACCES ->
  m w = (Raise (Py (OSError (Some eno) filename t)), w') ->
  with_perm_to_403 self os_path m w
  = (Raise (HTTPError 403
              ("Permission denied: " +:+ utils.to_api_path os_path (root_dir self))
              None), w').
Proof.
  intros Hp He Hm. unfold with_perm_to_403. rewrite Hm.
  unfold perm_to_403, perm_to_403_handler.
  assert ((bool_decide (Some eno = Some errno.EPERM)
           || bool_decide (Some eno = Some errno.EACCES)) = true) as ->
    by (destruct He as [-> | ->]; reflexivity).
  by rewrite (bool_decide_eq_false_2 _ Hp).
Qed.

(** What [perm_to_403] makes of any other exception. *)
Lemma with_perm_to_403_other {A} (self : FileManagerMixin) (os_path : string)
    (m : M A) (w w' : world) (e : exn) :
  (forall eno filename t,
      e = Py (OSError eno filename t) ->
      eno <> Some errno.EPERM /\ eno <> Some errno.EACCES) ->
  m w = (Raise e, w') ->
  with_perm_to_403 self os_path m w = (Raise e, w').
Proof.
  intros He Hm. unfold with_perm_to_403. rewrite Hm.
  unfold perm_to_403, perm_to_403_handler.
  destruct e as [[eno filename t| | | |]|]; try reflexivity.
  destruct (He eno filename t eq_refl) as [H1 H2].
  by rewrite (bool_decide_eq_false_2 _ H1), (bool_decide_eq_false_2 _ H2).
Qed.



(* ===================================================================== *)
(** * [_read_notebook] *)
(* ===================================================================== *)

Lemma f_read_readable (w : world) (path k : string) (data : bytes) (mt : meta)
    (text : bool) :
  fs w !! k = Some (File data mt) ->
  refused w (sys_read k) = None ->
  f_read (FileObj k text []) (set_open_files (cons k) w)
  = (Return data, set_open_files (cons k) w).
Proof.
  intros Hk Hr. unfold f_read. cbn [f_name].
  rewrite bind_run, call_allowed by exact Hr. rewrite bind_run. unfold get.
  cbn [fs set_open_files]. by rewrite Hk.
Qed.

(** A block that leaves the host as it is, run on a file the host lets
    us open and close. *)
Lemma open_with {A} (self : FileManagerMixin) (w : world) (path k : string)
    (data : bytes) (mt : meta) (text : bool) (blk : fileobj -> M A) (r : result A) :
  refused w (sys_open path false) = None ->
  follow SYMLOOP_MAX (fs w) path = Some k ->
  fs w !! k = Some (File data mt) ->
  refused w (sys_close k) = None ->
  blk (FileObj k text []) (set_open_files (cons k) w)
  = (r, set_open_files (cons k) w) ->
  FileManagerMixin_open self path text blk w = (perm_to_403 self path r, w).
Proof.
  intros Ho Hf Hk Hc Hb.
  unfold FileManagerMixin_open, with_perm_to_403, with_file.
  rewrite bind_run. unfold io_open_r.
  rewrite bind_run, (call_allowed _ _ _ Ho), bind_run. unfold get.
  rewrite Hf, Hk. rewrite bind_run. unfold modify, ret. rewrite Hb.
  unfold f_close, f_flush. cbn [f_buf f_name].
  rewrite bool_decide_eq_true_2 by done. unfold ret. rewrite world_reopen.
  by rewrite (call_allowed _ _ _ Hc).
Qed.

(** Text without a carriage return is read as it is. *)
Lemma universal_newlines_id (s : unicode) :
  ~ In 13%N s -> universal_newlines s = s.
Proof.
  induction s as [|c s IH]; [done|]. intros H. cbn [universal_newlines].
  destruct (N.eqb_spec c 13) as [->|_]; [exfalso; apply H; by left|].
  rewrite IH; [done|]. intros Hs. apply H. by right.
Qed.

(** A file the host does not let us open for reading. *)
Lemma open_refused {A} (self : FileManagerMixin) (os_path : string) (text : bool)
    (blk : fileobj -> M A) (w : world) (eno : Z) :
  refused w (sys_open os_path false) = Some eno ->
  FileManagerMixin_open self os_path text blk w
  = (perm_to_403 self os_path (Raise (os_error eno os_path)), w).
Proof.
  intros Ho. unfold FileManagerMixin_open, with_perm_to_403, with_file.
  rewrite bind_run. unfold io_open_r.
  by rewrite bind_run, (call_refused _ _ _ eno) by exact Ho.
Qed.

(** The 403 error [perm_to_403] makes of a permission failure, whatever
    the path it is given. *)
Lemma perm_to_403_status {A} (self : FileManagerMixin) (os_path : string)
    (eno : Z) (filename : option string) (t : exc_text) :
  eno = errno.EPERM \/ eno = errno.EACCES ->
  exists msg,
    perm_to_403 (A:=A) self os_path (Raise (Py (OSError (Some eno) filename t)))
    = Raise (HTTPError 403 msg None).
Proof.
  intros He. eexists. unfold perm_to_403, perm_to_403_handler.
  assert ((bool_decide (Some eno = Some errno.EPERM)
           || bool_decide (Some eno = Some errno.EACCES)) = true) as ->
    by (destruct He as [-> | ->]; reflexivity).
  reflexivity.
Qed.

Lemma read_notebook_unreadable (notebook : Type)
    (reads : unicode -> Z -> result notebook) (self : FileManagerMixin)
    (w : world) (path : string) (as_version : Z) (data : bytes) (s : unicode)
    (e : exn) :
  readable w path data ->
  codecs.decode_utf8 data = Some s ->
  reads (universal_newlines s) as_version = Raise e ->
  exn_is_Exception e = true ->
  _read_notebook notebook reads self path as_version w
  = (Raise (HTTPError 400
              ("Unreadable Notebook: " +:+ path +:+ " " +:+ exn_repr e) None), w).
Proof.
  intros (_ & Ho & k & mt & Hf & Hk & Hr & Hc) Hd Hp He. unfold _read_notebook.
  apply (open_with self w path k data mt true _
           (Raise (HTTPError 400
                     ("Unreadable Notebook: " +:+ path +:+ " " +:+ exn_repr e) None))
           Ho Hf Hk Hc).
  unfold try_except, nbformat_read.
  rewrite bind_run, (f_read_readable _ path _ _ _ _ Hk Hr).
  rewrite bind_run. unfold lift, bytes_decode_utf8. rewrite Hd. cbn [of_codec].
  rewrite Hp, He. reflexivity.
Qed.

(* ===================================================================== *)
(** * The status codes of the errors *)
(* ===================================================================== *)

(** C9: each error the module raises itself is a tornado [HTTPError]
    with a fixed status code.  404: [_get_os_path] on a path outside
    root.  403: a permission failure ([EPERM] or [EACCES]) under
    [perm_to_403], that is, when the host refuses to open the file in
    [self.open], [_read_file] or [_read_notebook], and when
    [atomic_writing] fails so in [self.atomic_writing].  400:
    [_read_file] on what is not a file and on bytes that are not UTF-8
    under format ['text'], [_read_notebook] when the parser raises on
    the text read, [_save_file] on a bad format and on content that
    cannot be encoded.  So the status tells the first two apart from
    each other and from the rest, and does not tell the last five from
    one another. *)
Theorem error_status_codes (self : FileManagerMixin) :
  (forall cwd path,
      let root := posixpath.abspath cwd (root_dir self) in
      Str.startswith
        (posixpath.abspath cwd (utils.to_os_path path root) +:+ "/") root = false ->
      _get_os_path self cwd path
      = Raise (HTTPError 404 (path +:+ " is outside root contents directory") None))
  /\ (forall (A : Type) os_path text (blk : fileobj -> M A) w eno,
         refused w (sys_open os_path false) = Some eno ->
         eno = errno.EPERM \/ eno = errno.EACCES ->
         exists msg,
           FileManagerMixin_open self os_path text blk w
           = (Raise (HTTPError 403 msg None), w))
  /\ (forall os_path text blk w eno filename t,
         fst (atomic_writing os_path text blk w)
         = Raise (Py (OSError (Some eno) filename t)) ->
         eno = errno.EPERM \/ eno = errno.EACCES ->
         exists msg,
           FileManagerMixin_atomic_writing self os_path text blk w
           = (Raise (HTTPError 403 msg None), snd (atomic_writing os_path text blk w)))
  /\ (forall os_path format w eno,
         fst (os_path_isfile os_path w) = Return true ->
         refused w (sys_open os_path false) = Some eno ->
         eno = errno.EPERM \/ eno = errno.EACCES ->
         exists msg,
           _read_file self os_path format w = (Raise (HTTPError 403 msg None), w))
  /\ (forall (notebook : Type) (reads : unicode -> Z -> result notebook)
             os_path as_version w eno,
         refused w (sys_open os_path false) = Some eno ->
         eno = errno.EPERM \/ eno = errno.EACCES ->
         exists msg,
           _read_notebook notebook reads self os_path as_version w
           = (Raise (HTTPError 403 msg None), w))
  /\ (forall os_path format w,
         fst (os_path_isfile os_path w) = Return false ->
         _read_file self os_path format w
         = (Raise (HTTPError 400 ("Cannot read non-file " +:+ os_path) None), w))
  /\ (forall os_path w data,
         readable w os_path data ->
         codecs.decode_utf8 data = None ->
         _read_file self os_path (Some "text") w
         = (Raise (HTTPError 400 (os_path +:+ " is not UTF-8 encoded")
                     (Some "bad format")), w))
  /\ (forall (notebook : Type) (reads : unicode -> Z -> result notebook)
             os_path as_version w data s e,
         readable w os_path data ->
         codecs.decode_utf8 data = Some s ->
         reads (universal_newlines s) as_version = Raise e ->
         exn_is_Exception e = true ->
         _read_notebook notebook reads self os_path as_version w
         = (Raise (HTTPError 400
                     ("Unreadable Notebook: " +:+ os_path +:+ " " +:+ exn_repr e)
                     None), w))
  /\ (forall os_path content format w,
         format <> Some "text" -> format <> Some "base64" ->
         _save_file self os_path content format w
         = (Raise (HTTPError 400
                     "Must specify format of file contents as 'text' or 'base64'"
                     None), w))
  /\ (forall os_path content format w e,
         format = Some "text" \/ format = Some "base64" ->
         _save_file_encode content format = Raise e ->
         exn_is_Exception e = true ->
         _save_file self os_path content format w
         = (Raise (HTTPError 400
                     ("Encoding error saving " +:+ os_path +:+ ": " +:+ exn_str e)
                     None), w)).
Proof.
  repeat apply conj.
  - intros cwd path root H. rewrite get_os_path_test. fold root. by rewrite H.
  - intros A os_path text blk w eno Ho He. rewrite (open_refused _ _ _ _ _ eno Ho).
    destruct (perm_to_403_status (A:=A) self os_path eno (Some os_path) os_text He)
      as [msg Hm].
    exists msg. unfold os_error. by rewrite Hm.
  - intros os_path text blk w eno filename t Hr He.
    unfold FileManagerMixin_atomic_writing, with_perm_to_403.
    destruct (atomic_writing os_path text blk w) as [r w'] eqn:Ha.
    simpl in Hr. subst r.
    destruct (perm_to_403_status (A:=unit) self os_path eno filename t He)
      as [msg Hm].
    exists msg. by rewrite Hm.
  - intros os_path format w eno Hi Ho He. unfold _read_file. rewrite bind_run.
    destruct (os_path_isfile os_path w) as [r w1] eqn:Hf. simpl in Hi. subst r.
    assert (w1 = w) as ->.
    { unfold os_path_isfile in Hf.
      destruct (os_stat os_path w) as [[[? [| |]]|] ?]; by injection Hf. }
    cbn [negb]. rewrite bind_run, (open_refused _ _ _ _ _ eno Ho).
    destruct (perm_to_403_status (A:=bytes) self os_path eno (Some os_path) os_text He)
      as [msg Hm].
    exists msg. unfold os_error. by rewrite Hm.
  - intros notebook reads os_path as_version w eno Ho He. unfold _read_notebook.
    rewrite (open_refused _ _ _ _ _ eno Ho).
    destruct (perm_to_403_status (A:=notebook) self os_path eno (Some os_path)
                os_text He) as [msg Hm].
    exists msg. unfold os_error. by rewrite Hm.
  - intros os_path format w H. unfold _read_file. rewrite bind_run.
    destruct (os_path_isfile os_path w) as [r w1] eqn:Hi. simpl in H. subst r.
    assert (w1 = w) as ->.
    { unfold os_path_isfile in Hi.
      destruct (os_stat os_path w) as [[[? [| |]]|] ?]; by injection Hi. }
    reflexivity.
  - intros os_path w data Hr Hd. rewrite (read_file_readable _ _ _ _ _ Hr).
    by destruct (read_file_decode_not_utf8 os_path data Hd) as [-> _].
  - intros. by eapply read_notebook_unreadable.
  - intros. by apply save_file_checks_format.
  - intros os_path content format w e Hf He Hx. unfold _save_file.
    assert ((bool_decide (format = Some "text")
             || bool_decide (format = Some "base64")) = true) as ->
      by (destruct Hf as [-> | ->]; reflexivity).
    cbn [negb]. by rewrite He, Hx.
Qed.

Lemma error_status_codes_witness :
  _get_os_path {| root_dir := "/root" |} "/home" "../etc"
  = Raise (HTTPError 404 ("../etc" +:+ " is outside root contents directory") None)
  /\ (exists msg,
         FileManagerMixin_open sample_manager "/srv/nb/a.txt" false f_read locked_world
         = (Raise (HTTPError 403 msg None), locked_world))
  /\ (exists msg,
         FileManagerMixin_atomic_writing sample_manager "/srv/nb/a.txt" false
           writing_block readonly_world
         = (Raise (HTTPError 403 msg None),
            snd (atomic_writing "/srv/nb/a.txt" false writing_block readonly_world)))
  /\ (exists msg,
         _read_file sample_manager "/srv/nb/a.txt" None locked_world
         = (Raise (HTTPError 403 msg None), locked_world))
  /\ (exists msg,
         _read_notebook unit (fun _ _ => Return tt) sample_manager "/srv/nb/a.txt" 4
           locked_world
         = (Raise (HTTPError 403 msg None), locked_world))
  /\ _read_file sample_manager "/srv/nb" None sample_world
     = (Raise (HTTPError 400 ("Cannot read non-file " +:+ "/srv/nb") None),
        sample_world)
  /\ _read_file sample_manager "/srv/nb/raw.bin" (Some "text") sample_world
     = (Raise (HTTPError 400 ("/srv/nb/raw.bin" +:+ " is not UTF-8 encoded")
                 (Some "bad format")), sample_world)
  /\ (exists msg,
         _read_notebook unit (fun _ _ => Raise boom) sample_manager "/srv/nb/a.txt" 4
           sample_world
         = (Raise (HTTPError 400 msg None), sample_world))
  /\ _save_file sample_manager "/srv/nb/a.txt" [] None sample_world
     = (Raise (HTTPError 400
                 "Must specify format of file contents as 'text' or 'base64'" None),
        sample_world)
  /\ (exists msg,
         _save_file sample_manager "/srv/nb/a.txt" [55296%N] (Some "text") sample_world
         = (Raise (HTTPError 400 msg None), sample_world)).
Proof.
  destruct (error_status_codes sample_manager)
    as (_ & H2 & H3 & H4 & H5 & H6 & H7 & H8 & H9 & H10).
  destruct (error_status_codes {| root_dir := "/root" |}) as (H1 & _).
  repeat apply conj.
  - apply (H1 "/home" "../etc"). vm_compute. reflexivity.
  - apply (H2 bytes "/srv/nb/a.txt" false f_read locked_world errno.EACCES);
      [reflexivity|by right].
  - apply (H3 "/srv/nb/a.txt" false writing_block readonly_world errno.EACCES
             (Some "/srv/nb/a.txtk3x9q2ab") os_text);
      [vm_compute; reflexivity|by right].
  - apply (H4 "/srv/nb/a.txt" None locked_world errno.EACCES);
      [vm_compute; reflexivity|reflexivity|by right].
  - apply (H5 unit (fun _ _ => Return tt) "/srv/nb/a.txt" 4%Z locked_world
             errno.EACCES); [reflexivity|by right].
  - apply (H6 "/srv/nb" None sample_world). vm_compute. reflexivity.
  - apply (H7 "/srv/nb/raw.bin" sample_world [x00; x01; xff]).
    + exact sample_raw_readable.
    + vm_compute. reflexivity.
  - eexists.
    apply (H8 unit (fun _ _ => Raise boom) "/srv/nb/a.txt" 4%Z sample_world
             (list_byte_of_string "old") (codecs.u "old") boom).
    + split; [reflexivity|]. split; [reflexivity|].
      exists "/srv/nb/a.txt", (Meta 384 0). repeat split; vm_compute; reflexivity.
    + vm_compute. reflexivity.
    + reflexivity.
    + reflexivity.
  - apply (H9 "/srv/nb/a.txt" [] None sample_world); discriminate.
  - destruct (_save_file_encode [55296%N] (Some "text")) as [b|e] eqn:He;
      [vm_compute in He; discriminate|].
    exists ("Encoding error saving " +:+ "/srv/nb/a.txt" +:+ ": " +:+ exn_str e).
    apply (H10 "/srv/nb/a.txt" [55296%N] (Some "text") sample_world e).
    + by left.
    + exact He.
    + vm_compute in He. by injection He as <-.
Defined.

(* ===================================================================== *)
(** * The names of the staging area *)
(* ===================================================================== *)

Section StagingNames.
Import Str.

Local Abbreviation no_sep := (Forall (fun a : ascii => a <> sep)).

Lemma join2_l_no_sep (r b : list ascii) :
  no_sep b -> posixpath.join2_l r b = r ++ joint r ++ b.
Proof.
  intros Hb. unfold posixpath.join2_l, joint.
  assert (startswith_l b [sep] = false) as ->.
  { destruct Hb as [|a b Ha _]; [done|]. simpl. by rewrite eqb_not_sep. }
  by destruct (_ || _).
Qed.

Lemma name_char_no_sep (i : N) : name_char i <> sep.
Proof.
  unfold name_char.
  destruct (nth_in_or_default (N.to_nat (i mod 37)) name_characters "a"%char)
    as [H| ->]; [|discriminate].
  revert H. generalize (nth (N.to_nat (i mod 37)) name_characters "a"%char).
  apply (proj1 (List.Forall_forall (fun a => a <> sep) name_characters)).
  vm_compute. repeat (constructor; [discriminate|]). constructor.
Qed.

Lemma name_of_segment (d : draw) : segment (chars (name_of d)).
Proof.
  unfold name_of, chars. rewrite list_ascii_of_string_of_list_ascii.
  split; [done|]. apply Forall_forall. intros a Ha.
  apply list_elem_of_fmap in Ha as [i [-> _]]. apply name_char_no_sep.
Qed.

Lemma rcut_l_spec (p : list ascii) :
  p = fst (posixpath.rcut_l p) ++ snd (posixpath.rcut_l p)
  /\ no_sep (snd (posixpath.rcut_l p)).
Proof.
  induction p as [|a p [IH1 IH2]]; [by split; [|constructor]|].
  cbn [posixpath.rcut_l]. destruct (posixpath.rcut_l p) as [h t]. simpl in *.
  destruct h as [|b h]; simpl.
  - unfold is_sep. destruct (Ascii.eqb a sep) eqn:E; simpl.
    + split; [by rewrite IH1|done].
    + split; [by rewrite IH1|]. apply Ascii.eqb_neq in E. by constructor.
  - split; [by rewrite IH1|done].
Qed.

Lemma rstrip_l_spec (l : list ascii) :
  exists seps, l = rstrip_l sep l ++ seps /\ Forall (fun a => a = sep) seps.
Proof.
  induction l as [|a l (seps & IH & Hs)]; [by exists []|]. cbn [rstrip_l].
  destruct (rstrip_l sep l) as [|b r] eqn:E.
  - destruct (Ascii.eqb a sep) eqn:Ea.
    + apply eqb_sep in Ea as ->. exists (sep :: seps). simpl in IH.
      split; [by rewrite IH | by constructor].
    + exists seps. split; [simpl in *; by rewrite IH | done].
  - exists seps. split; [simpl in *; by rewrite IH | done].
Qed.

(** [split(p)]: the head, then separators, then a tail without one. *)
Lemma split_spec (p : string) :
  exists seps,
    chars p = chars (posixpath.dirname p) ++ seps ++ chars (posixpath.basename p)
    /\ Forall (fun a => a = sep) seps
    /\ no_sep (chars (posixpath.basename p)).
Proof.
  unfold posixpath.dirname, posixpath.basename, posixpath.split, posixpath.split_l'.
  destruct (rcut_l_spec (chars p)) as [Hp Ht].
  destruct (posixpath.rcut_l (chars p)) as [h t]. simpl in Hp, Ht.
  destruct (rstrip_l_spec h) as (seps & Hh & Hs).
  destruct (nonempty h && nonempty (rstrip_l sep h)); simpl; rewrite !chars_text.
  - exists seps. rewrite app_assoc, <- Hh. done.
  - exists []. done.
Qed.

Lemma filter_no_sep (l : list ascii) :
  no_sep l -> filter (fun a => a <> sep) l = l.
Proof.
  induction 1 as [|a l Ha _ IH]; [done|].
  rewrite filter_cons, IH. by case_decide.
Qed.

Lemma filter_seps (l : list ascii) :
  Forall (fun a => a = sep) l -> filter (fun a => a <> sep) l = [].
Proof.
  induction 1 as [|a l Ha _ IH]; [done|].
  rewrite filter_cons, IH. by case_decide.
Qed.

Lemma joint_seps (r : list ascii) : Forall (fun a => a = sep) (joint r).
Proof. unfold joint. destruct (_ || _); repeat constructor. Qed.

Lemma under_spec (dir k : string) :
  under dir k = true -> exists r, chars k = chars dir ++ r.
Proof.
  unfold under. rewrite orb_true_iff. intros [H|H].
  - apply bool_decide_eq_true in H as ->. exists []. by rewrite app_nil_r.
  - unfold startswith in H. rewrite chars_app in H.
    apply startswith_l_spec in H as [r ->]. rewrite <- app_assoc. eauto.
Qed.

Lemma staging_dir_chars (p : string) (d : draw) :
  chars (staging_dir p d)
  = chars (posixpath.dirname p) ++ joint (chars (posixpath.dirname p))
    ++ chars (posixpath.basename p) ++ chars (name_of d).
Proof.
  unfold staging_dir, posixpath.join. rewrite chars_text, chars_app.
  destruct (split_spec p) as (_ & _ & _ & Hb).
  destruct (name_of_segment d) as [_ Hn].
  rewrite join2_l_no_sep; [done|]. by apply Forall_app.
Qed.

(** The destination does not lie in its own staging directory. *)
Lemma dest_not_under_staging (p : string) (d : draw) :
  under (staging_dir p d) p = false.
Proof.
  apply not_true_is_false. intros H. apply under_spec in H as [r Hr].
  rewrite staging_dir_chars in Hr.
  destruct (split_spec p) as (seps & Hp & Hs & Hb).
  destruct (name_of_segment d) as [Hne Hn].
  rewrite Hp in Hr at 1. rewrite <- !app_assoc in Hr.
  apply app_inv_head in Hr.
  apply (f_equal (filter (fun a => a <> sep))) in Hr.
  rewrite !filter_app in Hr.
  rewrite (filter_seps _ Hs), (filter_seps _ (joint_seps _)) in Hr.
  rewrite (filter_no_sep _ Hb), (filter_no_sep _ Hn) in Hr. simpl in Hr.
  apply (f_equal length) in Hr. rewrite !length_app in Hr.
  destruct (chars (name_of d)); [done | simpl in Hr; lia].
Qed.

Lemma staging_dir_nonempty (p : string) (d : draw) : staging_dir p d <> "".
Proof.
  intros E. apply (f_equal chars) in E. rewrite staging_dir_chars in E.
  destruct (name_of_segment d) as [Hne _].
  apply (f_equal length) in E. rewrite !length_app in E. simpl in E.
  destruct (chars (name_of d)); [done | simpl in E; lia].
Qed.

(** The temporary file lies in the staging directory. *)
Lemma tmp_path_chars (p : string) (d : draw) :
  chars (posixpath.join (staging_dir p d) (posixpath.basename p))
  = chars (staging_dir p d) ++ sep :: chars (posixpath.basename p).
Proof.
  unfold posixpath.join at 1. rewrite chars_text.
  destruct (split_spec p) as (_ & _ & _ & Hb).
  rewrite join2_l_no_sep by done. f_equal.
  rewrite staging_dir_chars.
  rewrite !app_assoc. rewrite joint_after_segment; [done|].
  destruct (name_of_segment d) as [Hne Hn]. split; [done | done].
Qed.

Lemma tmp_path_under (p : string) (d : draw) :
  under (staging_dir p d) (posixpath.join (staging_dir p d) (posixpath.basename p))
  = true.
Proof.
  unfold under. apply orb_true_iff. right. unfold startswith.
  rewrite tmp_path_chars, chars_app. apply startswith_l_spec.
  exists (chars (posixpath.basename p)). by rewrite <- app_assoc.
Qed.

Lemma tmp_path_not_dir (p : string) (d : draw) :
  posixpath.join (staging_dir p d) (posixpath.basename p) <> staging_dir p d.
Proof.
  intros E. apply (f_equal chars) in E. rewrite tmp_path_chars in E.
  apply (f_equal length) in E. rewrite length_app in E. simpl in E. lia.
Qed.

End StagingNames.

(* ===================================================================== *)
(** * Setting up the staging area *)
(* ===================================================================== *)

Lemma fs_wf_under (m : gmap string node) (d k : string) :
  fs_wf m -> d <> "" -> m !! d = None -> under d k = true -> m !! k = None.
Proof.
  intros Hwf Hd Hnone Hu. destruct (m !! k) as [n|] eqn:Hk; [exfalso|done].
  pose proof (Hwf k n Hk) as Ha. cbv beta in Ha. unfold ancestors_in in Ha.
  rewrite forallb_forall in Ha.
  unfold under in Hu. apply orb_true_iff in Hu as [Hu|Hu].
  { apply bool_decide_eq_true in Hu as ->. congruence. }
  unfold Str.startswith in Hu. rewrite chars_app in Hu.
  apply startswith_l_spec in Hu as [r Hr]. rewrite <- app_assoc in Hr.
  change (Str.chars "/" ++ r) with (Str.sep :: r) in Hr.
  specialize (Ha (length (Str.chars d))).
  rewrite Hr in Ha.
  rewrite app_nth2, Nat.sub_diag in Ha by lia. cbn [nth] in Ha.
  rewrite take_app_length in Ha. rewrite text_chars, Hnone in Ha.
  assert (Hlen : length (Str.chars d) <> 0).
  { intros E. apply Hd, chars_inj. by destruct (Str.chars d). }
  rewrite (bool_decide_eq_false_2 _ Hlen) in Ha.
  assert (Hin : In (length (Str.chars d))
                  (seq 0 (length (Str.chars d ++ Str.sep :: r)))).
  { apply in_seq. rewrite length_app. simpl. lia. }
  specialize (Ha Hin). vm_compute in Ha. discriminate.
Qed.

Lemma mkdtemp_from_inv (names : list draw) (prefix dir td : string) (w w' : world) :
  mkdtemp_from names prefix dir w = (Return td, w') ->
  exists d rest,
    td = posixpath.join dir (prefix +:+ name_of d)
    /\ fs w !! td = None
    /\ w' = set_fs (insert td (Dir (Meta 448 0))) (set_tmp_names rest w).
Proof.
  revert w. induction names as [|d names IH]; intros w H; [discriminate|].
  cbn [mkdtemp_from] in H. rewrite bind_run in H. unfold modify at 1 in H.
  unfold try_except in H.
  set (file := posixpath.join dir (prefix +:+ name_of d)) in *.
  destruct ((os_mkdir file 448;; ret file) (set_tmp_names names w))
    as [[x|e] w2] eqn:Hm.
  - injection H as -> ->. exists d, names.
    apply bind_Return_inv in Hm as (u & w3 & Hm & Hr).
    unfold ret in Hr. injection Hr as <- ->.
    unfold os_mkdir in Hm.
    apply bind_Return_inv in Hm as (u1 & w4 & Hc & Hm).
    apply call_Return_inv in Hc as [_ ->].
    rewrite bind_run in Hm. unfold get in Hm. cbn [fs set_tmp_names] in Hm.
    destruct (fs w !! file) eqn:Hf; [discriminate|].
    destruct (parent_is_dir (fs w) file); [|discriminate].
    unfold modify in Hm. by injection Hm as <-.
  - destruct (is_EEXIST e); [|discriminate].
    assert (w2 = set_tmp_names names w) as ->.
    { rewrite bind_run in Hm. unfold os_mkdir in Hm. rewrite bind_run in Hm.
      unfold call in Hm. cbn [refused set_tmp_names] in Hm.
      destruct (refused w (sys_mkdir file)).
      { by injection Hm as _ <-. }
      rewrite bind_run in Hm. unfold get in Hm. cbn [fs set_tmp_names] in Hm.
      destruct (fs w !! file).
      { unfold raise in Hm. by injection Hm as _ <-. }
      destruct (parent_is_dir (fs w) file).
      { unfold modify, ret in Hm. discriminate. }
      unfold raise in Hm. by injection Hm as _ <-. }
    apply IH in H as (d' & rest & -> & Hnone & ->).
    by exists d', rest.
Qed.

Lemma io_open_w_new (p : string) (text : bool) (f : fileobj) (w w' : world) :
  fs w !! p = None ->
  io_open_w p text w = (Return f, w') ->
  f = FileObj p text []
  /\ w' = set_open_files (cons p) (set_fs (insert p (File [] default_meta)) w).
Proof.
  intros Hp H. unfold io_open_w in H.
  apply bind_Return_inv in H as (u & w1 & Hc & H).
  apply call_Return_inv in Hc as [_ ->].
  rewrite bind_run in H. unfold get in H.
  assert (follow SYMLOOP_MAX (fs w) p = Some p) as Hf.
  { unfold SYMLOOP_MAX. cbn [follow]. by rewrite Hp. }
  rewrite Hf, Hp in H.
  destruct (bool_decide _); [discriminate|].
  destruct (parent_is_dir _ _); [|discriminate].
  rewrite bind_run in H. unfold modify in H. rewrite bind_run in H.
  unfold ret in H. by injection H as <- <-.
Qed.

Lemma islink_run (path : string) (w : world) :
  os_path_islink path w
  = (Return (match fs w !! path with Some (Symlink _) => true | _ => false end), w).
Proof. unfold os_path_islink. by destruct (fs w !! path) as [[| |]|]. Qed.

(** What [atomic_writing] has done when it yields, on a well-formed file
    system: a fresh staging directory next to the destination, and in it
    an empty temporary file, open. *)
Lemma enter_inv (path : string) (text : bool) (s : staging) (w w1 : world) :
  fs_wf (fs w) ->
  atomic_writing_enter path text w = (Return s, w1) ->
  exists d rest,
    dest s = resolved_dest (fs w) path
    /\ tmp_dir s = staging_dir (dest s) d
    /\ tmp_path s = posixpath.join (tmp_dir s) (posixpath.basename (dest s))
    /\ handle s = FileObj (tmp_path s) text []
    /\ fs w !! tmp_dir s = None
    /\ w1 = staged w (tmp_dir s) (tmp_path s) rest.
Proof.
  intros Hwf H. unfold atomic_writing_enter in H.
  apply bind_Return_inv in H as (islink & w2 & Hi & H).
  rewrite islink_run in Hi. injection Hi as <- <-.
  apply bind_Return_inv in H as (p & w2 & Hp & H).
  assert (p = resolved_dest (fs w) path /\ w2 = w) as [-> ->].
  { unfold resolved_dest. destruct (fs w !! path) as [[| |t]|] eqn:Hl;
      try (unfold ret in Hp; by injection Hp as <- <-).
    apply bind_Return_inv in Hp as (t' & w3 & Hr & Hp).
    unfold ret in Hp. injection Hp as <- <-.
    unfold os_readlink in Hr.
    apply bind_Return_inv in Hr as (u & w4 & Hc & Hr).
    apply call_Return_inv in Hc as [_ ->].
    rewrite bind_run in Hr. unfold get in Hr. rewrite Hl in Hr.
    unfold ret in Hr. by injection Hr as <- <-. }
  set (p := resolved_dest (fs w) path) in *.
  unfold posixpath.dirname, posixpath.basename in *.
  destruct (posixpath.split p) as [dirname basename] eqn:Hs.
  apply bind_Return_inv in H as (td & w2 & Hm & H).
  unfold tempfile_mkdtemp in Hm. rewrite bind_run in Hm. unfold get in Hm.
  apply mkdtemp_from_inv in Hm as (d & rest & Htd & Hnone & ->).
  apply bind_Return_inv in H as (f & w3 & Ho & H).
  unfold ret in H. injection H as <- <-. cbn [dest tmp_dir tmp_path handle].
  assert (Htd' : td = staging_dir p d).
  { unfold staging_dir, posixpath.dirname, posixpath.basename. by rewrite Hs. }
  assert (Hb : basename = posixpath.basename p).
  { unfold posixpath.basename. by rewrite Hs. }
  apply io_open_w_new in Ho as [-> ->].
  - exists d, rest. rewrite Hs. cbn [fst snd]. repeat split; try done.
  - cbn [fs set_fs set_tmp_names]. rewrite lookup_insert_ne.
    + apply (fs_wf_under _ td); [done| |done|].
      * rewrite Htd'. apply staging_dir_nonempty.
      * rewrite Htd', Hb. apply tmp_path_under.
    + rewrite Htd', Hb. intros E. symmetry in E. by apply tmp_path_not_dir in E.
Qed.

(* ===================================================================== *)
(** * Rolling back *)
(* ===================================================================== *)

(** Removing the staging directory from a file system that had nothing
    in its place gives that file system back. *)
Lemma unstage_fs (m : gmap string node) (td tp : string) (x y : node) :
  (forall k, under td k = true -> m !! k = None) ->
  under td tp = true ->
  filter (fun kv => under td (fst kv) = false) (<[tp := x]> (<[td := y]> m)) = m.
Proof.
  intros Hfree Htp. apply map_eq. intros j.
  destruct (under td j) eqn:Hu.
  - rewrite (Hfree j Hu). apply map_lookup_filter_None. right.
    intros z _. cbn [fst]. by rewrite Hu.
  - assert (j <> tp) by (intros ->; congruence).
    assert (j <> td).
    { intros ->. unfold under in Hu. by rewrite bool_decide_eq_true_2 in Hu. }
    destruct (m !! j) as [z|] eqn:Hj.
    + apply map_lookup_filter_Some. split; [|done].
      by rewrite !lookup_insert_ne.
    + apply map_lookup_filter_None. left. by rewrite !lookup_insert_ne.
Qed.

Lemma under_refl (d : string) : under d d = true.
Proof. unfold under. by rewrite bool_decide_eq_true_2. Qed.

(** Closing the temporary file with [b] in its buffer. *)
Lemma close_staged (w : world) (td tp : string) (rest : list draw) (text : bool)
    (b : bytes) :
  refused w (sys_write tp) = None ->
  refused w (sys_close tp) = None ->
  f_close (FileObj tp text b) (staged w td tp rest)
  = (Return tt,
     World (<[tp := File b default_meta]> (<[td := Dir (Meta 448 0)]> (fs w)))
           (open_files w) rest (refused w) (os_name w) (has_chflags w)).
Proof.
  intros Hw Hc. unfold f_close, f_flush. cbn [f_buf f_name].
  case_bool_decide as Hb.
  - subst b. unfold ret, staged, set_open_files. cbn.
    rewrite bool_decide_eq_true_2 by done.
    unfold call. cbn. by rewrite Hc.
  - rewrite bind_run. unfold call at 1. cbn [refused staged]. rewrite Hw.
    rewrite bind_run. unfold modify, ret, set_fs, set_open_files, append_data. cbn.
    rewrite lookup_insert_eq, insert_insert_eq.
    rewrite bool_decide_eq_true_2 by done.
    unfold call. cbn. by rewrite Hc.
Qed.

Lemma rollback_run (w : world) (s : staging) (rest : list draw) (text : bool)
    (b : bytes) (e : exn) :
  (forall k, under (tmp_dir s) k = true -> fs w !! k = None) ->
  under (tmp_dir s) (tmp_path s) = true ->
  tmp_path s <> tmp_dir s ->
  refused w (sys_write (tmp_path s)) = None ->
  refused w (sys_close (tmp_path s)) = None ->
  refused w (sys_rmtree (tmp_dir s)) = None ->
  atomic_writing_rollback s (FileObj (tmp_path s) text b) e
    (staged w (tmp_dir s) (tmp_path s) rest)
  = (Raise e, set_tmp_names rest w).
Proof.
  intros Hfree Hu Hne Hw Hc Hr. unfold atomic_writing_rollback.
  rewrite bind_run, (close_staged _ _ _ _ _ _ Hw Hc).
  rewrite bind_run. unfold shutil_rmtree.
  rewrite bind_run. unfold call. cbn [refused]. rewrite Hr.
  rewrite bind_run. unfold get. cbn [fs].
  rewrite lookup_insert_ne, lookup_insert_eq by done.
  unfold modify, raise, set_fs, set_tmp_names. cbn.
  by rewrite (unstage_fs _ _ _ _ _ Hfree Hu).
Qed.

(** C2: when the block of [atomic_writing] raises, the file object is
    closed, the staging directory is removed with what it holds, and the
    block's exception is raised again as it is.  On a well-formed file
    system, and when the host does not refuse the closing and the
    removal, the file system is then exactly as it was before
    [atomic_writing] was entered (so a destination that existed holds
    the same bytes), no file is left open, and nothing is left of the
    staging directory. *)
Theorem atomic_writing_block_raises (path : string) (text : bool) (blk : block)
    (w w1 : world) (s : staging) (e : exn) (written : bytes) :
  fs_wf (fs w) ->
  atomic_writing_enter path text w = (Return s, w1) ->
  blk (handle s) = (Raise e, written) ->
  refused w (sys_write (tmp_path s)) = None ->
  refused w (sys_close (tmp_path s)) = None ->
  refused w (sys_rmtree (tmp_dir s)) = None ->
  exists w',
    atomic_writing path text blk w = (Raise e, w')
    /\ fs w' = fs w
    /\ fs w' !! dest s = fs w !! dest s
    /\ open_files w' = open_files w
    /\ (forall k, under (tmp_dir s) k = true -> fs w' !! k = None).
Proof.
  intros Hwf He Hb Hw Hc Hr.
  destruct (enter_inv _ _ _ _ _ Hwf He) as (d & rest & Hd & Htd & Htp & Hh & Hnone & ->).
  assert (Hfree : forall k, under (tmp_dir s) k = true -> fs w !! k = None).
  { intros k Hk. apply (fs_wf_under _ (tmp_dir s)); try done.
    rewrite Htd. apply staging_dir_nonempty. }
  exists (set_tmp_names rest w).
  split; [|by repeat split].
  unfold atomic_writing. rewrite bind_run, He, Hb, Hh.
  unfold buffered. cbn [f_name f_text f_buf app].
  apply rollback_run; try done.
  - rewrite Htp, Htd. apply tmp_path_under.
  - rewrite Htp, Htd. apply tmp_path_not_dir.
Qed.

Lemma sample_fs_wf : fs_wf sample_fs.
Proof. apply (bool_decide_unpack _). vm_compute. exact I. Defined.

Lemma sample_enter :
  atomic_writing_enter "/srv/nb/a.txt" false sample_world
  = (Return sample_staging,
     staged sample_world "/srv/nb/a.txtk3x9q2ab" "/srv/nb/a.txtk3x9q2ab/a.txt"
       [(5, [5; 5; 5; 5; 5; 5; 5])]%N).
Proof. vm_compute. reflexivity. Defined.

Lemma atomic_writing_block_raises_witness :
  exists w',
    atomic_writing "/srv/nb/a.txt" false failing_block sample_world = (Raise boom, w')
    /\ fs w' = fs sample_world
    /\ fs w' !! dest sample_staging = fs sample_world !! dest sample_staging
    /\ open_files w' = open_files sample_world
    /\ (forall k, under (tmp_dir sample_staging) k = true -> fs w' !! k = None).
Proof.
  apply (atomic_writing_block_raises "/srv/nb/a.txt" false failing_block sample_world
           (staged sample_world "/srv/nb/a.txtk3x9q2ab" "/srv/nb/a.txtk3x9q2ab/a.txt"
              [(5, [5; 5; 5; 5; 5; 5; 5])]%N)
           sample_staging boom (list_byte_of_string "par")).
  - exact sample_fs_wf.
  - exact sample_enter.
  - reflexivity.
  - reflexivity.
  - reflexivity.
  - reflexivity.
Defined.

(* ===================================================================== *)
(** * A cleanup that fails *)
(* ===================================================================== *)

Lemma busy_enter :
  atomic_writing_enter "/srv/nb/a.txt" false busy_world
  = (Return sample_staging,
     staged busy_world "/srv/nb/a.txtk3x9q2ab" "/srv/nb/a.txtk3x9q2ab/a.txt"
       [(5, [5; 5; 5; 5; 5; 5; 5])]%N).
Proof. vm_compute. reflexivity. Defined.

(** C3 (as the code has it): the block raises [ValueError('boom')], the
    removal of the staging directory is refused with error 16, and what
    [atomic_writing] raises is that [OSError], not the block's
    exception. *)
Lemma cleanup_failure_masks_block_failure :
  failing_block (handle sample_staging) = (Raise boom, list_byte_of_string "par")
  /\ fst (atomic_writing "/srv/nb/a.txt" false failing_block busy_world)
     = Raise (os_error 16 "/srv/nb/a.txtk3x9q2ab")
  /\ fst (atomic_writing "/srv/nb/a.txt" false failing_block busy_world)
     <> Raise boom.
Proof.
  split; [reflexivity|].
  assert (H : fst (atomic_writing "/srv/nb/a.txt" false failing_block busy_world)
              = Raise (os_error 16 "/srv/nb/a.txtk3x9q2ab"))
    by (vm_compute; reflexivity).
  split; [exact H|]. rewrite H. discriminate.
Qed.

(** C3, amended: when the block of [atomic_writing] raises and the host
    then refuses the removal of the staging directory, the [OSError] of
    the removal is what [atomic_writing] raises: the [raise] that would
    re-raise the block's exception is not reached.  The staging
    directory is still there. *)
Theorem atomic_writing_cleanup_fails (path : string) (text : bool) (blk : block)
    (w w1 : world) (s : staging) (e : exn) (written : bytes) (eno : Z) :
  fs_wf (fs w) ->
  atomic_writing_enter path text w = (Return s, w1) ->
  blk (handle s) = (Raise e, written) ->
  refused w (sys_write (tmp_path s)) = None ->
  refused w (sys_close (tmp_path s)) = None ->
  refused w (sys_rmtree (tmp_dir s)) = Some eno ->
  exists w',
    atomic_writing path text blk w = (Raise (os_error eno (tmp_dir s)), w')
    /\ is_Some (fs w' !! tmp_dir s).
Proof.
  intros Hwf He Hb Hw Hc Hr.
  destruct (enter_inv _ _ _ _ _ Hwf He) as (d & rest & Hd & Htd & Htp & Hh & Hnone & ->).
  assert (Hne : tmp_path s <> tmp_dir s).
  { rewrite Htp, Htd. apply tmp_path_not_dir. }
  eexists. split.
  - unfold atomic_writing. rewrite bind_run, He, Hb, Hh.
    unfold buffered. cbn [f_name f_text f_buf app].
    unfold atomic_writing_rollback.
    rewrite bind_run, (close_staged _ _ _ _ _ _ Hw Hc).
    rewrite bind_run. unfold shutil_rmtree.
    rewrite bind_run. unfold call. cbn [refused]. rewrite Hr. reflexivity.
  - cbn [fs]. rewrite lookup_insert_ne, lookup_insert_eq by done. by eexists.
Qed.

Lemma atomic_writing_cleanup_fails_witness :
  exists w',
    atomic_writing "/srv/nb/a.txt" false failing_block busy_world
    = (Raise (os_error 16 (tmp_dir sample_staging)), w')
    /\ is_Some (fs w' !! tmp_dir sample_staging).
Proof.
  apply (atomic_writing_cleanup_fails "/srv/nb/a.txt" false failing_block busy_world
           (staged busy_world "/srv/nb/a.txtk3x9q2ab" "/srv/nb/a.txtk3x9q2ab/a.txt"
              [(5, [5; 5; 5; 5; 5; 5; 5])]%N)
           sample_staging boom (list_byte_of_string "par") 16%Z).
  - exact sample_fs_wf.
  - exact busy_enter.
  - reflexivity.
  - reflexivity.
  - reflexivity.
  - reflexivity.
Defined.

(* ===================================================================== *)
(** * Committing *)
(* ===================================================================== *)

Lemma set_fs_insert_id (W : world) (p : string) (n : node) :
  fs W !! p = Some n -> set_fs (insert p n) W = W.
Proof. intros H. destruct W. unfold set_fs. cbn in *. by rewrite insert_id. Qed.

Lemma set_fs_insert_twice (W : world) (p : string) (n n' : node) :
  set_fs (insert p n') (set_fs (insert p n) W) = set_fs (insert p n') W.
Proof. unfold set_fs. cbn. by rewrite insert_insert_eq. Qed.

Lemma os_stat_world (p : string) (W : world) : snd (os_stat p W) = W.
Proof.
  unfold os_stat. rewrite bind_run. unfold call.
  destruct (refused W (sys_stat p)); [done|]. rewrite bind_run. unfold get.
  destruct (follow _ _ _); [|done]. by destruct (fs W !! _).
Qed.

Lemma os_stat_raises (p : string) (W W' : world) (e : exn) :
  os_stat p W = (Raise e, W') -> is_OSError e = true.
Proof.
  unfold os_stat. rewrite bind_run. unfold call.
  destruct (refused W (sys_stat p)); [by intros [= <- _]|]. rewrite bind_run.
  unfold get. destruct (follow _ _ _); [|by intros [= <- _]].
  destruct (fs W !! _); [discriminate | by intros [= <- _]].
Qed.

Lemma follow_file (m : gmap string node) (p : string) (b : bytes) (mt : meta) :
  m !! p = Some (File b mt) -> follow SYMLOOP_MAX m p = Some p.
Proof. intros H. unfold SYMLOOP_MAX. cbn [follow]. by rewrite H. Qed.

Lemma os_chmeta_file (c : syscall) (p : string) (f : meta -> meta) (b : bytes)
    (mt : meta) (W : world) :
  fs W !! p = Some (File b mt) ->
  os_chmeta c p f W = (Return tt, set_fs (insert p (File b (f mt))) W)
  \/ exists e, os_chmeta c p f W = (Raise e, W) /\ is_OSError e = true.
Proof.
  intros H. unfold os_chmeta. rewrite bind_run. unfold call.
  destruct (refused W c); [right; by eexists|]. left.
  rewrite bind_run. unfold get. by rewrite (follow_file _ _ _ _ H), H.
Qed.

(** Copying the metadata onto the temporary file changes at most its
    metadata, and fails with an [OSError] if it fails. *)
Lemma copy_metadata_effect (src p : string) (b : bytes) (mt : meta) (W : world) :
  fs W !! p = Some (File b mt) ->
  exists r mt',
    _copy_metadata src p W = (r, set_fs (insert p (File b mt')) W)
    /\ match r with Return _ => True | Raise e => is_OSError e = true end.
Proof.
  intros H. unfold _copy_metadata, shutil_copymode. rewrite !bind_run.
  pose proof (os_stat_world src W) as Hw.
  destruct (os_stat src W) as [[st|e] W1] eqn:Hs; simpl in Hw; subst W1.
  2:{ exists (Raise e), mt. rewrite (set_fs_insert_id _ _ _ H).
      split; [done|]. by eapply os_stat_raises. }
  unfold os_chmod.
  destruct (os_chmeta_file (sys_chmod p) p
              (fun mt0 => Meta (st_mode (node_meta (snd st))) (st_flags mt0)) b mt W H)
    as [-> | (e & -> & He)].
  2:{ exists (Raise e), mt. by rewrite (set_fs_insert_id _ _ _ H). }
  set (mt1 := Meta _ _). set (W1 := set_fs _ W).
  assert (H1 : fs W1 !! p = Some (File b mt1)) by (cbn; by rewrite lookup_insert_eq).
  rewrite bind_run. pose proof (os_stat_world src W1) as Hw.
  destruct (os_stat src W1) as [[st'|e] W2] eqn:Hs'; simpl in Hw; subst W2.
  2:{ exists (Raise e), mt1. split; [done|]. by eapply os_stat_raises. }
  rewrite bind_run. unfold get. destruct (has_chflags W1).
  2:{ by exists (Return tt), mt1. }
  unfold os_chflags.
  destruct (os_chmeta_file (sys_chflags p) p
              (fun mt0 => Meta (st_mode mt0) (st_flags (node_meta (snd st')))) b mt1 W1 H1)
    as [-> | (e & -> & He)].
  - eexists (Return tt), _. unfold W1. by rewrite set_fs_insert_twice.
  - by exists (Raise e), mt1.
Qed.

Lemma copy_metadata_ignored (src p : string) (b : bytes) (mt : meta) (W : world) :
  fs W !! p = Some (File b mt) ->
  exists mt',
    try_except (_copy_metadata src p) is_OSError (fun _ => ret tt) W
    = (Return tt, set_fs (insert p (File b mt')) W).
Proof.
  intros H. destruct (copy_metadata_effect src p b mt W H) as (r & mt' & Hr & Hc).
  exists mt'. unfold try_except. rewrite Hr.
  destruct r as [[]|e]; [done|]. by rewrite Hc.
Qed.

Lemma os_path_exists_run (p : string) (W : world) :
  exists ex, os_path_exists p W = (Return ex, W).
Proof. unfold os_path_exists. destruct (os_stat p W) as [[?|?] ?]; eauto. Qed.

Lemma os_remove_inv (p : string) (W W' : world) (u : unit) :
  os_remove p W = (Return u, W') -> W' = set_fs (delete p) W.
Proof.
  unfold os_remove. intros H.
  apply bind_Return_inv in H as (u1 & W1 & Hc & H).
  apply call_Return_inv in Hc as [_ ->].
  rewrite bind_run in H. unfold get in H.
  destruct (fs W !! p) as [[| |]|]; try discriminate;
    unfold modify in H; by injection H as <-.
Qed.

Lemma os_rename_inv (src dst : string) (W W' : world) (u : unit) :
  os_rename src dst W = (Return u, W') ->
  exists n, fs W !! src = Some n
            /\ W' = set_fs (fun m => <[dst := n]> (delete src m)) W.
Proof.
  unfold os_rename. intros H.
  apply bind_Return_inv in H as (u1 & W1 & Hc & H).
  apply call_Return_inv in Hc as [_ ->].
  rewrite bind_run in H. unfold get at 1 in H. rewrite bind_run in H.
  unfold get in H.
  destruct (fs W !! src) as [n|]; [|discriminate]. exists n. split; [done|].
  remember (bool_decide (os_name W = "nt")) as nt eqn:Hnt. clear Hnt.
  destruct n; try discriminate;
    (destruct (fs W !! dst) as [[| |]|]; try discriminate;
     try (destruct nt; [discriminate|]);
     try (destruct (parent_is_dir _ _); [|discriminate]);
     unfold modify in H; by injection H as <-).
Qed.

Lemma rmtree_inv (p : string) (W W' : world) (u : unit) :
  shutil_rmtree p W = (Return u, W') ->
  W' = set_fs (filter (fun kv => under p (fst kv) = false)) W.
Proof.
  unfold shutil_rmtree. intros H.
  apply bind_Return_inv in H as (u1 & W1 & Hc & H).
  apply call_Return_inv in Hc as [_ ->].
  rewrite bind_run in H. unfold get in H.
  destruct (fs W !! p) as [[| |]|]; try discriminate.
  unfold modify in H. by injection H as <-.
Qed.

Lemma flush_staged (w : world) (td tp : string) (rest : list draw) (text : bool)
    (b : bytes) (f1 : fileobj) (wA : world) :
  f_flush (FileObj tp text b) (staged w td tp rest) = (Return f1, wA) ->
  f1 = FileObj tp text []
  /\ wA = World (<[tp := File b default_meta]> (<[td := Dir (Meta 448 0)]> (fs w)))
            (tp :: open_files w) rest (refused w) (os_name w) (has_chflags w).
Proof.
  unfold f_flush. cbn [f_buf f_name f_text]. case_bool_decide as Hb.
  - subst b. unfold ret. by intros [= <- <-].
  - intros H. apply bind_Return_inv in H as (u & W1 & Hc & H).
    apply call_Return_inv in Hc as [_ ->].
    rewrite bind_run in H. unfold modify, ret, set_fs, append_data in H.
    cbn in H. rewrite lookup_insert_eq, insert_insert_eq in H.
    by injection H as <- <-.
Qed.

(** What a successful commit leaves: the destination holds the bytes
    written, and nothing else has changed. *)
Lemma commit_inv (w w' : world) (s : staging) (rest : list draw) (text : bool)
    (b : bytes) :
  (forall k, under (tmp_dir s) k = true -> fs w !! k = None) ->
  under (tmp_dir s) (tmp_path s) = true ->
  tmp_path s <> tmp_dir s ->
  under (tmp_dir s) (dest s) = false ->
  atomic_writing_commit s (FileObj (tmp_path s) text b)
    (staged w (tmp_dir s) (tmp_path s) rest) = (Return tt, w') ->
  exists mt,
    fs w' = <[dest s := File b mt]> (fs w)
    /\ refused w' = refused w
    /\ open_files w' = open_files w.
Proof.
  destruct s as [dst td tp h]. cbn [tmp_dir tmp_path dest].
  intros Hfree Htp Hne Hdst H.
  assert (Hdt : dst <> tp) by (intros ->; congruence).
  assert (Hdd : dst <> td) by (intros ->; by rewrite under_refl in Hdst).
  unfold atomic_writing_commit in H. cbn [tmp_dir tmp_path dest] in H.
  apply bind_Return_inv in H as (f1 & wA & Hf & H).
  apply flush_staged in Hf as [-> ->].
  apply bind_Return_inv in H as (u & wB & Hs & H).
  unfold os_fsync in Hs. apply call_Return_inv in Hs as [_ ->].
  apply bind_Return_inv in H as (u1 & wC & Hc & H).
  unfold f_close, f_flush in Hc. cbn [f_buf f_name] in Hc.
  rewrite bool_decide_eq_true_2 in Hc by done. unfold ret in Hc.
  unfold set_open_files in Hc. cbn in Hc.
  rewrite bool_decide_eq_true_2 in Hc by done.
  apply call_Return_inv in Hc as [_ ->].
  apply bind_Return_inv in H as (u2 & wD & Hm & H).
  match type of Hm with
  | try_except _ _ _ ?W = _ =>
      destruct (copy_metadata_ignored dst tp b default_meta W) as [mt Hm'];
        [cbn; by rewrite lookup_insert_eq|]
  end.
  rewrite Hm in Hm'. apply (f_equal snd) in Hm'. cbn [snd] in Hm'. subst wD.
  clear Hm.
  unfold set_fs in H. cbn in H. rewrite insert_insert_eq in H.
  apply bind_Return_inv in H as (ex & wE & Hx & H).
  match type of Hx with
  | os_path_exists _ ?W = _ => destruct (os_path_exists_run dst W) as [ex' Hx']
  end.
  rewrite Hx' in Hx. injection Hx as <- <-. clear Hx'.
  apply bind_Return_inv in H as (u3 & wF & Hr & H).
  apply bind_Return_inv in H as (u4 & wG & Hn & H).
  apply rmtree_inv in H. apply os_rename_inv in Hn as (n & Hn & ->).
  set (m0 := <[tp := File b mt]> (<[td := Dir (Meta 448 0)]> (fs w))) in *.
  assert (HF : exists m1, fs wF = m1 /\ m1 !! tp = Some (File b mt)
                 /\ (forall j, j <> dst -> m1 !! j = m0 !! j)
                 /\ refused wF = refused w /\ open_files wF = open_files w).
  { destruct (_ && _).
    - apply os_remove_inv in Hr as ->. eexists. split; [reflexivity|]. cbn.
      split; [|split; [|done]].
      + rewrite lookup_delete_ne by done. unfold m0. by rewrite lookup_insert_eq.
      + intros j Hj. by rewrite lookup_delete_ne.
    - unfold ret in Hr. injection Hr as ?. subst wF.
      eexists. split; [reflexivity|]. cbn.
      split; [|done]. unfold m0. by rewrite lookup_insert_eq. }
  destruct HF as (m1 & Hm1 & Htp1 & Hoth & Href & Hop).
  rewrite Hm1, Htp1 in Hn. injection Hn as <-.
  exists mt. subst w'. unfold set_fs. cbn. rewrite Hm1, Href, Hop.
  split; [|done]. apply map_eq. intros j.
  destruct (under td j) eqn:Hu.
  - assert (j <> dst) by (intros ->; congruence).
    rewrite lookup_insert_ne, (Hfree j Hu) by done.
    apply map_lookup_filter_None. right. intros z _. cbn [fst]. by rewrite Hu.
  - destruct (decide (j = dst)) as [->|Hj].
    + rewrite lookup_insert_eq. apply map_lookup_filter_Some.
      split; [by rewrite lookup_insert_eq | done].
    + assert (j <> tp) by (intros ->; congruence).
      assert (j <> td) by (intros ->; by rewrite under_refl in Hu).
      rewrite lookup_insert_ne by done.
      assert (Hj' : (<[dst := File b mt]> (delete tp m1)) !! j = fs w !! j).
      { rewrite lookup_insert_ne, lookup_delete_ne, Hoth by done.
        unfold m0. by rewrite !lookup_insert_ne. }
      destruct (fs w !! j) as [z|] eqn:Hz.
      * apply map_lookup_filter_Some. by split.
      * apply map_lookup_filter_None. by left.
Qed.

(** What [atomic_writing] leaves when it returns, on a well-formed file
    system: the destination holds what the block wrote, nothing else has
    changed, no file is left open. *)
Lemma atomic_writing_returns (path : string) (text : bool) (blk : block)
    (w w' : world) :
  fs_wf (fs w) ->
  atomic_writing path text blk w = (Return tt, w') ->
  exists s written mt,
    dest s = resolved_dest (fs w) path
    /\ blk (handle s) = (Return tt, written)
    /\ fs w' = <[dest s := File written mt]> (fs w)
    /\ refused w' = refused w
    /\ open_files w' = open_files w.
Proof.
  intros Hwf H. unfold atomic_writing in H.
  apply bind_Return_inv in H as (s & w1 & He & H).
  destruct (enter_inv _ _ _ _ _ Hwf He) as (d & rest & Hd & Htd & Htp & Hh & Hnone & ->).
  destruct (blk (handle s)) as [[[]|e] written] eqn:Hb.
  2:{ unfold atomic_writing_rollback in H.
      apply bind_Return_inv in H as (u & w2 & _ & H).
      apply bind_Return_inv in H as (u' & w3 & _ & H). discriminate. }
  rewrite Hh in H. unfold buffered in H. cbn [f_name f_text f_buf app] in H.
  apply commit_inv in H as (mt & Hfs & Hr & Ho).
  - exists s, written, mt. done.
  - intros k Hk. apply (fs_wf_under _ (tmp_dir s)); try done.
    rewrite Htd. apply staging_dir_nonempty.
  - rewrite Htp, Htd. apply tmp_path_under.
  - rewrite Htp, Htd. apply tmp_path_not_dir.
  - rewrite Htd. apply dest_not_under_staging.
Qed.

Lemma follow_after_write (m : gmap string node) (path : string) (b : bytes)
    (mt : meta) :
  follow SYMLOOP_MAX (<[resolved_dest m path := File b mt]> m) path
  = Some (resolved_dest m path).
Proof.
  destruct (decide (resolved_dest m path = path)) as [E|E].
  { rewrite E. eapply follow_file. apply lookup_insert_eq. }
  unfold resolved_dest in *. destruct (m !! path) as [[| |t]|] eqn:Hp; try done.
  unfold SYMLOOP_MAX. cbn [follow]. rewrite lookup_insert_ne, Hp by done.
  by rewrite lookup_insert_eq.
Qed.

Lemma save_file_returns (self : FileManagerMixin) (path : string) (content : unicode)
    (format : option string) (w w' : world) :
  fs_wf (fs w) ->
  _save_file self path content format w = (Return tt, w') ->
  exists b, _save_file_encode content format = Return b
            /\ file_at w' path b
            /\ refused w' = refused w
            /\ open_files w' = open_files w.
Proof.
  intros Hwf H. unfold _save_file in H.
  destruct (negb _); [discriminate|].
  destruct (_save_file_encode content format) as [b|e].
  2:{ by destruct (exn_is_Exception e). }
  exists b. split; [done|].
  unfold FileManagerMixin_atomic_writing, with_perm_to_403 in H.
  destruct (atomic_writing path false _ w) as [[[]|e] w2] eqn:Ha; [|discriminate].
  injection H as <-.
  apply atomic_writing_returns in Ha as (s & written & mt & Hd & Hb & Hfs & Hr & Ho);
    [|done].
  unfold f_write in Hb. injection Hb as <-.
  split; [|done]. exists (dest s), mt. rewrite Hfs, Hd.
  split; [apply follow_after_write | apply lookup_insert_eq].
Qed.

(** Reading back what was saved. *)
Lemma save_then_read (self : FileManagerMixin) (path : string) (content : unicode)
    (format hint : option string) (w w1 : world) :
  fs_wf (fs w) ->
  reads_allowed w1 path ->
  _save_file self path content format w = (Return tt, w1) ->
  exists b, _save_file_encode content format = Return b
            /\ _read_file self path hint w1 = (_read_file_decode path hint b, w1).
Proof.
  intros Hwf (Hs & Ho & Hk) H.
  apply save_file_returns in H as (b & He & (k & mt & Hf & Hl) & _); [|done].
  exists b. split; [done|]. apply read_file_readable.
  split; [done|]. split; [done|]. exists k, mt. by destruct (Hk k).
Qed.

(* ===================================================================== *)
(** * Decoding what [base64.encodestring] wrote *)
(* ===================================================================== *)

Section Base64RoundTrip.
Import base64 codecs.
Local Open Scope N_scope.

Lemma byte_of_to_N (x : byte) : byte_of (Byte.to_N x) = x.
Proof.
  unfold byte_of. pose proof (Byte.to_N_bounded x) as Hb.
  rewrite N.mod_small by lia. by rewrite Byte.of_to_N.
Qed.

Lemma in_range256 (x : byte) : In (Byte.to_N x) (map N.of_nat (seq 0 256)).
Proof.
  apply in_map_iff. exists (N.to_nat (Byte.to_N x)).
  pose proof (Byte.to_N_bounded x). split; [lia|]. apply in_seq. lia.
Qed.

Lemma in_range64 (v : N) : v < 64 -> In v (map N.of_nat (seq 0 64)).
Proof.
  intros Hv. apply in_map_iff. exists (N.to_nat v). split; [lia|].
  apply in_seq. lia.
Qed.

(** A character of the alphabet is read as its value. *)
Lemma table_b2a_read (v : N) :
  v < 64 ->
  let ch := table_b2a v in
  (127 <? Byte.to_N ch) || (Byte.to_N ch =? 13) || (Byte.to_N ch =? 10)
  || (Byte.to_N ch =? 32) = false
  /\ Byte.eqb ch PAD = false
  /\ table_a2b ch = Some v.
Proof.
  intros Hv. apply in_range64 in Hv. cbv zeta.
  assert (Hall : forallb (fun v =>
            negb ((127 <? Byte.to_N (table_b2a v)) || (Byte.to_N (table_b2a v) =? 13)
                  || (Byte.to_N (table_b2a v) =? 10) || (Byte.to_N (table_b2a v) =? 32))
            && negb (Byte.eqb (table_b2a v) PAD)
            && match table_a2b (table_b2a v) with
               | Some v' => v' =? v
               | None => false
               end)
            (map N.of_nat (seq 0 64)) = true)
    by (vm_compute; reflexivity).
  rewrite forallb_forall in Hall. specialize (Hall v Hv).
  rewrite !andb_true_iff, !negb_true_iff in Hall. destruct Hall as [[H1 H2] H3].
  destruct (table_a2b (table_b2a v)) as [v'|]; [|discriminate].
  apply N.eqb_eq in H3 as ->. done.
Qed.

Lemma a2b_step (v : N) (rest : bytes) (qp lb lc : N) (out : bytes) :
  v < 64 ->
  a2b_loop (table_b2a v :: rest) qp lb lc out
  = if 8 <=? lb + 6
    then a2b_loop rest (N.land (qp + 1) 3) (lb + 6 - 8)
           (N.land (N.lor (N.shiftl lc 6) v) (N.shiftl 1 (lb + 6 - 8) - 1))
           (out ++ [byte_of (N.land (N.shiftr (N.lor (N.shiftl lc 6) v) (lb + 6 - 8)) 255)])
    else a2b_loop rest (N.land (qp + 1) 3) (lb + 6) (N.lor (N.shiftl lc 6) v) out.
Proof.
  intros Hv. destruct (table_b2a_read v Hv) as (H1 & H2 & H3).
  cbn [a2b_loop]. cbv zeta in H1, H2, H3. by rewrite H1, H2, H3.
Qed.

(** The values of the four characters of a group are below 64. *)
Lemma group_values (a b c : byte) :
  let a := Byte.to_N a in let b := Byte.to_N b in let c := Byte.to_N c in
  N.shiftr a 2 < 64
  /\ N.lor (N.shiftl (N.land a 3) 4) (N.shiftr b 4) < 64
  /\ N.lor (N.shiftl (N.land b 15) 2) (N.shiftr c 6) < 64
  /\ N.land c 63 < 64
  /\ N.shiftl (N.land a 3) 4 < 64
  /\ N.shiftl (N.land b 15) 2 < 64.
Proof.
  cbv zeta.
  assert (H : forall x y : byte,
             N.shiftr (Byte.to_N x) 2 < 64
             /\ N.lor (N.shiftl (N.land (Byte.to_N x) 3) 4) (N.shiftr (Byte.to_N y) 4) < 64
             /\ N.lor (N.shiftl (N.land (Byte.to_N x) 15) 2) (N.shiftr (Byte.to_N y) 6) < 64
             /\ N.land (Byte.to_N x) 63 < 64
             /\ N.shiftl (N.land (Byte.to_N x) 3) 4 < 64
             /\ N.shiftl (N.land (Byte.to_N x) 15) 2 < 64).
  { intros x y. pose proof (in_range256 x) as Hx. pose proof (in_range256 y) as Hy.
    revert Hy. generalize (Byte.to_N y). revert Hx. generalize (Byte.to_N x).
    assert (Hall : forallb (fun x => forallb (fun y =>
              (N.shiftr x 2 <? 64)
              && (N.lor (N.shiftl (N.land x 3) 4) (N.shiftr y 4) <? 64)
              && (N.lor (N.shiftl (N.land x 15) 2) (N.shiftr y 6) <? 64)
              && (N.land x 63 <? 64)
              && (N.shiftl (N.land x 3) 4 <? 64)
              && (N.shiftl (N.land x 15) 2 <? 64))
              (map N.of_nat (seq 0 256))) (map N.of_nat (seq 0 256)) = true)
      by (vm_compute; reflexivity).
    intros x' Hx y' Hy. rewrite forallb_forall in Hall.
    specialize (Hall x' Hx). rewrite forallb_forall in Hall. specialize (Hall y' Hy).
    rewrite !andb_true_iff, !N.ltb_lt in Hall. tauto. }
  destruct (H a b) as (? & ? & _ & _ & ? & _).
  destruct (H b c) as (_ & _ & ? & _ & _ & ?).
  destruct (H c c) as (_ & _ & _ & ? & _). tauto.
Qed.

(** The bytes that come out of a group. *)
Lemma group_bytes (a b : byte) :
  let x := Byte.to_N a in let y := Byte.to_N b in
  let v1 := N.shiftr x 2 in
  let v2 := N.lor (N.shiftl (N.land x 3) 4) (N.shiftr y 4) in
  let v2' := N.shiftl (N.land x 3) 4 in
  let v3 := N.lor (N.shiftl (N.land x 15) 2) (N.shiftr y 6) in
  let v3' := N.shiftl (N.land x 15) 2 in
  let v4 := N.land x 63 in
  (* first byte, and what is left, from [v1], [v2] *)
  N.land (N.shiftr (N.lor (N.shiftl v1 6) v2) 4) 255 = x
  /\ N.land (N.lor (N.shiftl v1 6) v2) 15 = N.shiftr y 4
  /\ N.land (N.shiftr (N.lor (N.shiftl v1 6) v2') 4) 255 = x
  (* second byte, and what is left, from what was left of [x] and [v3] *)
  /\ N.land (N.shiftr (N.lor (N.shiftl (N.shiftr x 4) 6) v3) 2) 255 = x
  /\ N.land (N.lor (N.shiftl (N.shiftr x 4) 6) v3) 3 = N.shiftr y 6
  /\ N.land (N.shiftr (N.lor (N.shiftl (N.shiftr x 4) 6) v3') 2) 255 = x
  (* third byte, from what was left of [x] and [v4] *)
  /\ N.land (N.shiftr (N.lor (N.shiftl (N.shiftr x 6) 6) v4) 0) 255 = x.
Proof.
  cbv zeta. pose proof (in_range256 a) as Hx. pose proof (in_range256 b) as Hy.
  revert Hy. generalize (Byte.to_N b). revert Hx. generalize (Byte.to_N a).
  assert (Hall : forallb (fun x => forallb (fun y =>
     (N.land (N.shiftr (N.lor (N.shiftl (N.shiftr x 2) 6)
         (N.lor (N.shiftl (N.land x 3) 4) (N.shiftr y 4))) 4) 255 =? x)
     && (N.land (N.lor (N.shiftl (N.shiftr x 2) 6)
         (N.lor (N.shiftl (N.land x 3) 4) (N.shiftr y 4))) 15 =? N.shiftr y 4)
     && (N.land (N.shiftr (N.lor (N.shiftl (N.shiftr x 2) 6)
         (N.shiftl (N.land x 3) 4)) 4) 255 =? x)
     && (N.land (N.shiftr (N.lor (N.shiftl (N.shiftr x 4) 6)
         (N.lor (N.shiftl (N.land x 15) 2) (N.shiftr y 6))) 2) 255 =? x)
     && (N.land (N.lor (N.shiftl (N.shiftr x 4) 6)
         (N.lor (N.shiftl (N.land x 15) 2) (N.shiftr y 6))) 3 =? N.shiftr y 6)
     && (N.land (N.shiftr (N.lor (N.shiftl (N.shiftr x 4) 6)
         (N.shiftl (N.land x 15) 2)) 2) 255 =? x)
     && (N.land (N.shiftr (N.lor (N.shiftl (N.shiftr x 6) 6) (N.land x 63)) 0) 255 =? x))
     (map N.of_nat (seq 0 256))) (map N.of_nat (seq 0 256)) = true)
    by (vm_compute; reflexivity).
  intros x Hx y Hy. rewrite forallb_forall in Hall.
  specialize (Hall x Hx). rewrite forallb_forall in Hall. specialize (Hall y Hy).
  rewrite !andb_true_iff, !N.eqb_eq in Hall. tauto.
Qed.


Lemma a2b_step0 (v : N) (rest out : bytes) :
  v < 64 -> a2b_loop (table_b2a v :: rest) 0 0 0 out = a2b_loop rest 1 6 v out.
Proof. intros Hv. by rewrite a2b_step. Qed.

Lemma a2b_step1 (v lc : N) (rest out : bytes) :
  v < 64 ->
  a2b_loop (table_b2a v :: rest) 1 6 lc out
  = a2b_loop rest 2 4 (N.land (N.lor (N.shiftl lc 6) v) 15)
      (out ++ [byte_of (N.land (N.shiftr (N.lor (N.shiftl lc 6) v) 4) 255)]).
Proof. intros Hv. by rewrite a2b_step. Qed.

Lemma a2b_step2 (v lc : N) (rest out : bytes) :
  v < 64 ->
  a2b_loop (table_b2a v :: rest) 2 4 lc out
  = a2b_loop rest 3 2 (N.land (N.lor (N.shiftl lc 6) v) 3)
      (out ++ [byte_of (N.land (N.shiftr (N.lor (N.shiftl lc 6) v) 2) 255)]).
Proof. intros Hv. by rewrite a2b_step. Qed.

Lemma a2b_step3 (v lc : N) (rest out : bytes) :
  v < 64 ->
  a2b_loop (table_b2a v :: rest) 3 2 lc out
  = a2b_loop rest 0 0 (N.land (N.lor (N.shiftl lc 6) v) 0)
      (out ++ [byte_of (N.land (N.shiftr (N.lor (N.shiftl lc 6) v) 0) 255)]).
Proof. intros Hv. by rewrite a2b_step. Qed.

(** Reading the four characters of a full group gives back its three
    bytes and leaves the decoder as it began. *)
Lemma a2b_group (a b c : byte) (rest out : bytes) :
  a2b_loop (b2a_groups [a; b; c] ++ rest) 0 0 0 out
  = a2b_loop rest 0 0 0 (out ++ [a; b; c]).
Proof.
  destruct (group_values a b c) as (Hv1 & Hv2 & Hv3 & Hv4 & _).
  destruct (group_bytes a b) as (Ha & Hab & _).
  destruct (group_bytes b c) as (_ & _ & _ & Hb & Hbc & _).
  destruct (group_bytes c c) as (_ & _ & _ & _ & _ & _ & Hc).
  cbn [b2a_groups app].
  rewrite (a2b_step0 _ _ _ Hv1), (a2b_step1 _ _ _ _ Hv2), Ha, Hab, byte_of_to_N.
  rewrite (a2b_step2 _ _ _ _ Hv3), Hb, Hbc, byte_of_to_N.
  rewrite (a2b_step3 _ _ _ _ Hv4), Hc, byte_of_to_N, N.land_0_r.
  by rewrite <- !app_assoc.
Qed.

(** A last group of one byte, with its two pads. *)
Lemma a2b_tail1 (a : byte) (rest out : bytes) :
  a2b_loop (b2a_groups [a] ++ rest) 0 0 0 out = (0, out ++ [a]).
Proof.
  destruct (group_values a a a) as (Hv1 & _ & _ & _ & Hv2 & _).
  destruct (group_bytes a a) as (_ & _ & Ha & _).
  cbn [b2a_groups app].
  rewrite (a2b_step0 _ _ _ Hv1), (a2b_step1 _ _ _ _ Hv2), Ha, byte_of_to_N.
  reflexivity.
Qed.

(** A last group of two bytes, with its pad. *)
Lemma a2b_tail2 (a b : byte) (rest out : bytes) :
  a2b_loop (b2a_groups [a; b] ++ rest) 0 0 0 out = (0, out ++ [a; b]).
Proof.
  destruct (group_values a b b) as (Hv1 & Hv2 & _ & _ & _ & _).
  destruct (group_values b b b) as (_ & _ & _ & _ & _ & Hv3).
  destruct (group_bytes a b) as (Ha & Hab & _).
  destruct (group_bytes b b) as (_ & _ & _ & _ & _ & Hb & _).
  cbn [b2a_groups app].
  rewrite (a2b_step0 _ _ _ Hv1), (a2b_step1 _ _ _ _ Hv2), Ha, Hab, byte_of_to_N.
  rewrite (a2b_step2 _ _ _ _ Hv3), Hb, byte_of_to_N.
  rewrite <- app_assoc. reflexivity.
Qed.

Lemma a2b_groups_decode (c rest out : bytes) :
  a2b_loop (b2a_groups c ++ rest) 0 0 0 out
  = if (length c mod 3 =? 0)%nat
    then a2b_loop rest 0 0 0 (out ++ c)
    else (0, out ++ c).
Proof.
  revert out. induction c as [|x|x y|x y z r IH] using list_ind3; intros out.
  - by rewrite app_nil_r.
  - apply a2b_tail1.
  - apply a2b_tail2.
  - change (b2a_groups (x :: y :: z :: r) ++ rest)
      with (b2a_groups [x; y; z] ++ (b2a_groups r ++ rest)).
    rewrite a2b_group, IH.
    replace (length (x :: y :: z :: r) mod 3)%nat with (length r mod 3)%nat.
    + by rewrite <- app_assoc.
    + cbn [length]. replace (S (S (S (length r)))) with (length r + 1 * 3)%nat by lia.
      by rewrite Nat.Div0.mod_add.
Qed.

Lemma a2b_lines (cs : list bytes) (out : bytes) :
  (forall i c, cs !! i = Some c -> (S i < length cs)%nat -> length c = MAXBINSIZE) ->
  a2b_loop (concat (map b2a_base64 cs)) 0 0 0 out = (0, out ++ concat cs).
Proof.
  revert out. induction cs as [|c cs IH]; intros out Hfull.
  - by rewrite app_nil_r.
  - cbn [map concat]. unfold b2a_base64 at 1. rewrite <- app_assoc.
    rewrite a2b_groups_decode.
    destruct (length c mod 3 =? 0)%nat eqn:Hc.
    + cbn [app]. change (a2b_loop (NL :: ?r) 0 0 0 ?o) with (a2b_loop r 0 0 0 o).
      rewrite IH; [by rewrite <- app_assoc|].
      intros i c' Hi Hlt. apply (Hfull (S i) c' Hi). simpl. lia.
    + destruct cs as [|c' cs]; [by rewrite app_nil_r|].
      rewrite (Hfull 0%nat c eq_refl) in Hc by (simpl; lia). discriminate.
Qed.

Lemma chunks_upto_concat (n fuel : nat) (s : bytes) :
  (0 < n)%nat -> (length s <= fuel)%nat -> concat (chunks_upto fuel n s) = s.
Proof.
  intros Hn. revert s. induction fuel as [|fuel IH]; intros s Hs.
  - destruct s; [done | simpl in Hs; lia].
  - destruct s as [|a s]; [done|]. cbn [chunks_upto concat].
    rewrite IH; [apply take_drop|]. rewrite length_drop. simpl in *. lia.
Qed.

(** [base64.decodestring] reads what [base64.encodestring] wrote. *)
Lemma decodestring_encodestring (data : bytes) :
  decodestring (encodestring data) = Some data.
Proof.
  unfold decodestring, a2b_base64, encodestring, chunks.
  destruct (chunks_upto_spec MAXBINSIZE (length data) data) as (_ & _ & Hfull);
    [vm_compute; lia | done |].
  cbv zeta in Hfull. rewrite (a2b_lines _ [] Hfull). cbn [app N.eqb].
  rewrite chunks_upto_concat; [done | vm_compute; lia | done].
Qed.

End Base64RoundTrip.

(* ===================================================================== *)
(** * Saving, then reading *)
(* ===================================================================== *)

Lemma to_N_byte_of (c : N) : (c < 256)%N -> Byte.to_N (codecs.byte_of c) = c.
Proof.
  intros Hc. unfold codecs.byte_of. rewrite N.mod_small by done.
  destruct (Byte.of_N c) as [b|] eqn:Hb.
  - by apply Byte.to_of_N.
  - apply Byte.of_N_None_iff in Hb. lia.
Qed.

Lemma encode_ascii_inv (s : unicode) (b : bytes) :
  codecs.encode_ascii s = Some b -> s = map Byte.to_N b.
Proof.
  revert b. induction s as [|c s IH]; intros b H; simpl in H.
  - by injection H as <-.
  - destruct (c <? 128)%N eqn:Hc; [|discriminate]. apply N.ltb_lt in Hc.
    destruct (codecs.encode_ascii s) as [r|]; [|discriminate].
    injection H as <-. cbn [map]. rewrite to_N_byte_of by lia.
    by rewrite <- (IH r).
Qed.

Lemma encode_ascii_of (l : bytes) :
  Forall (fun b => (Byte.to_N b < 128)%N) l ->
  codecs.encode_ascii (map Byte.to_N l) = Some l.
Proof.
  induction 1 as [|b l Hb _ IH]; [done|]. cbn [map codecs.encode_ascii].
  apply N.ltb_lt in Hb. rewrite Hb, IH. cbn. by rewrite byte_of_to_N.
Qed.

(** C4 (as the code has it): saving the base64 string ["AAH/"] (the
    bytes 00 01 ff) and reading the file with format ['base64'] returns
    ["AAH/"] followed by a newline, not the string that was saved. *)
Lemma base64_round_trip_adds_newline :
  let s := codecs.u "AAH/" in
  let saved := _save_file sample_manager "/srv/nb/b.bin" s (Some "base64")
                 sample_world in
  base64.decodestring (list_byte_of_string "AAH/") = Some [x00; x01; xff]
  /\ fst saved = Return tt
  /\ fst (_read_file sample_manager "/srv/nb/b.bin" (Some "base64") (snd saved))
     = Return (s ++ [10%N], "base64")
  /\ fst (_read_file sample_manager "/srv/nb/b.bin" (Some "base64") (snd saved))
     <> Return (s, "base64").
Proof.
  cbv zeta.
  assert (H : fst (_read_file sample_manager "/srv/nb/b.bin" (Some "base64")
                (snd (_save_file sample_manager "/srv/nb/b.bin" (codecs.u "AAH/")
                        (Some "base64") sample_world)))
              = Return (codecs.u "AAH/" ++ [10%N], "base64"))
    by (vm_compute; reflexivity).
  split; [vm_compute; reflexivity|]. split; [vm_compute; reflexivity|].
  split; [exact H|]. rewrite H. intros E. vm_compute in E. discriminate.
Qed.

(** C4, amended: on a well-formed file system, when [_save_file]
    returns and the host then lets the file be read: after saving
    ["hello"] with format ['text'], [_read_file] with no format returns
    ["hello"] and ['text']; after saving with format ['base64'] a string
    [s] that [base64.decodestring] reads as the bytes [data],
    [_read_file] with format ['base64'] returns
    [base64.encodestring(data)] and ['base64']: a string that is read as
    the same bytes [data], broken into lines of 76 characters and ended
    by a newline, and that is [s] itself exactly when [s] already has
    that form. *)
Theorem save_file_then_read_file (self : FileManagerMixin) (path : string)
    (w w1 : world) :
  fs_wf (fs w) ->
  reads_allowed w1 path ->
  (_save_file self path (codecs.u "hello") (Some "text") w = (Return tt, w1) ->
   _read_file self path None w1 = (Return (codecs.u "hello", "text"), w1))
  /\ (forall s b64 data,
         codecs.encode_ascii s = Some b64 ->
         base64.decodestring b64 = Some data ->
         _save_file self path s (Some "base64") w = (Return tt, w1) ->
         let s' := map Byte.to_N (base64.encodestring data) in
         _read_file self path (Some "base64") w1 = (Return (s', "base64"), w1)
         /\ codecs.encode_ascii s' = Some (base64.encodestring data)
         /\ base64.decodestring (base64.encodestring data) = Some data
         /\ (s' = s <-> b64 = base64.encodestring data)).
Proof.
  intros Hwf Hr. split.
  - intros H.
    destruct (save_then_read self path _ _ None w w1 Hwf Hr H) as (b & He & ->).
    vm_compute in He. injection He as <-. reflexivity.
  - intros s b64 data Hs Hd H s'.
    destruct (save_then_read self path _ _ (Some "base64") w w1 Hwf Hr H)
      as (b & He & ->).
    unfold _save_file_encode, str_encode_ascii, base64_decodestring in He.
    rewrite Hs in He. cbn in He. rewrite Hd in He. cbn in He. injection He as <-.
    unfold _read_file_decode, bytes_decode_ascii.
    rewrite (decode_ascii_of _ (encodestring_ascii data)). cbn.
    split; [done|]. split; [apply encode_ascii_of, encodestring_ascii|].
    split; [apply decodestring_encodestring|].
    apply encode_ascii_inv in Hs. subst s s'. split.
    + intros E. symmetry. by apply map_to_N_inj.
    + by intros ->.
Qed.

Lemma run_fst {A} (x : result A * world) (r : result A) :
  fst x = r -> x = (r, snd x).
Proof. intros <-. by destruct x. Qed.

Lemma save_file_then_read_file_witness :
  let w1 := snd (_save_file sample_manager "/srv/nb/a.txt" (codecs.u "hello")
                   (Some "text") sample_world) in
  let w2 := snd (_save_file sample_manager "/srv/nb/b.bin" (codecs.u "AAH/")
                   (Some "base64") sample_world) in
  let s' := map Byte.to_N (base64.encodestring [x00; x01; xff]) in
  _read_file sample_manager "/srv/nb/a.txt" None w1
  = (Return (codecs.u "hello", "text"), w1)
  /\ _read_file sample_manager "/srv/nb/b.bin" (Some "base64") w2
     = (Return (s', "base64"), w2)
  /\ codecs.encode_ascii s' = Some (base64.encodestring [x00; x01; xff])
  /\ base64.decodestring (base64.encodestring [x00; x01; xff])
     = Some [x00; x01; xff]
  /\ (s' = codecs.u "AAH/"
      <-> list_byte_of_string "AAH/" = base64.encodestring [x00; x01; xff]).
Proof.
  cbv zeta. split.
  - apply (save_file_then_read_file sample_manager "/srv/nb/a.txt" sample_world).
    + exact sample_fs_wf.
    + repeat split; vm_compute; reflexivity.
    + apply run_fst. vm_compute. reflexivity.
  - apply (save_file_then_read_file sample_manager "/srv/nb/b.bin" sample_world
             _ sample_fs_wf).
    + repeat split; vm_compute; reflexivity.
    + vm_compute. reflexivity.
    + vm_compute. reflexivity.
    + apply run_fst. vm_compute. reflexivity.
Defined.

(* ===================================================================== *)
(** * Reading leaves the host as it was *)
(* ===================================================================== *)

Lemma call_world (c : syscall) (filename : string) (w : world) :
  snd (call c filename w) = w.
Proof. unfold call. by destruct (refused w c). Qed.

Lemma close_read_handle (k : string) (text : bool) (w : world) :
  snd (f_close (FileObj k text []) (set_open_files (cons k) w)) = w.
Proof.
  unfold f_close, f_flush. cbn [f_buf f_name].
  rewrite bool_decide_eq_true_2 by done.
  unfold ret. rewrite world_reopen. apply call_world.
Qed.

(** A [with self.open(...)] block that does not change the host leaves
    the host as it was, however the opening, the block and the closing
    end. *)
Lemma open_keeps_host {A} (self : FileManagerMixin) (path : string) (text : bool)
    (block : fileobj -> M A) (w : world) :
  (forall f W, snd (block f W) = W) ->
  snd (FileManagerMixin_open self path text block w) = w.
Proof.
  intros Hb. unfold FileManagerMixin_open, with_perm_to_403.
  destruct (with_file _ _ w) as [r w'] eqn:H. cbn [snd].
  apply (f_equal snd) in H. cbn [snd] in H. subst w'.
  unfold with_file. rewrite bind_run. unfold io_open_r. rewrite bind_run.
  unfold call. destruct (refused w _); [done|].
  rewrite bind_run. unfold get. destruct (follow _ _ _) as [k|]; [|done].
  destruct (fs w !! k) as [[| |]|]; try done.
  rewrite bind_run. unfold modify, ret.
  specialize (Hb (FileObj k text []) (set_open_files (cons k) w)).
  destruct (block _ _) as [r1 w1]. cbn [snd] in Hb. subst w1.
  pose proof (close_read_handle k text w) as Hc.
  destruct (f_close _ _) as [[?|?] w2]; cbn [snd] in Hc; by subst.
Qed.

Lemma f_read_world (f : fileobj) (W : world) : snd (f_read f W) = W.
Proof.
  unfold f_read. rewrite bind_run. unfold call.
  destruct (refused W _); [done|]. rewrite bind_run. unfold get.
  by destruct (fs W !! f_name f) as [[| |]|].
Qed.

(** X1: reading never changes the host.  Whatever [_read_file] and
    [_read_notebook] return or raise (a missing file, a refused call, a
    file that does not decode, a notebook that does not parse), the file
    system is as it was and the file that was opened is closed again. *)
Theorem reading_leaves_host (self : FileManagerMixin) (path : string)
    (format : option string) (notebook : Type)
    (nbformat_reads : unicode -> Z -> result notebook) (as_version : Z)
    (w : world) :
  snd (_read_file self path format w) = w
  /\ snd (_read_notebook notebook nbformat_reads self path as_version w) = w.
Proof.
  split.
  - unfold _read_file. rewrite bind_run. unfold os_path_isfile.
    assert (Hi : exists b, (match os_stat path w with
                            | (Return (_, File _ _), _) => (Return true, w)
                            | _ => (Return false, w)
                            end) = (Return b, w)).
    { destruct (os_stat path w) as [[[? [| |]]|?] ?]; eauto. }
    destruct Hi as [b ->]. destruct b; cbn [negb]; [|done].
    rewrite bind_run.
    pose proof (open_keeps_host self path false f_read w f_read_world) as Ho.
    destruct (FileManagerMixin_open _ _ _ _ _) as [[?|?] w1]; cbn [snd] in Ho;
      subst w1; [|done].
    unfold lift. done.
  - apply open_keeps_host. intros f W. unfold try_except, nbformat_read.
    rewrite bind_run. pose proof (f_read_world f W) as Hr.
    destruct (f_read f W) as [[b|e] W1]; cbn [snd] in Hr; subst W1.
    + rewrite bind_run. unfold lift.
      destruct (bytes_decode_utf8 b) as [s|e].
      * destruct (nbformat_reads (universal_newlines s) as_version) as [?|e]; [done|].
        by destruct (exn_is_Exception e).
      * by destruct (exn_is_Exception e).
    + by destruct (exn_is_Exception e).
Qed.

(* ===================================================================== *)
(** * What a successful [atomic_writing] leaves *)
(* ===================================================================== *)

(** X2: when [atomic_writing] returns, on a well-formed file system, the
    block has returned, the destination is a regular file holding
    exactly the bytes the block wrote, every other name of the file
    system is as it was (nothing is left of the staging directory), and
    no file is left open. *)
Theorem atomic_writing_installs (path : string) (text : bool) (blk : block)
    (w w' : world) :
  fs_wf (fs w) ->
  atomic_writing path text blk w = (Return tt, w') ->
  exists s written mt,
    blk (handle s) = (Return tt, written)
    /\ fs w' = <[resolved_dest (fs w) path := File written mt]> (fs w)
    /\ open_files w' = open_files w.
Proof.
  intros Hwf H.
  destruct (atomic_writing_returns _ _ _ _ _ Hwf H)
    as (s & written & mt & Hd & Hb & Hfs & _ & Ho).
  exists s, written, mt. by rewrite <- Hd.
Qed.

Lemma atomic_writing_installs_witness :
  exists s written mt,
    writing_block (handle s) = (Return tt, written)
    /\ fs (snd (atomic_writing "/srv/nb/a.txt" false writing_block sample_world))
       = <[resolved_dest (fs sample_world) "/srv/nb/a.txt" := File written mt]>
           (fs sample_world)
    /\ open_files (snd (atomic_writing "/srv/nb/a.txt" false writing_block sample_world))
       = open_files sample_world.
Proof.
  apply (atomic_writing_installs "/srv/nb/a.txt" false writing_block sample_world).
  - exact sample_fs_wf.
  - apply run_fst. vm_compute. reflexivity.
Defined.

(** X3: writing through a symbolic link.  When [path] is a link,
    [atomic_writing] replaces the file the link points to (the target,
    taken relative to the directory of the link), not the link: the link
    is still there and now leads to the bytes written. *)
Theorem atomic_writing_through_link (path target : string) (text : bool)
    (blk : block) (w w' : world) :
  fs_wf (fs w) ->
  fs w !! path = Some (Symlink target) ->
  atomic_writing path text blk w = (Return tt, w') ->
  let dst := posixpath.join (posixpath.dirname path) target in
  exists s written mt,
    blk (handle s) = (Return tt, written)
    /\ fs w' !! dst = Some (File written mt)
    /\ (dst <> path -> fs w' !! path = Some (Symlink target))
    /\ file_at w' path written.
Proof.
  intros Hwf Hl H dst.
  destruct (atomic_writing_returns _ _ _ _ _ Hwf H)
    as (s & written & mt & Hd & Hb & Hfs & _ & _).
  exists s, written, mt. split; [done|].
  assert (Hr : resolved_dest (fs w) path = dst).
  { unfold resolved_dest. by rewrite Hl. }
  rewrite Hd in Hfs. split; [|split].
  - rewrite Hfs, Hr. apply lookup_insert_eq.
  - intros Hne. rewrite Hfs, Hr, lookup_insert_ne by done. exact Hl.
  - exists dst, mt. rewrite Hfs. split.
    + rewrite <- Hr. apply follow_after_write.
    + rewrite Hr. apply lookup_insert_eq.
Qed.

Lemma linked_fs_wf : fs_wf (fs linked_world).
Proof. apply (bool_decide_unpack _). vm_compute. exact I. Defined.

Lemma atomic_writing_through_link_witness :
  let w' := snd (atomic_writing "/srv/nb/latest" false writing_block linked_world) in
  let dst := posixpath.join (posixpath.dirname "/srv/nb/latest") "a.txt" in
  exists s written mt,
    writing_block (handle s) = (Return tt, written)
    /\ fs w' !! dst = Some (File written mt)
    /\ (dst <> "/srv/nb/latest" -> fs w' !! "/srv/nb/latest" = Some (Symlink "a.txt"))
    /\ file_at w' "/srv/nb/latest" written.
Proof.
  apply (atomic_writing_through_link "/srv/nb/latest" "a.txt" false writing_block
           linked_world).
  - exact linked_fs_wf.
  - vm_compute. reflexivity.
  - apply run_fst. vm_compute. reflexivity.
Defined.

(* ===================================================================== *)
(** * A notebook that cannot be written *)
(* ===================================================================== *)

(** Closing the temporary file when nothing was written to it. *)
Lemma close_staged_empty (w : world) (td tp : string) (rest : list draw)
    (text : bool) :
  refused w (sys_close tp) = None ->
  f_close (FileObj tp text []) (staged w td tp rest)
  = (Return tt,
     World (<[tp := File [] default_meta]> (<[td := Dir (Meta 448 0)]> (fs w)))
           (open_files w) rest (refused w) (os_name w) (has_chflags w)).
Proof.
  intros Hc. unfold f_close, f_flush. cbn [f_buf f_name].
  rewrite bool_decide_eq_true_2 by done.
  unfold ret, staged, set_open_files. cbn.
  rewrite bool_decide_eq_true_2 by done.
  unfold call. cbn. by rewrite Hc.
Qed.

(** X4: a notebook the serializer cannot write.  When [nbformat.write]
    raises before anything is written, [_save_notebook] raises that
    exception (as [perm_to_403] passes it on) and, when the host lets
    the temporary file be closed and the staging directory be removed,
    the file system is exactly as it was: the notebook saved before is
    untouched. *)
Theorem save_notebook_unserializable (notebook : Type)
    (nbformat_writes : notebook -> result unicode) (self : FileManagerMixin)
    (path : string) (nb : notebook) (w w1 : world) (s : staging) (e : exn) :
  fs_wf (fs w) ->
  nbformat_writes nb = Raise e ->
  atomic_writing_enter path true w = (Return s, w1) ->
  refused w (sys_close (tmp_path s)) = None ->
  refused w (sys_rmtree (tmp_dir s)) = None ->
  exists w',
    _save_notebook notebook nbformat_writes self path nb w
    = (Raise (perm_to_403_handler self path e), w')
    /\ fs w' = fs w
    /\ open_files w' = open_files w.
Proof.
  intros Hwf Hn He Hc Hr.
  destruct (enter_inv _ _ _ _ _ Hwf He)
    as (d & rest & Hd & Htd & Htp & Hh & Hnone & ->).
  assert (Hfree : forall k, under (tmp_dir s) k = true -> fs w !! k = None).
  { intros k Hk. apply (fs_wf_under _ (tmp_dir s)); try done.
    rewrite Htd. apply staging_dir_nonempty. }
  assert (Hu : under (tmp_dir s) (tmp_path s) = true).
  { rewrite Htp, Htd. apply tmp_path_under. }
  assert (Hne : tmp_path s <> tmp_dir s).
  { rewrite Htp, Htd. apply tmp_path_not_dir. }
  exists (set_tmp_names rest w). split; [|done].
  unfold _save_notebook, FileManagerMixin_atomic_writing, with_perm_to_403.
  unfold atomic_writing. rewrite bind_run, He. unfold nbformat_write.
  rewrite Hn, Hh. unfold buffered. cbn [f_name f_text f_buf app].
  unfold atomic_writing_rollback.
  rewrite bind_run, (close_staged_empty _ _ _ _ _ Hc).
  rewrite bind_run. unfold shutil_rmtree.
  rewrite bind_run. unfold call. cbn [refused]. rewrite Hr.
  rewrite bind_run. unfold get. cbn [fs].
  rewrite lookup_insert_ne, lookup_insert_eq by done.
  unfold modify, raise, set_fs, set_tmp_names. cbn.
  by rewrite (unstage_fs _ _ _ _ _ Hfree Hu).
Qed.

Lemma save_notebook_unserializable_witness :
  exists w',
    _save_notebook unit (fun _ => Raise boom) sample_manager "/srv/nb/a.txt" tt
      sample_world
    = (Raise (perm_to_403_handler sample_manager "/srv/nb/a.txt" boom), w')
    /\ fs w' = fs sample_world
    /\ open_files w' = open_files sample_world.
Proof.
  apply (save_notebook_unserializable unit (fun _ => Raise boom) sample_manager
           "/srv/nb/a.txt" tt sample_world
           (snd (atomic_writing_enter "/srv/nb/a.txt" true sample_world))
           (Staging "/srv/nb/a.txt" "/srv/nb/a.txtk3x9q2ab"
              "/srv/nb/a.txtk3x9q2ab/a.txt"
              (FileObj "/srv/nb/a.txtk3x9q2ab/a.txt" true []))
           boom).
  - exact sample_fs_wf.
  - reflexivity.
  - apply run_fst. vm_compute. reflexivity.
  - reflexivity.
  - reflexivity.
Defined.

(* ===================================================================== *)
(** * Splitting the names of the staging area *)
(* ===================================================================== *)

Section StagingSplit.
Import Str.

Local Abbreviation no_sep := (Forall (fun a : ascii => a <> sep)).
Local Abbreviation all_sep := (Forall (fun a : ascii => a = sep)).

Lemma rcut_l_no_sep (t : list ascii) : no_sep t -> posixpath.rcut_l t = ([], t).
Proof.
  induction 1 as [|a t Ha _ IH]; [done|]. cbn [posixpath.rcut_l]. rewrite IH.
  cbn. unfold is_sep. by rewrite eqb_not_sep.
Qed.

Lemma rcut_l_app (x t : list ascii) :
  x = [] \/ last x = Some sep -> no_sep t -> posixpath.rcut_l (x ++ t) = (x, t).
Proof.
  intros Hx Ht. induction x as [|a x IH]; [by apply rcut_l_no_sep|].
  destruct Hx as [|Hx]; [done|]. cbn [app posixpath.rcut_l].
  destruct x as [|b x].
  - rewrite IH by (by left). cbn in *. injection Hx as ->. done.
  - rewrite IH by (right; by rewrite last_cons_cons in Hx). done.
Qed.

Lemma rstrip_l_last (l : list ascii) (a : ascii) :
  last (rstrip_l sep l) = Some a -> a <> sep.
Proof.
  revert a. induction l as [|b l IH]; intros a; [done|]. cbn [rstrip_l].
  destruct (rstrip_l sep l) as [|c r].
  - destruct (Ascii.eqb b sep) eqn:E; [done|]. intros [= <-].
    by apply Ascii.eqb_neq.
  - rewrite last_cons_cons. apply IH.
Qed.

Lemma rstrip_l_app_sep (l : list ascii) :
  rstrip_l sep (l ++ [sep]) = rstrip_l sep l.
Proof.
  induction l as [|a l IH]; [done|]. cbn [app rstrip_l]. by rewrite IH.
Qed.

Lemma rstrip_l_all_sep (l : list ascii) : all_sep l -> rstrip_l sep l = [].
Proof.
  induction 1 as [|a l -> _ IH]; [done|]. cbn [rstrip_l]. by rewrite IH.
Qed.

Lemma split_l'_head (p : list ascii) : split_head (fst (posixpath.split_l' p)).
Proof.
  unfold posixpath.split_l'. destruct (posixpath.rcut_l p) as [h t].
  destruct (nonempty h && nonempty (rstrip_l sep h)) eqn:E; cbn [fst].
  - left. apply andb_true_iff in E as [_ E]. split.
    + by destruct (rstrip_l sep h).
    + apply rstrip_l_last.
  - right. destruct (rstrip_l_spec h) as (seps & Hh & Hs).
    destruct h as [|a h]; [constructor|]. cbn [nonempty andb] in E.
    destruct (rstrip_l sep (a :: h)); [|done]. by rewrite Hh.
Qed.

Lemma split_l'_joined (h t : list ascii) :
  split_head h -> no_sep t -> posixpath.split_l' (h ++ joint h ++ t) = (h, t).
Proof.
  intros [[Hne Hl]|Hs] Ht; unfold posixpath.split_l'.
  - destruct (last h) as [a|] eqn:Ha; [|by apply last_None in Ha].
    assert (joint h = [sep]) as ->.
    { unfold joint, endswith_char. rewrite Ha, (eqb_not_sep a) by (by apply Hl).
      by destruct h. }
    rewrite app_assoc, rcut_l_app; [|right; by rewrite last_snoc|done].
    rewrite rstrip_l_app_sep, rstrip_l_id by (intros c; rewrite Ha; apply Hl).
    by destruct h.
  - destruct h as [|a h].
    + cbn. by rewrite rcut_l_no_sep.
    + assert (Hlast : last (a :: h) = Some sep).
      { destruct (last (a :: h)) as [c|] eqn:Hc; [|by apply last_None in Hc].
        apply last_Some in Hc as [l' Hc]. rewrite Hc in Hs.
        apply Forall_app in Hs as [_ Hs]. by inversion Hs; subst. }
      assert (joint (a :: h) = []) as ->.
      { unfold joint, endswith_char. by rewrite Hlast. }
      cbn [app].
      change (a :: h ++ t) with ((a :: h) ++ t).
      rewrite rcut_l_app; [|by right|done].
      by rewrite (rstrip_l_all_sep _ Hs).
Qed.

Lemma dirname_head (p : string) : split_head (chars (posixpath.dirname p)).
Proof.
  unfold posixpath.dirname, posixpath.split.
  pose proof (split_l'_head (chars p)) as H.
  destruct (posixpath.split_l' (chars p)) as [h t]. cbn [fst] in *.
  by rewrite chars_text.
Qed.

(** The staging directory lies in the directory of the destination. *)
Lemma split_staging_dir (p : string) (d : draw) :
  posixpath.split (staging_dir p d)
  = (posixpath.dirname p, posixpath.basename p +:+ name_of d).
Proof.
  unfold posixpath.split at 1. rewrite staging_dir_chars.
  destruct (split_spec p) as (_ & _ & _ & Hb).
  destruct (name_of_segment d) as [_ Hn].
  rewrite split_l'_joined; [|apply dirname_head|by apply Forall_app].
  by rewrite <- chars_app, !text_chars.
Qed.

Lemma staging_dir_head (p : string) (d : draw) :
  split_head (chars (staging_dir p d)).
Proof.
  left. destruct (name_of_segment d) as [Hne Hn]. rewrite staging_dir_chars.
  split.
  - destruct (chars (name_of d)); [done|]. by destruct (chars _), (joint _), (chars _).
  - intros a. rewrite !app_assoc, last_app.
    destruct (last (chars (name_of d))) as [c|] eqn:Hc; [|by apply last_None in Hc].
    intros [= <-]. by eapply last_no_sep.
Qed.

(** The temporary file lies in the staging directory under the name of
    the destination. *)
Lemma split_tmp_path (p : string) (d : draw) :
  posixpath.split (posixpath.join (staging_dir p d) (posixpath.basename p))
  = (staging_dir p d, posixpath.basename p).
Proof.
  unfold posixpath.split at 1. rewrite tmp_path_chars.
  destruct (split_spec p) as (_ & _ & _ & Hb).
  pose proof (staging_dir_head p d) as Hh.
  assert (Hj : joint (chars (staging_dir p d)) = [sep]).
  { rewrite staging_dir_chars, !app_assoc. apply joint_after_segment.
    apply name_of_segment. }
  change (sep :: chars (posixpath.basename p))
    with ([sep] ++ chars (posixpath.basename p)).
  rewrite <- Hj, split_l'_joined by done.
  by rewrite !text_chars.
Qed.

End StagingSplit.

(* ===================================================================== *)
(** * Names that are resolved the same way in two file systems *)
(* ===================================================================== *)

Lemma follow_agree (fuel : nat) (m m' : gmap string node) (p k : string) :
  (forall x, is_Some (m !! x) -> m' !! x = m !! x) ->
  follow fuel m p = Some k -> is_Some (m !! k) ->
  follow fuel m' p = Some k.
Proof.
  intros Hag. revert p. induction fuel as [|fuel IH]; intros p H Hk; cbn [follow] in *.
  - destruct (m !! p) as [n|] eqn:Hp.
    + rewrite (Hag p), Hp by (by rewrite Hp). done.
    + injection H as <-. rewrite Hp in Hk. by destruct Hk.
  - destruct (m !! p) as [n|] eqn:Hp.
    + rewrite (Hag p), Hp by (by rewrite Hp). destruct n; try done.
      by apply IH.
    + injection H as <-. rewrite Hp in Hk. by destruct Hk.
Qed.

Lemma parent_is_dir_agree (m m' : gmap string node) (k : string) :
  (forall x, is_Some (m !! x) -> m' !! x = m !! x) ->
  parent_is_dir m k = true -> parent_is_dir m' k = true.
Proof.
  intros Hag. unfold parent_is_dir. case_bool_decide; [done|].
  destruct (follow SYMLOOP_MAX m (posixpath.dirname k)) as [d'|] eqn:Hf; [|done].
  destruct (m !! d') as [[| |]|] eqn:Hd; try done. intros _.
  rewrite (follow_agree _ m m' _ d' Hag Hf) by (by rewrite Hd).
  by rewrite (Hag d'), Hd by (by rewrite Hd).
Qed.

Lemma parent_is_dir_staging_dir (m : gmap string node) (p : string) (d : draw) :
  parent_is_dir m (staging_dir p d) = parent_is_dir m p.
Proof.
  unfold parent_is_dir, posixpath.dirname. by rewrite split_staging_dir.
Qed.

(* ===================================================================== *)
(** * Running [atomic_writing] on a host that lets it *)
(* ===================================================================== *)

Lemma resolve_run (path : string) (w : world) :
  refused w (sys_readlink path) = None ->
  (islink <- os_path_islink path ;;
   if islink : bool
   then target <- os_readlink path ;;
        ret (posixpath.join (posixpath.dirname path) target)
   else ret path) w
  = (Return (resolved_dest (fs w) path), w).
Proof.
  intros Hr. rewrite bind_run, islink_run. unfold resolved_dest.
  destruct (fs w !! path) as [[| |t]|] eqn:Hp; try done.
  rewrite bind_run. unfold os_readlink.
  rewrite bind_run, (call_allowed _ _ _ Hr), bind_run. unfold get.
  by rewrite Hp.
Qed.

(** [atomic_writing] up to its [yield], once the link at [path] is
    resolved. *)
Lemma enter_resolved (path : string) (text : bool) (w : world) :
  refused w (sys_readlink path) = None ->
  let dst := resolved_dest (fs w) path in
  atomic_writing_enter path text w
  = (tmp_dir <- tempfile_mkdtemp (posixpath.basename dst) (posixpath.dirname dst) ;;
     fileobj <- io_open_w (posixpath.join tmp_dir (posixpath.basename dst)) text ;;
     ret (Staging dst tmp_dir (posixpath.join tmp_dir (posixpath.basename dst))
            fileobj)) w.
Proof.
  intros Hrl dst. unfold atomic_writing_enter.
  rewrite bind_run, islink_run.
  assert (Hres : (if (match fs w !! path with Some (Symlink _) => true | _ => false end)
                  then target <- os_readlink path ;;
                       ret (posixpath.join (posixpath.dirname path) target)
                  else ret path) w = (Return dst, w)).
  { pose proof (resolve_run path w Hrl) as H.
    by rewrite bind_run, islink_run in H. }
  rewrite bind_run, Hres.
  assert (Hs : posixpath.split dst = (posixpath.dirname dst, posixpath.basename dst)).
  { unfold posixpath.dirname, posixpath.basename. by destruct (posixpath.split dst). }
  by rewrite Hs.
Qed.

(** The staging directory is made with the first name drawn when that
    name is free. *)
Lemma staging_mkdtemp_run (dst : string) (w : world) (d : draw) (rest : list draw) :
  tmp_names w = d :: rest ->
  fs w !! staging_dir dst d = None ->
  parent_is_dir (fs w) dst = true ->
  refused w (sys_mkdir (staging_dir dst d)) = None ->
  tempfile_mkdtemp (posixpath.basename dst) (posixpath.dirname dst) w
  = (Return (staging_dir dst d),
     set_fs (insert (staging_dir dst d) (Dir (Meta 448 0))) (set_tmp_names rest w)).
Proof.
  intros Hn Hfree Hpar Hmk.
  unfold tempfile_mkdtemp. rewrite bind_run. unfold get. rewrite Hn.
  cbn [mkdtemp_from]. rewrite bind_run. unfold modify at 1.
  unfold try_except. rewrite bind_run. unfold os_mkdir.
  fold (staging_dir dst d).
  rewrite bind_run, call_allowed by exact Hmk.
  rewrite bind_run. unfold get. cbn [fs set_tmp_names].
  rewrite Hfree. rewrite parent_is_dir_staging_dir, Hpar.
  reflexivity.
Qed.

(** Setting up the staging area when the first name drawn is free and
    the host lets the directory be made and the file be opened. *)
Lemma enter_run (path : string) (text : bool) (w : world) (d : draw)
    (rest : list draw) :
  let dst := resolved_dest (fs w) path in
  let td := staging_dir dst d in
  let tp := posixpath.join td (posixpath.basename dst) in
  fs_wf (fs w) ->
  refused w (sys_readlink path) = None ->
  tmp_names w = d :: rest ->
  fs w !! td = None ->
  posixpath.basename dst <> "" ->
  parent_is_dir (fs w) dst = true ->
  refused w (sys_mkdir td) = None ->
  refused w (sys_open tp true) = None ->
  atomic_writing_enter path text w
  = (Return (Staging dst td tp (FileObj tp text [])), staged w td tp rest).
Proof.
  intros dst td tp Hwf Hrl Hn Hfree Hb Hpar Hmk Hop.
  assert (Htp : fs w !! tp = None).
  { apply (fs_wf_under _ td); [done|apply staging_dir_nonempty|done|].
    apply tmp_path_under. }
  assert (Hne : tp <> td) by apply tmp_path_not_dir.
  rewrite (enter_resolved path text w Hrl). fold dst.
  rewrite bind_run, (staging_mkdtemp_run dst w d rest Hn Hfree Hpar Hmk).
  fold td tp. rewrite bind_run.
  assert (Hopen : io_open_w tp text (set_fs (insert td (Dir (Meta 448 0)))
                                       (set_tmp_names rest w))
                  = (Return (FileObj tp text []), staged w td tp rest)).
  { unfold io_open_w. rewrite bind_run, call_allowed by exact Hop.
    rewrite bind_run. unfold get. cbn [fs set_fs set_tmp_names].
    assert (Hl : (<[td := Dir (Meta 448 0)]> (fs w)) !! tp = None)
      by (by rewrite lookup_insert_ne).
    assert (Hst : posixpath.split tp = (td, posixpath.basename dst))
      by apply split_tmp_path.
    assert (Hbn : posixpath.basename tp = posixpath.basename dst)
      by (unfold posixpath.basename at 1; by rewrite Hst).
    assert (Hdn : posixpath.dirname tp = td)
      by (unfold posixpath.dirname; by rewrite Hst).
    assert (Hfo : follow SYMLOOP_MAX (<[td := Dir (Meta 448 0)]> (fs w)) tp = Some tp).
    { unfold SYMLOOP_MAX. cbn [follow]. by rewrite Hl. }
    rewrite Hfo, Hl, Hbn.
    rewrite bool_decide_eq_false_2 by done.
    assert (Hpd : parent_is_dir (<[td := Dir (Meta 448 0)]> (fs w)) tp = true).
    { unfold parent_is_dir. rewrite Hdn.
      rewrite bool_decide_eq_false_2 by apply staging_dir_nonempty.
      unfold SYMLOOP_MAX. cbn [follow]. rewrite lookup_insert_eq. cbv beta iota.
      by rewrite lookup_insert_eq. }
    rewrite Hpd. reflexivity. }
  rewrite Hopen. reflexivity.
Qed.

Lemma flush_staged_run (w : world) (td tp : string) (rest : list draw)
    (text : bool) (b : bytes) :
  (b <> [] -> refused w (sys_write tp) = None) ->
  f_flush (FileObj tp text b) (staged w td tp rest)
  = (Return (FileObj tp text []),
     World (<[tp := File b default_meta]> (<[td := Dir (Meta 448 0)]> (fs w)))
           (tp :: open_files w) rest (refused w) (os_name w) (has_chflags w)).
Proof.
  intros Hw. unfold f_flush. cbn [f_buf f_name f_text]. case_bool_decide as Hb.
  - by subst b.
  - rewrite bind_run. unfold call at 1. cbn [refused staged]. rewrite (Hw Hb).
    rewrite bind_run. unfold modify, ret, set_fs, append_data. cbn.
    by rewrite lookup_insert_eq, insert_insert_eq.
Qed.

(** The commit up to the renaming: the temporary file is flushed,
    synchronized and closed, and it is given the metadata of the
    destination if that can be done. *)
Lemma commit_to_rename (w : world) (s : staging) (rest : list draw) (text : bool)
    (b : bytes) :
  (b <> [] -> refused w (sys_write (tmp_path s)) = None) ->
  refused w (sys_fsync (tmp_path s)) = None ->
  refused w (sys_close (tmp_path s)) = None ->
  exists mt,
    try_except (_copy_metadata (dest s) (tmp_path s)) is_OSError (fun _ => ret tt)
      (written_world w (tmp_dir s) (tmp_path s) rest b default_meta)
    = (Return tt, written_world w (tmp_dir s) (tmp_path s) rest b mt)
    /\ atomic_writing_commit s (FileObj (tmp_path s) text b)
         (staged w (tmp_dir s) (tmp_path s) rest)
       = commit_tail s (written_world w (tmp_dir s) (tmp_path s) rest b mt).
Proof.
  destruct s as [dst td tp h]. cbn [tmp_dir tmp_path dest]. intros Hw Hs Hc.
  destruct (copy_metadata_ignored dst tp b default_meta
              (written_world w td tp rest b default_meta)) as [mt Hm].
  { cbn. by rewrite lookup_insert_eq. }
  assert (Hm' : try_except (_copy_metadata dst tp) is_OSError (fun _ => ret tt)
                  (written_world w td tp rest b default_meta)
                = (Return tt, written_world w td tp rest b mt)).
  { rewrite Hm. unfold set_fs, written_world. cbn. by rewrite insert_insert_eq. }
  exists mt. split; [done|].
  unfold atomic_writing_commit. cbn [tmp_dir tmp_path dest].
  rewrite bind_run, (flush_staged_run _ _ _ _ _ _ Hw).
  rewrite bind_run. unfold os_fsync. cbn [f_name].
  rewrite call_allowed by exact Hs.
  rewrite bind_run.
  assert (Hcl : f_close (FileObj tp text [])
                  (World (<[tp := File b default_meta]>
                            (<[td := Dir (Meta 448 0)]> (fs w)))
                     (tp :: open_files w) rest (refused w) (os_name w)
                     (has_chflags w))
                = (Return tt, written_world w td tp rest b default_meta)).
  { unfold f_close, f_flush. cbn [f_buf f_name].
    rewrite bool_decide_eq_true_2 by done.
    unfold ret, set_open_files. cbn.
    rewrite bool_decide_eq_true_2 by done.
    unfold call. cbn. by rewrite Hc. }
  rewrite Hcl, bind_run, Hm'. reflexivity.
Qed.

(** Removing the staging directory once the temporary file has been
    moved to the destination. *)
Lemma install_fs (m : gmap string node) (td tp dst : string) (n x y : node) :
  (forall k, under td k = true -> m !! k = None) ->
  under td tp = true ->
  under td dst = false ->
  filter (fun kv => under td (fst kv) = false)
    (<[dst := n]> (delete tp (<[tp := x]> (<[td := y]> m))))
  = <[dst := n]> m.
Proof.
  intros Hfree Htp Hdst. apply map_eq. intros j.
  destruct (under td j) eqn:Hu.
  - assert (j <> dst) by (intros ->; congruence).
    rewrite lookup_insert_ne, (Hfree j Hu) by done.
    apply map_lookup_filter_None. right. intros z _. cbn [fst]. by rewrite Hu.
  - destruct (decide (j = dst)) as [->|Hj].
    + rewrite lookup_insert_eq. apply map_lookup_filter_Some.
      split; [by rewrite lookup_insert_eq | done].
    + assert (j <> tp) by (intros ->; congruence).
      assert (j <> td) by (intros ->; by rewrite under_refl in Hu).
      rewrite lookup_insert_ne by done.
      destruct (m !! j) as [z|] eqn:Hz.
      * apply map_lookup_filter_Some. split; [|done].
        by rewrite lookup_insert_ne, lookup_delete_ne, !lookup_insert_ne.
      * apply map_lookup_filter_None. left.
        by rewrite lookup_insert_ne, lookup_delete_ne, !lookup_insert_ne.
Qed.

(** The end of the commit where renaming replaces an existing file. *)
Lemma commit_tail_run (w : world) (s : staging) (rest : list draw) (b : bytes)
    (mt : meta) :
  (forall k, under (tmp_dir s) k = true -> fs w !! k = None) ->
  under (tmp_dir s) (tmp_path s) = true ->
  tmp_path s <> tmp_dir s ->
  under (tmp_dir s) (dest s) = false ->
  os_name w <> "nt" ->
  (forall m, fs w !! dest s <> Some (Dir m)) ->
  parent_is_dir (fs w) (dest s) = true ->
  refused w (sys_rename (tmp_path s) (dest s)) = None ->
  refused w (sys_rmtree (tmp_dir s)) = None ->
  commit_tail s (written_world w (tmp_dir s) (tmp_path s) rest b mt)
  = (Return tt, installed_world w (dest s) rest b mt).
Proof.
  destruct s as [dst td tp h]. cbn [tmp_dir tmp_path dest].
  intros Hfree Htp Hne Hdst Hnt Hnd Hpar Hrn Hrm.
  assert (Hdt : dst <> tp) by (intros ->; congruence).
  assert (Hdd : dst <> td) by (intros ->; by rewrite under_refl in Hdst).
  set (W := written_world w td tp rest b mt).
  unfold commit_tail. cbn [tmp_dir tmp_path dest].
  rewrite bind_run. unfold get at 1. cbn [os_name W written_world].
  rewrite (bool_decide_eq_false_2 _ Hnt). fold W.
  rewrite bind_run. destruct (os_path_exists_run dst W) as [ex ->].
  cbn [andb]. rewrite bind_run. unfold ret at 1.
  assert (Hag : forall x, is_Some (fs w !! x) -> fs W !! x = fs w !! x).
  { intros x [n Hx]. cbn.
    assert (x <> tp) by (intros ->; rewrite (Hfree tp Htp) in Hx; done).
    assert (x <> td) by (intros ->; rewrite (Hfree td (under_refl td)) in Hx; done).
    by rewrite !lookup_insert_ne. }
  assert (Hren : os_rename tp dst W
                 = (Return tt, set_fs (fun m => <[dst := File b mt]> (delete tp m)) W)).
  { unfold os_rename. rewrite bind_run, call_allowed by exact Hrn.
    rewrite bind_run. unfold get at 1. rewrite bind_run. unfold get at 1.
    cbn [os_name W written_world]. rewrite (bool_decide_eq_false_2 _ Hnt).
    fold W.
    assert (Hl : fs W !! tp = Some (File b mt)) by (cbn; by rewrite lookup_insert_eq).
    assert (Hd : fs W !! dst = fs w !! dst) by (cbn; by rewrite !lookup_insert_ne).
    rewrite Hl, Hd.
    destruct (fs w !! dst) as [[| |]|] eqn:Hx; try done.
    - by destruct (Hnd m).
    - by rewrite (parent_is_dir_agree _ _ _ Hag Hpar). }
  rewrite bind_run, Hren. unfold shutil_rmtree.
  rewrite bind_run, call_allowed by exact Hrm.
  rewrite bind_run. unfold get. cbn [fs set_fs W written_world].
  rewrite lookup_insert_ne, lookup_delete_ne, lookup_insert_ne, lookup_insert_eq
    by done.
  unfold modify, set_fs, installed_world. cbn.
  by rewrite (install_fs _ _ _ _ _ _ _ Hfree Htp Hdst).
Qed.

(** [atomic_writing] with a block that returns, on a host that lets it
    work. *)
Lemma atomic_writing_run (path : string) (text : bool) (blk : block) (w : world)
    (d : draw) (rest : list draw) (written : bytes) :
  let dst := resolved_dest (fs w) path in
  let td := staging_dir dst d in
  let tp := posixpath.join td (posixpath.basename dst) in
  fs_wf (fs w) ->
  os_name w <> "nt" ->
  tmp_names w = d :: rest ->
  fs w !! td = None ->
  posixpath.basename dst <> "" ->
  parent_is_dir (fs w) dst = true ->
  (forall m, fs w !! dst <> Some (Dir m)) ->
  writes_allowed w path d ->
  blk (FileObj tp text []) = (Return tt, written) ->
  exists mt,
    try_except (_copy_metadata dst tp) is_OSError (fun _ => ret tt)
      (written_world w td tp rest written default_meta)
    = (Return tt, written_world w td tp rest written mt)
    /\ atomic_writing path text blk w
       = (Return tt, installed_world w dst rest written mt).
Proof.
  intros dst td tp Hwf Hnt Hn Hfree Hb Hpar Hnd
    (Hrl & Hmk & Hop & Hwr & Hfs & Hcl & Hrn & Hrm) Hblk.
  pose proof (enter_run path text w d rest Hwf Hrl Hn Hfree Hb Hpar Hmk Hop) as He.
  fold dst td tp in He.
  destruct (commit_to_rename w (Staging dst td tp (FileObj tp text [])) rest text
              written (fun _ => Hwr) Hfs Hcl) as (mt & Hm & Hc).
  cbn [tmp_dir tmp_path dest] in Hm, Hc.
  exists mt. split; [exact Hm|].
  unfold atomic_writing. rewrite bind_run, He. cbn [handle]. rewrite Hblk.
  unfold buffered. cbn [f_name f_text f_buf app]. rewrite Hc.
  apply (commit_tail_run w (Staging dst td tp (FileObj tp text [])) rest written mt);
    cbn [tmp_dir tmp_path dest]; try done.
  - intros k Hk. apply (fs_wf_under _ td); [done|apply staging_dir_nonempty|done|done].
  - apply tmp_path_under.
  - apply tmp_path_not_dir.
  - apply dest_not_under_staging.
Qed.

(* ===================================================================== *)
(** * [atomic_writing] succeeds *)
(* ===================================================================== *)

(** X5: [atomic_writing] does its work.  On a host other than Windows
    with a well-formed file system, when the directory of the
    destination exists, the destination is not a directory, the first
    temporary name drawn is free, the block returns, and the host
    refuses none of the calls that make the staging directory, write
    the temporary file, rename it and remove the directory, then
    [atomic_writing] returns: the destination holds exactly what the
    block wrote, nothing else has changed, no file is left open.
    Nothing is asked of [os.stat], [os.chmod] and [os.chflags]: a
    failure to copy the metadata does not fail the write. *)
Theorem atomic_writing_succeeds (path : string) (text : bool) (blk : block)
    (w : world) (d : draw) (rest : list draw) (written : bytes) :
  let dst := resolved_dest (fs w) path in
  let td := staging_dir dst d in
  let tp := posixpath.join td (posixpath.basename dst) in
  fs_wf (fs w) ->
  os_name w <> "nt" ->
  tmp_names w = d :: rest ->
  fs w !! td = None ->
  posixpath.basename dst <> "" ->
  parent_is_dir (fs w) dst = true ->
  (forall m, fs w !! dst <> Some (Dir m)) ->
  writes_allowed w path d ->
  blk (FileObj tp text []) = (Return tt, written) ->
  exists w' mt,
    atomic_writing path text blk w = (Return tt, w')
    /\ fs w' = <[dst := File written mt]> (fs w)
    /\ open_files w' = open_files w.
Proof.
  intros dst td tp Hwf Hnt Hn Hfree Hb Hpar Hnd Hal Hblk.
  destruct (atomic_writing_run path text blk w d rest written
              Hwf Hnt Hn Hfree Hb Hpar Hnd Hal Hblk) as (mt & _ & H).
  by exists (installed_world w dst rest written mt), mt.
Qed.

Lemma atomic_writing_succeeds_witness :
  exists w' mt,
    atomic_writing "/srv/nb/a.txt" false writing_block strict_world = (Return tt, w')
    /\ fs w' = <[resolved_dest (fs strict_world) "/srv/nb/a.txt"
                 := File (list_byte_of_string "new") mt]> (fs strict_world)
    /\ open_files w' = open_files strict_world.
Proof.
  apply (atomic_writing_succeeds "/srv/nb/a.txt" false writing_block strict_world
           (10, [29; 23; 35; 16; 28; 0; 1])%N [(5, [5; 5; 5; 5; 5; 5; 5])]%N
           (list_byte_of_string "new")).
  - exact sample_fs_wf.
  - discriminate.
  - reflexivity.
  - vm_compute. reflexivity.
  - vm_compute. discriminate.
  - vm_compute. reflexivity.
  - intros m. vm_compute. discriminate.
  - repeat split; reflexivity.
  - reflexivity.
Defined.

(* ===================================================================== *)
(** * The metadata of the file that is replaced *)
(* ===================================================================== *)

Lemma os_chmeta_run (c : syscall) (p : string) (f : meta -> meta) (b : bytes)
    (mt : meta) (W : world) :
  refused W c = None ->
  fs W !! p = Some (File b mt) ->
  os_chmeta c p f W = (Return tt, set_fs (insert p (File b (f mt))) W).
Proof.
  intros Hc H. unfold os_chmeta. rewrite bind_run, call_allowed by exact Hc.
  rewrite bind_run. unfold get. by rewrite (follow_file _ _ _ _ H), H.
Qed.

Lemma copy_metadata_file (w : world) (td tp dst : string) (rest : list draw)
    (b old : bytes) (mt0 : meta) :
  dst <> tp -> dst <> td ->
  fs w !! dst = Some (File old mt0) ->
  refused w (sys_stat dst) = None ->
  refused w (sys_chmod tp) = None ->
  (has_chflags w = true -> refused w (sys_chflags tp) = None) ->
  _copy_metadata dst tp (written_world w td tp rest b default_meta)
  = (Return tt, written_world w td tp rest b (copied_meta w mt0)).
Proof.
  intros Hdt Hdd Hd Hs Hm Hf.
  set (W := written_world w td tp rest b default_meta).
  assert (Hst : forall x W', fs W' = <[tp := File b x]> (<[td := Dir (Meta 448 0)]> (fs w)) ->
                  refused W' = refused w ->
                  os_stat dst W' = (Return (dst, File old mt0), W')).
  { intros x W' HW' Hr. apply os_stat_file; [by rewrite Hr| |].
    - apply (follow_file _ _ old mt0). by rewrite HW', !lookup_insert_ne.
    - by rewrite HW', !lookup_insert_ne. }
  unfold _copy_metadata, shutil_copymode.
  rewrite !bind_run, (Hst default_meta W) by done. cbn [snd node_meta].
  unfold os_chmod.
  rewrite (os_chmeta_run _ _ _ b default_meta) by (cbn; by rewrite ?lookup_insert_eq).
  cbn [st_flags default_meta].
  set (W1 := set_fs _ W).
  rewrite bind_run, (Hst (Meta (st_mode mt0) 0) W1); [|cbn; by rewrite insert_insert_eq|done].
  rewrite bind_run. unfold get. cbn [has_chflags W1 W set_fs written_world snd node_meta].
  unfold copied_meta. destruct (has_chflags w) eqn:Hc.
  - unfold os_chflags.
    rewrite (os_chmeta_run _ _ _ b (Meta (st_mode mt0) 0));
      [|by apply Hf|cbn; by rewrite lookup_insert_eq].
    unfold W1, W, set_fs, written_world. cbn. by rewrite !insert_insert_eq.
  - unfold ret, W1, W, set_fs, written_world. cbn. by rewrite !insert_insert_eq.
Qed.

(** X6: the permission bits of the file that is replaced.  When the
    destination is a regular file and the host lets it be examined and
    lets the permission bits (and, where there is [os.chflags], the
    flags) of the temporary file be set, the file [atomic_writing] puts
    in its place has the permission bits (and the flags) the
    destination had. *)
Theorem atomic_writing_keeps_mode (path : string) (text : bool) (blk : block)
    (w : world) (d : draw) (rest : list draw) (written old : bytes) (mt0 : meta) :
  let dst := resolved_dest (fs w) path in
  let td := staging_dir dst d in
  let tp := posixpath.join td (posixpath.basename dst) in
  fs_wf (fs w) ->
  os_name w <> "nt" ->
  tmp_names w = d :: rest ->
  fs w !! td = None ->
  posixpath.basename dst <> "" ->
  parent_is_dir (fs w) dst = true ->
  fs w !! dst = Some (File old mt0) ->
  writes_allowed w path d ->
  refused w (sys_stat dst) = None ->
  refused w (sys_chmod tp) = None ->
  (has_chflags w = true -> refused w (sys_chflags tp) = None) ->
  blk (FileObj tp text []) = (Return tt, written) ->
  exists w',
    atomic_writing path text blk w = (Return tt, w')
    /\ fs w' !! dst = Some (File written (copied_meta w mt0))
    /\ st_mode (copied_meta w mt0) = st_mode mt0.
Proof.
  intros dst td tp Hwf Hnt Hn Hfree Hb Hpar Hd Hal Hs Hm Hf Hblk.
  destruct (atomic_writing_run path text blk w d rest written
              Hwf Hnt Hn Hfree Hb Hpar) as (mt & Hmt & H); try done.
  { intros m. fold dst. by rewrite Hd. }
  fold dst td tp in Hmt, H.
  assert (Hdt : dst <> tp).
  { intros E. pose proof (dest_not_under_staging dst d) as Hu. fold td in Hu.
    rewrite E in Hu. unfold tp, td in Hu. by rewrite tmp_path_under in Hu. }
  assert (Hdd : dst <> td).
  { intros E. pose proof (dest_not_under_staging dst d) as Hu. fold td in Hu.
    rewrite E in Hu. by rewrite under_refl in Hu. }
  unfold try_except in Hmt.
  rewrite (copy_metadata_file w td tp dst rest written old mt0) in Hmt by done.
  injection Hmt as Hmt.
  assert (mt = copied_meta w mt0) as ->.
  { apply (f_equal (fun m => m !! tp)) in Hmt. rewrite !lookup_insert_eq in Hmt.
    by injection Hmt. }
  exists (installed_world w dst rest written (copied_meta w mt0)).
  split; [done|]. split; [|done]. cbn. apply lookup_insert_eq.
Qed.

Lemma atomic_writing_keeps_mode_witness :
  exists w',
    atomic_writing "/srv/nb/a.txt" false writing_block sample_world = (Return tt, w')
    /\ fs w' !! resolved_dest (fs sample_world) "/srv/nb/a.txt"
       = Some (File (list_byte_of_string "new") (copied_meta sample_world (Meta 384 0)))
    /\ st_mode (copied_meta sample_world (Meta 384 0)) = st_mode (Meta 384 0).
Proof.
  apply (atomic_writing_keeps_mode "/srv/nb/a.txt" false writing_block sample_world
           (10, [29; 23; 35; 16; 28; 0; 1])%N [(5, [5; 5; 5; 5; 5; 5; 5])]%N
           (list_byte_of_string "new") (list_byte_of_string "old") (Meta 384 0)).
  - exact sample_fs_wf.
  - discriminate.
  - reflexivity.
  - vm_compute. reflexivity.
  - vm_compute. discriminate.
  - vm_compute. reflexivity.
  - vm_compute. reflexivity.
  - repeat split; reflexivity.
  - reflexivity.
  - reflexivity.
  - discriminate.
  - reflexivity.
Defined.

(* ===================================================================== *)
(** * A temporary file that cannot be opened *)
(* ===================================================================== *)

(** X7: when the staging directory has been made and the host then
    refuses to open the temporary file, [atomic_writing] raises that
    error without running the block; the destination is untouched, but
    the empty staging directory is left behind: nothing removes it. *)
Theorem atomic_writing_open_refused (path : string) (text : bool) (blk : block)
    (w : world) (d : draw) (rest : list draw) (eno : Z) :
  let dst := resolved_dest (fs w) path in
  let td := staging_dir dst d in
  let tp := posixpath.join td (posixpath.basename dst) in
  refused w (sys_readlink path) = None ->
  tmp_names w = d :: rest ->
  fs w !! td = None ->
  parent_is_dir (fs w) dst = true ->
  refused w (sys_mkdir td) = None ->
  refused w (sys_open tp true) = Some eno ->
  exists w',
    atomic_writing path text blk w = (Raise (os_error eno tp), w')
    /\ fs w' = <[td := Dir (Meta 448 0)]> (fs w)
    /\ fs w' !! dst = fs w !! dst
    /\ open_files w' = open_files w.
Proof.
  intros dst td tp Hrl Hn Hfree Hpar Hmk Hop.
  exists (set_fs (insert td (Dir (Meta 448 0))) (set_tmp_names rest w)).
  split; [|split; [done|split; [|done]]].
  - unfold atomic_writing. rewrite bind_run, (enter_resolved path text w Hrl).
    fold dst.
    rewrite bind_run, (staging_mkdtemp_run dst w d rest Hn Hfree Hpar Hmk).
    fold td tp. rewrite bind_run. unfold io_open_w.
    rewrite bind_run, (call_refused _ _ _ eno) by exact Hop. reflexivity.
  - cbn. apply lookup_insert_ne. intros E.
    pose proof (dest_not_under_staging dst d) as Hu. fold td in Hu.
    rewrite <- E in Hu. by rewrite under_refl in Hu.
Qed.

Lemma atomic_writing_open_refused_witness :
  exists w',
    atomic_writing "/srv/nb/a.txt" false writing_block full_world
    = (Raise (os_error errno.ENOSPC "/srv/nb/a.txtk3x9q2ab/a.txt"), w')
    /\ fs w' = <["/srv/nb/a.txtk3x9q2ab" := Dir (Meta 448 0)]> (fs full_world)
    /\ fs w' !! "/srv/nb/a.txt" = fs full_world !! "/srv/nb/a.txt"
    /\ open_files w' = open_files full_world.
Proof.
  apply (atomic_writing_open_refused "/srv/nb/a.txt" false writing_block full_world
           (10, [29; 23; 35; 16; 28; 0; 1])%N [(5, [5; 5; 5; 5; 5; 5; 5])]%N
           errno.ENOSPC).
  - reflexivity.
  - reflexivity.
  - vm_compute. reflexivity.
  - vm_compute. reflexivity.
  - reflexivity.
  - reflexivity.
Defined.

(* ===================================================================== *)
(** * [atomic_writing], however it ends *)
(* ===================================================================== *)

Lemma call_raise (c : syscall) (filename : string) (w w' : world) (e : exn) :
  call c filename w = (Raise e, w') -> w' = w.
Proof. intros H. apply (f_equal snd) in H. by rewrite call_world in H. Qed.

Lemma os_mkdir_raise (p : string) (mode : N) (w w' : world) (e : exn) :
  os_mkdir p mode w = (Raise e, w') -> w' = w.
Proof.
  unfold os_mkdir. rewrite bind_run. unfold call.
  destruct (refused w _); [by intros [= _ <-]|].
  rewrite bind_run. unfold get. destruct (fs w !! p); [by intros [= _ <-]|].
  destruct (parent_is_dir _ _); [discriminate | by intros [= _ <-]].
Qed.

Lemma mkdtemp_from_raise (names : list draw) (prefix dir : string) (w w' : world)
    (e : exn) :
  mkdtemp_from names prefix dir w = (Raise e, w') -> fs w' = fs w.
Proof.
  revert w. induction names as [|d names IH]; intros w H.
  { cbn in H. unfold raise in H. by injection H as _ <-. }
  cbn [mkdtemp_from] in H. rewrite bind_run in H. unfold modify at 1 in H.
  unfold try_except in H. rewrite bind_run in H.
  destruct (os_mkdir _ 448 (set_tmp_names names w)) as [[u|e'] w2] eqn:Hm.
  { discriminate. }
  apply os_mkdir_raise in Hm as ->.
  destruct (is_EEXIST e').
  - by apply IH in H.
  - by injection H as _ <-.
Qed.

Lemma io_open_w_raise (p : string) (text : bool) (w w' : world) (e : exn) :
  fs w !! p = None ->
  io_open_w p text w = (Raise e, w') -> w' = w.
Proof.
  intros Hp. unfold io_open_w. rewrite bind_run. unfold call.
  destruct (refused w _); [by intros [= _ <-]|].
  rewrite bind_run. unfold get.
  assert (follow SYMLOOP_MAX (fs w) p = Some p) as ->.
  { unfold SYMLOOP_MAX. cbn [follow]. by rewrite Hp. }
  rewrite Hp. destruct (bool_decide _); [by intros [= _ <-]|].
  destruct (parent_is_dir _ _); [discriminate | by intros [= _ <-]].
Qed.

(** When the staging area cannot be set up, the file system is as it
    was, but for a staging directory that may have been made. *)
Lemma enter_raise (path : string) (text : bool) (w w' : world) (e : exn) :
  fs_wf (fs w) ->
  atomic_writing_enter path text w = (Raise e, w') ->
  fs w' = fs w
  \/ exists d, fs w !! staging_dir (resolved_dest (fs w) path) d = None
               /\ fs w' = <[staging_dir (resolved_dest (fs w) path) d
                            := Dir (Meta 448 0)]> (fs w).
Proof.
  intros Hwf H. unfold atomic_writing_enter in H.
  rewrite bind_run, islink_run in H. rewrite bind_run in H.
  destruct ((if (match fs w !! path with Some (Symlink _) => true | _ => false end)
             then target <- os_readlink path ;;
                  ret (posixpath.join (posixpath.dirname path) target)
             else ret path) w) as [[p|e'] w2] eqn:Hres.
  2:{ injection H as _ <-. left.
      destruct (fs w !! path) as [[| |t]|] eqn:Hl; try discriminate.
      rewrite bind_run in Hres. unfold os_readlink in Hres.
      rewrite bind_run in Hres. unfold call in Hres.
      destruct (refused w _); [by injection Hres as _ <-|].
      rewrite bind_run in Hres. unfold get in Hres. by rewrite Hl in Hres. }
  assert (p = resolved_dest (fs w) path /\ w2 = w) as [-> ->].
  { unfold resolved_dest. destruct (fs w !! path) as [[| |t]|] eqn:Hl;
      try (unfold ret in Hres; by injection Hres as <- <-).
    apply bind_Return_inv in Hres as (t' & w3 & Hr & Hp).
    unfold ret in Hp. injection Hp as <- <-.
    unfold os_readlink in Hr.
    apply bind_Return_inv in Hr as (u & w4 & Hc & Hr).
    apply call_Return_inv in Hc as [_ ->].
    rewrite bind_run in Hr. unfold get in Hr. rewrite Hl in Hr.
    unfold ret in Hr. by injection Hr as <- <-. }
  set (p := resolved_dest (fs w) path) in *.
  assert (Hs : posixpath.split p = (posixpath.dirname p, posixpath.basename p)).
  { unfold posixpath.dirname, posixpath.basename. by destruct (posixpath.split p). }
  rewrite Hs in H. rewrite bind_run in H.
  destruct (tempfile_mkdtemp _ _ w) as [[td|e'] w2] eqn:Hm.
  2:{ injection H as _ <-. left. unfold tempfile_mkdtemp in Hm.
      rewrite bind_run in Hm. unfold get in Hm.
      by apply mkdtemp_from_raise in Hm. }
  unfold tempfile_mkdtemp in Hm. rewrite bind_run in Hm. unfold get in Hm.
  apply mkdtemp_from_inv in Hm as (d & rest & Htd & Hnone & ->).
  fold (staging_dir p d) in Htd. subst td.
  rewrite bind_run in H.
  destruct (io_open_w _ _ _) as [[f|e'] w3] eqn:Ho; [discriminate|].
  injection H as _ <-. right. exists d. split; [done|].
  apply io_open_w_raise in Ho as ->; [done|].
  cbn [fs set_fs set_tmp_names]. rewrite lookup_insert_ne.
  - apply (fs_wf_under _ (staging_dir p d));
      [done|apply staging_dir_nonempty|done|apply tmp_path_under].
  - intros E. symmetry in E. by apply tmp_path_not_dir in E.
Qed.

Lemma flush_staged_raise (w : world) (td tp : string) (rest : list draw)
    (text : bool) (b : bytes) (e : exn) (W : world) :
  f_flush (FileObj tp text b) (staged w td tp rest) = (Raise e, W) ->
  W = staged w td tp rest.
Proof.
  unfold f_flush. cbn [f_buf f_name f_text]. case_bool_decide; [discriminate|].
  rewrite bind_run. unfold call. destruct (refused _ _); [by intros [= _ <-]|].
  discriminate.
Qed.

Lemma close_staged_any (w : world) (td tp : string) (rest : list draw)
    (text : bool) (b : bytes) (r : result unit) (W : world) :
  f_close (FileObj tp text b) (staged w td tp rest) = (r, W) ->
  only_staging w td tp W.
Proof.
  unfold f_close. intros H.
  destruct (f_flush _ _) as [[f1|e] wA] eqn:Hf.
  - apply flush_staged in Hf as [-> ->]. apply (f_equal snd) in H.
    rewrite call_world in H. cbn [snd] in H. subst W. by eexists.
  - apply flush_staged_raise in Hf as ->. injection H as _ <-. by eexists.
Qed.

Lemma rmtree_raise (p : string) (W W' : world) (e : exn) :
  shutil_rmtree p W = (Raise e, W') -> W' = W.
Proof.
  unfold shutil_rmtree. rewrite bind_run. unfold call.
  destruct (refused W _); [by intros [= _ <-]|].
  rewrite bind_run. unfold get.
  destruct (fs W !! p) as [[| |]|]; by intros [= _ <-].
Qed.

Lemma os_rename_raise (src dst : string) (W W' : world) (e : exn) :
  os_rename src dst W = (Raise e, W') -> W' = W.
Proof.
  unfold os_rename. rewrite bind_run. unfold call.
  destruct (refused W _); [by intros [= _ <-]|].
  rewrite bind_run. unfold get at 1. rewrite bind_run. unfold get.
  remember (bool_decide (os_name W = "nt")) as nt eqn:Hnt. clear Hnt.
  destruct (fs W !! src) as [[| |]|]; try (by intros [= _ <-]);
    (destruct (fs W !! dst) as [[| |]|]; try (by intros [= _ <-]);
     try (destruct nt; [by intros [= _ <-]|discriminate]);
     destruct (parent_is_dir _ _); [discriminate | by intros [= _ <-]]).
Qed.

(** Rolling back, however it ends: the staging area is still there, or
    the file system is as it was. *)
Lemma rollback_any (w W : world) (s : staging) (rest : list draw) (text : bool)
    (b : bytes) (e : exn) (r : result unit) :
  (forall k, under (tmp_dir s) k = true -> fs w !! k = None) ->
  under (tmp_dir s) (tmp_path s) = true ->
  atomic_writing_rollback s (FileObj (tmp_path s) text b) e
    (staged w (tmp_dir s) (tmp_path s) rest) = (r, W) ->
  only_staging w (tmp_dir s) (tmp_path s) W \/ fs W = fs w.
Proof.
  intros Hfree Hu H. unfold atomic_writing_rollback in H. rewrite bind_run in H.
  destruct (f_close _ _) as [rc W1] eqn:Hc.
  pose proof (close_staged_any _ _ _ _ _ _ _ _ Hc) as [n Hn].
  destruct rc as [u|e1].
  2:{ injection H as _ <-. left. by exists n. }
  rewrite bind_run in H.
  destruct (shutil_rmtree _ W1) as [[u1|e1] W2] eqn:Hr.
  - apply rmtree_inv in Hr as ->. unfold raise in H. injection H as _ <-. right.
    cbn [fs set_fs]. rewrite Hn. by apply unstage_fs.
  - apply rmtree_raise in Hr as ->. injection H as _ <-. left. by exists n.
Qed.

(** The commit, however it ends, on a host other than Windows: the
    destination has not been touched and the staging area is still
    there; or the temporary file has been moved to the destination and
    the staging directory is still there; or all is done. *)
Lemma commit_any (w W : world) (s : staging) (rest : list draw) (text : bool)
    (b : bytes) (r : result unit) :
  (forall k, under (tmp_dir s) k = true -> fs w !! k = None) ->
  under (tmp_dir s) (tmp_path s) = true ->
  tmp_path s <> tmp_dir s ->
  under (tmp_dir s) (dest s) = false ->
  os_name w <> "nt" ->
  atomic_writing_commit s (FileObj (tmp_path s) text b)
    (staged w (tmp_dir s) (tmp_path s) rest) = (r, W) ->
  only_staging w (tmp_dir s) (tmp_path s) W
  \/ exists mt,
       fs W = <[dest s := File b mt]>
                (delete (tmp_path s)
                   (<[tmp_path s := File b mt]>
                      (<[tmp_dir s := Dir (Meta 448 0)]> (fs w))))
       \/ fs W = <[dest s := File b mt]> (fs w).
Proof.
  destruct s as [dst td tp h]. cbn [tmp_dir tmp_path dest].
  intros Hfree Htp Hne Hdst Hnt H.
  unfold atomic_writing_commit in H. cbn [tmp_dir tmp_path dest] in H.
  rewrite bind_run in H.
  destruct (f_flush _ _) as [[f1|e] wA] eqn:Hf.
  2:{ apply flush_staged_raise in Hf as ->. injection H as _ <-. left. by eexists. }
  apply flush_staged in Hf as [-> ->].
  rewrite bind_run in H. unfold os_fsync in H. cbn [f_name] in H.
  destruct (call (sys_fsync tp) tp _) as [[u|e] wB] eqn:Hs.
  2:{ apply call_raise in Hs as ->. injection H as _ <-. left. by eexists. }
  apply call_Return_inv in Hs as [_ ->].
  rewrite bind_run in H.
  destruct (f_close _ _) as [[u1|e] wC] eqn:Hc.
  2:{ injection H as _ <-. left. unfold f_close, f_flush in Hc. cbn [f_buf f_name] in Hc.
      rewrite bool_decide_eq_true_2 in Hc by done. unfold ret in Hc.
      apply call_raise in Hc as ->. by eexists. }
  unfold f_close, f_flush in Hc. cbn [f_buf f_name] in Hc.
  rewrite bool_decide_eq_true_2 in Hc by done. unfold ret in Hc.
  unfold set_open_files in Hc. cbn in Hc.
  rewrite bool_decide_eq_true_2 in Hc by done.
  apply call_Return_inv in Hc as [_ ->].
  rewrite bind_run in H.
  match type of H with
  | context [try_except _ _ _ ?W0] =>
      destruct (copy_metadata_ignored dst tp b default_meta W0) as [mt Hm];
        [cbn; by rewrite lookup_insert_eq|]
  end.
  rewrite Hm in H. clear Hm.
  unfold set_fs in H. cbn in H. rewrite insert_insert_eq in H.
  rewrite (bool_decide_eq_false_2 _ Hnt) in H. cbn [andb] in H.
  rewrite bind_run in H.
  match type of H with
  | context [os_path_exists _ ?W0] =>
      destruct (os_path_exists_run dst W0) as [ex Hx]
  end.
  rewrite Hx in H. clear Hx.
  rewrite bind_run in H. unfold ret at 1 in H.
  rewrite bind_run in H.
  destruct (os_rename tp dst _) as [[u2|e] wD] eqn:Hr.
  2:{ apply os_rename_raise in Hr as ->. injection H as _ <-. left. by eexists. }
  apply os_rename_inv in Hr as (n & Hn & ->).
  cbn [fs] in Hn. rewrite lookup_insert_eq in Hn. injection Hn as <-.
  right. exists mt.
  destruct (shutil_rmtree td _) as [[u3|e] wE] eqn:Hrm.
  - apply rmtree_inv in Hrm as ->. injection H as _ <-. right.
    cbn [fs set_fs]. by apply install_fs.
  - apply rmtree_raise in Hrm as ->. injection H as _ <-. left. done.
Qed.

(** However [atomic_writing] ends, the destination is as it was or
    holds all that was written, and no other name has changed. *)
Lemma atomic_writing_any (path : string) (text : bool) (blk : block)
    (w w' : world) (r : result unit) :
  fs_wf (fs w) ->
  os_name w <> "nt" ->
  atomic_writing path text blk w = (r, w') ->
  let dst := resolved_dest (fs w) path in
  (forall k, is_Some (fs w !! k) -> k <> dst -> fs w' !! k = fs w !! k)
  /\ (fs w' !! dst = fs w !! dst
      \/ exists s written mt,
           blk (handle s) = (Return tt, written)
           /\ fs w' !! dst = Some (File written mt)).
Proof.
  intros Hwf Hnt H dst. unfold atomic_writing in H. rewrite bind_run in H.
  destruct (atomic_writing_enter path text w) as [[s|e] w1] eqn:He.
  2:{ injection H as _ <-. apply (enter_raise _ _ _ _ _ Hwf) in He as [->|(d & Hd & ->)].
      { by split; [|left]. }
      fold dst in Hd |- *.
      assert (Hdd : dst <> staging_dir dst d).
      { intros E. pose proof (dest_not_under_staging dst d) as Hu.
        rewrite <- E in Hu. by rewrite under_refl in Hu. }
      split; [|left; by rewrite lookup_insert_ne].
      intros k [n Hk] _. rewrite lookup_insert_ne; [done|].
      intros <-. by rewrite Hd in Hk. }
  destruct (enter_inv _ _ _ _ _ Hwf He)
    as (d & rest & Hd & Htd & Htp & Hh & Hnone & ->).
  fold dst in Hd.
  assert (Hfree : forall k, under (tmp_dir s) k = true -> fs w !! k = None).
  { intros k Hk. apply (fs_wf_under _ (tmp_dir s)); try done.
    rewrite Htd. apply staging_dir_nonempty. }
  assert (Hu : under (tmp_dir s) (tmp_path s) = true).
  { rewrite Htp, Htd. apply tmp_path_under. }
  assert (Hne : tmp_path s <> tmp_dir s).
  { rewrite Htp, Htd. apply tmp_path_not_dir. }
  assert (Hdst : under (tmp_dir s) dst = false).
  { rewrite Htd, Hd. apply dest_not_under_staging. }
  assert (Hdt : dst <> tmp_path s) by (intros E; rewrite E in Hdst; congruence).
  assert (Hdd : dst <> tmp_dir s).
  { intros E. rewrite E in Hdst. by rewrite under_refl in Hdst. }
  assert (Hold : forall k, is_Some (fs w !! k) -> k <> tmp_path s /\ k <> tmp_dir s).
  { intros k [n Hk]. split; intros ->.
    - by rewrite (Hfree _ Hu) in Hk.
    - by rewrite (Hfree _ (under_refl _)) in Hk. }
  assert (HA : forall W, only_staging w (tmp_dir s) (tmp_path s) W ->
                 (forall k, is_Some (fs w !! k) -> k <> dst -> fs W !! k = fs w !! k)
                 /\ fs W !! dst = fs w !! dst).
  { intros W [n Hn]. rewrite Hn. split.
    - intros k Hk _. destruct (Hold k Hk). by rewrite !lookup_insert_ne.
    - by rewrite !lookup_insert_ne. }
  destruct (blk (handle s)) as [[[]|e] written] eqn:Hb;
    rewrite Hh in H; unfold buffered in H; cbn [f_name f_text f_buf app] in H.
  - apply commit_any in H as [HW | (mt & [HW|HW])]; try done.
    + destruct (HA _ HW) as [H1 H2]. split; [done | by left].
    + rewrite Hd in HW. rewrite HW. split.
      * intros k Hk Hkd. destruct (Hold k Hk).
        by rewrite lookup_insert_ne, lookup_delete_ne, !lookup_insert_ne.
      * right. exists s, written, mt. split; [done|]. apply lookup_insert_eq.
    + rewrite Hd in HW. rewrite HW. split.
      * intros k Hk Hkd. by rewrite lookup_insert_ne.
      * right. exists s, written, mt. split; [done|]. apply lookup_insert_eq.
    + by rewrite Hd.
  - apply rollback_any in H as [HW | HW]; try done.
    + destruct (HA _ HW) as [H1 H2]. split; [done | by left].
    + rewrite HW. split; [done | by left].
Qed.

(** X8: all or nothing.  On a host other than Windows with a
    well-formed file system, however [atomic_writing] ends (it returns;
    the block raises; the host refuses any call at any point, also
    during the cleanup): no name the file system had, other than the
    destination, has changed; and the destination is exactly as it was,
    or it is a regular file holding all that the block, which returned,
    has written.  The destination never holds a part of what was
    written. *)
Theorem atomic_writing_all_or_nothing (path : string) (text : bool) (blk : block)
    (w w' : world) (r : result unit) :
  fs_wf (fs w) ->
  os_name w <> "nt" ->
  atomic_writing path text blk w = (r, w') ->
  let dst := resolved_dest (fs w) path in
  (forall k, is_Some (fs w !! k) -> k <> dst -> fs w' !! k = fs w !! k)
  /\ (fs w' !! dst = fs w !! dst
      \/ exists s written mt,
           blk (handle s) = (Return tt, written)
           /\ fs w' !! dst = Some (File written mt)).
Proof. apply atomic_writing_any. Qed.

Lemma atomic_writing_all_or_nothing_witness :
  let w' := snd (atomic_writing "/srv/nb/a.txt" false failing_block busy_world) in
  let dst := resolved_dest (fs busy_world) "/srv/nb/a.txt" in
  (forall k, is_Some (fs busy_world !! k) -> k <> dst -> fs w' !! k = fs busy_world !! k)
  /\ (fs w' !! dst = fs busy_world !! dst
      \/ exists s written mt,
           failing_block (handle s) = (Return tt, written)
           /\ fs w' !! dst = Some (File written mt)).
Proof.
  apply (atomic_writing_all_or_nothing "/srv/nb/a.txt" false failing_block busy_world
           _ (fst (atomic_writing "/srv/nb/a.txt" false failing_block busy_world))).
  - exact sample_fs_wf.
  - discriminate.
  - apply surjective_pairing.
Defined.

(* ===================================================================== *)
(** * The chink in the atomicity on Windows *)
(* ===================================================================== *)

(** X9: on Windows the destination is removed before the temporary file
    is renamed.  When the block has returned, the destination is a
    regular file, and the host then refuses the renaming,
    [atomic_writing] raises the error of the renaming and the
    destination is gone: the old file has been removed, and what was
    written is still in the staging directory. *)
Theorem atomic_writing_windows_chink (w : world) (s : staging) (rest : list draw)
    (text : bool) (b old : bytes) (mt0 : meta) (eno : Z) :
  os_name w = "nt" ->
  dest s <> tmp_path s ->
  dest s <> tmp_dir s ->
  fs w !! dest s = Some (File old mt0) ->
  (b <> [] -> refused w (sys_write (tmp_path s)) = None) ->
  refused w (sys_fsync (tmp_path s)) = None ->
  refused w (sys_close (tmp_path s)) = None ->
  refused w (sys_stat (dest s)) = None ->
  refused w (sys_remove (dest s)) = None ->
  refused w (sys_rename (tmp_path s) (dest s)) = Some eno ->
  exists w',
    atomic_writing_commit s (FileObj (tmp_path s) text b)
      (staged w (tmp_dir s) (tmp_path s) rest)
    = (Raise (os_error eno (tmp_path s)), w')
    /\ fs w' !! dest s = None
    /\ exists mt, fs w' !! tmp_path s = Some (File b mt).
Proof.
  intros Hnt Hdt Hdd Hd Hw Hs Hc Hst Hrm Hrn.
  destruct (commit_to_rename w s rest text b Hw Hs Hc) as (mt & _ & ->).
  destruct s as [dst td tp h]. cbn [tmp_dir tmp_path dest] in *.
  set (W := written_world w td tp rest b mt).
  assert (HWd : fs W !! dst = Some (File old mt0)).
  { cbn. by rewrite !lookup_insert_ne. }
  exists (set_fs (delete dst) W). split; [|split].
  - unfold commit_tail. cbn [tmp_dir tmp_path dest].
    rewrite bind_run. unfold get at 1. cbn [os_name W written_world].
    rewrite (bool_decide_eq_true_2 _ Hnt). fold W.
    rewrite bind_run. unfold os_path_exists.
    rewrite (os_stat_file W dst dst (File old mt0));
      [|done|by apply (follow_file _ _ old mt0)|done].
    cbn [andb]. rewrite bind_run. unfold os_remove.
    rewrite bind_run, call_allowed by exact Hrm.
    rewrite bind_run. unfold get. rewrite HWd. unfold modify.
    rewrite bind_run. unfold os_rename.
    rewrite bind_run, (call_refused _ _ _ eno) by exact Hrn. reflexivity.
  - cbn. apply lookup_delete_eq.
  - exists mt. cbn. by rewrite lookup_delete_ne, lookup_insert_eq.
Qed.

Lemma atomic_writing_windows_chink_witness :
  exists w',
    atomic_writing_commit sample_staging
      (FileObj (tmp_path sample_staging) false (list_byte_of_string "new"))
      (staged windows_world (tmp_dir sample_staging) (tmp_path sample_staging) [])
    = (Raise (os_error errno.EACCES (tmp_path sample_staging)), w')
    /\ fs w' !! dest sample_staging = None
    /\ exists mt, fs w' !! tmp_path sample_staging
                  = Some (File (list_byte_of_string "new") mt).
Proof.
  apply (atomic_writing_windows_chink windows_world sample_staging [] false
           (list_byte_of_string "new") (list_byte_of_string "old") (Meta 384 0)
           errno.EACCES).
  - reflexivity.
  - discriminate.
  - discriminate.
  - vm_compute. reflexivity.
  - reflexivity.
  - reflexivity.
  - reflexivity.
  - reflexivity.
  - reflexivity.
  - reflexivity.
Defined.

(* ===================================================================== *)
(** * Decoding what the UTF-8 codec encoded *)
(* ===================================================================== *)

Section Utf8RoundTrip.
Import codecs.
Local Open Scope N_scope.

Lemma in_seq_N (lo n : nat) (x : N) :
  N.of_nat lo <= x < N.of_nat (lo + n) -> In x (map N.of_nat (seq lo n)).
Proof.
  intros Hx. apply in_map_iff. exists (N.to_nat x). split; [lia|].
  apply in_seq. lia.
Qed.

(** A number is its bits above the sixth and its low six bits. *)
Lemma split6 (a : N) : N.lor (N.shiftl (N.shiftr a 6) 6) (N.land a 63) = a.
Proof.
  change 63 with (N.ones 6). rewrite <- N.ldiff_ones_r. apply N.lor_ldiff_and.
Qed.

Lemma land63_lt (a : N) : N.land a 63 < 64.
Proof. change 63 with (N.ones 6). rewrite N.land_ones. by apply N.mod_lt. Qed.

Lemma shiftr_lt (c n m : N) : c < 2 ^ n * m -> N.shiftr c n < m.
Proof. intros H. rewrite N.shiftr_div_pow2. by apply N.Div0.div_lt_upper_bound. Qed.

Lemma shiftr_ge (c n m : N) : 2 ^ n * m <= c -> m <= N.shiftr c n.
Proof.
  intros H. rewrite N.shiftr_div_pow2. apply N.div_le_lower_bound; [|done].
  by apply N.pow_nonzero.
Qed.

Lemma join3 (x y z : N) :
  N.lor (N.shiftl x 12) (N.lor (N.shiftl y 6) z)
  = N.lor (N.shiftl (N.lor (N.shiftl x 6) y) 6) z.
Proof. by rewrite N.shiftl_lor, N.shiftl_shiftl, N.lor_assoc. Qed.

Lemma join4 (v x y z : N) :
  N.lor (N.shiftl v 18) (N.lor (N.shiftl x 12) (N.lor (N.shiftl y 6) z))
  = N.lor (N.shiftl (N.lor (N.shiftl (N.lor (N.shiftl v 6) x) 6) y) 6) z.
Proof. by rewrite !N.shiftl_lor, !N.shiftl_shiftl, !N.lor_assoc. Qed.

(** A continuation byte carries six bits. *)
Lemma cont_byte (x : N) :
  x < 64 ->
  is_cont (byte_of (N.lor 128 x)) = true /\ low6 (byte_of (N.lor 128 x)) = x.
Proof.
  intros Hx.
  assert (Hall : forallb (fun x => is_cont (byte_of (N.lor 128 x))
                                   && (low6 (byte_of (N.lor 128 x)) =? x))
                   (map N.of_nat (seq 0 64)) = true) by (vm_compute; reflexivity).
  rewrite forallb_forall in Hall.
  specialize (Hall x (in_seq_N 0 64 x ltac:(lia))).
  apply andb_true_iff in Hall as [H1 H2]. by apply N.eqb_eq in H2.
Qed.

(** The first byte of a sequence of two. *)
Lemma lead2 (m : N) :
  2 <= m < 32 ->
  let n0 := Byte.to_N (byte_of (N.lor 192 m)) in
  (n0 <? 128) = false /\ in_range 194 223 n0 = true /\ N.land n0 31 = m.
Proof.
  intros Hm.
  assert (Hall : forallb (fun m =>
            let n0 := Byte.to_N (byte_of (N.lor 192 m)) in
            negb (n0 <? 128) && in_range 194 223 n0 && (N.land n0 31 =? m))
            (map N.of_nat (seq 2 30)) = true) by (vm_compute; reflexivity).
  rewrite forallb_forall in Hall.
  specialize (Hall m (in_seq_N 2 30 m ltac:(lia))). cbv zeta in *.
  rewrite !andb_true_iff, negb_true_iff in Hall. destruct Hall as [[H1 H2] H3].
  by apply N.eqb_eq in H3.
Qed.

(** The first two bytes of a sequence of three: [m] is the code point
    without its low six bits. *)
Lemma lead3 (m : N) :
  32 <= m < 1024 ->
  in_range 864 895 m = false ->
  let n0 := Byte.to_N (byte_of (N.lor 224 (N.shiftr m 6))) in
  let b1 := byte_of (N.lor 128 (N.land m 63)) in
  (n0 <? 128) = false
  /\ in_range 194 223 n0 = false
  /\ in_range 224 239 n0 = true
  /\ in_range (if n0 =? 224 then 160 else 128) (if n0 =? 237 then 159 else 191)
       (Byte.to_N b1) = true
  /\ N.lor (N.shiftl (N.land n0 15) 6) (low6 b1) = m.
Proof.
  intros Hm Hs.
  assert (Hall : forallb (fun m =>
            let n0 := Byte.to_N (byte_of (N.lor 224 (N.shiftr m 6))) in
            let b1 := byte_of (N.lor 128 (N.land m 63)) in
            in_range 864 895 m
            || (negb (n0 <? 128) && negb (in_range 194 223 n0) && in_range 224 239 n0
                && in_range (if n0 =? 224 then 160 else 128)
                     (if n0 =? 237 then 159 else 191) (Byte.to_N b1)
                && (N.lor (N.shiftl (N.land n0 15) 6) (low6 b1) =? m)))
            (map N.of_nat (seq 32 992)) = true) by (vm_compute; reflexivity).
  rewrite forallb_forall in Hall.
  specialize (Hall m (in_seq_N 32 992 m ltac:(lia))). cbv zeta in *.
  rewrite Hs in Hall. cbn [orb] in Hall.
  rewrite !andb_true_iff, !negb_true_iff in Hall.
  destruct Hall as [[[[H1 H2] H3] H4] H5]. by apply N.eqb_eq in H5.
Qed.

(** The first two bytes of a sequence of four: [h] is the code point
    without its low twelve bits. *)
Lemma lead4 (h : N) :
  16 <= h < 272 ->
  let n0 := Byte.to_N (byte_of (N.lor 240 (N.shiftr h 6))) in
  let b1 := byte_of (N.lor 128 (N.land h 63)) in
  (n0 <? 128) = false
  /\ in_range 194 223 n0 = false
  /\ in_range 224 239 n0 = false
  /\ in_range 240 244 n0 = true
  /\ in_range (if n0 =? 240 then 144 else 128) (if n0 =? 244 then 143 else 191)
       (Byte.to_N b1) = true
  /\ N.lor (N.shiftl (N.land n0 7) 6) (low6 b1) = h.
Proof.
  intros Hh.
  assert (Hall : forallb (fun h =>
            let n0 := Byte.to_N (byte_of (N.lor 240 (N.shiftr h 6))) in
            let b1 := byte_of (N.lor 128 (N.land h 63)) in
            negb (n0 <? 128) && negb (in_range 194 223 n0)
            && negb (in_range 224 239 n0) && in_range 240 244 n0
            && in_range (if n0 =? 240 then 144 else 128)
                 (if n0 =? 244 then 143 else 191) (Byte.to_N b1)
            && (N.lor (N.shiftl (N.land n0 7) 6) (low6 b1) =? h))
            (map N.of_nat (seq 16 256)) = true) by (vm_compute; reflexivity).
  rewrite forallb_forall in Hall.
  specialize (Hall h (in_seq_N 16 256 h ltac:(lia))). cbv zeta in *.
  rewrite !andb_true_iff, !negb_true_iff in Hall.
  destruct Hall as [[[[[H1 H2] H3] H4] H5] H6]. by apply N.eqb_eq in H6.
Qed.

Lemma decode_utf8_cons (b0 : byte) (r : bytes) :
  decode_utf8 (b0 :: r)
  = let n0 := Byte.to_N b0 in
    if n0 <? 128 then cons n0 <$> decode_utf8 r
    else if in_range 194 223 n0 then
      match r with
      | b1 :: r1 =>
          if is_cont b1
          then cons (N.lor (N.shiftl (N.land n0 31) 6) (low6 b1))
                 <$> decode_utf8 r1
          else None
      | _ => None
      end
    else if in_range 224 239 n0 then
      match r with
      | b1 :: b2 :: r2 =>
          let lo := if n0 =? 224 then 160 else 128 in
          let hi := if n0 =? 237 then 159 else 191 in
          if in_range lo hi (Byte.to_N b1) && is_cont b2
          then cons (N.lor (N.shiftl (N.land n0 15) 12)
                       (N.lor (N.shiftl (low6 b1) 6) (low6 b2)))
                 <$> decode_utf8 r2
          else None
      | _ => None
      end
    else if in_range 240 244 n0 then
      match r with
      | b1 :: b2 :: b3 :: r3 =>
          let lo := if n0 =? 240 then 144 else 128 in
          let hi := if n0 =? 244 then 143 else 191 in
          if in_range lo hi (Byte.to_N b1) && is_cont b2 && is_cont b3
          then cons (N.lor (N.shiftl (N.land n0 7) 18)
                       (N.lor (N.shiftl (low6 b1) 12)
                          (N.lor (N.shiftl (low6 b2) 6) (low6 b3))))
                 <$> decode_utf8 r3
          else None
      | _ => None
      end
    else None.
Proof. reflexivity. Qed.

(** The bytes of one code point are decoded as that code point. *)
Lemma decode_encode_char (c : N) (bs r : bytes) :
  encode_utf8_char c = Some bs ->
  decode_utf8 (bs ++ r) = cons c <$> decode_utf8 r.
Proof.
  unfold encode_utf8_char.
  destruct (c <? 128) eqn:H1.
  { intros [= <-]. apply N.ltb_lt in H1. cbn [app]. rewrite decode_utf8_cons.
    cbv zeta. rewrite to_N_byte_of by lia. by rewrite (proj2 (N.ltb_lt _ _) H1). }
  apply N.ltb_ge in H1.
  destruct (c <? 2048) eqn:H2.
  { intros [= <-]. apply N.ltb_lt in H2. cbn [app]. rewrite decode_utf8_cons.
    destruct (lead2 (N.shiftr c 6)) as (L1 & L2 & L3).
    { split; [by apply shiftr_ge | by apply shiftr_lt]. }
    destruct (cont_byte (N.land c 63) (land63_lt c)) as [C1 C2].
    cbv zeta in *. rewrite L1, L2, C1, L3, C2. by rewrite split6. }
  apply N.ltb_ge in H2.
  destruct (c <? 65536) eqn:H3.
  { apply N.ltb_lt in H3. destruct (in_range 55296 57343 c) eqn:Hs; [discriminate|].
    intros [= <-]. cbn [app]. rewrite decode_utf8_cons.
    change 12 with (6 + 6) at 1. rewrite <- N.shiftr_shiftr.
    destruct (lead3 (N.shiftr c 6)) as (L1 & L2 & L3 & L4 & L5).
    { split; [by apply shiftr_ge | by apply shiftr_lt]. }
    { unfold in_range in *. apply andb_false_iff in Hs.
      apply andb_false_iff. rewrite !N.leb_gt in *.
      destruct Hs as [Hs|Hs]; [left | right].
      - by apply shiftr_lt.
      - apply N.lt_le_trans with 896; [done|]. apply shiftr_ge. lia. }
    destruct (cont_byte (N.land c 63) (land63_lt c)) as [C1 C2].
    cbv zeta in *. rewrite L1, L2, L3, L4, C1. cbn [andb].
    rewrite join3, L5, C2. by rewrite split6. }
  apply N.ltb_ge in H3.
  destruct (c <? 1114112) eqn:H4; [|discriminate].
  apply N.ltb_lt in H4. intros [= <-]. cbn [app]. rewrite decode_utf8_cons.
  change 18 with (12 + 6) at 1. rewrite <- N.shiftr_shiftr.
  destruct (lead4 (N.shiftr c 12)) as (L1 & L2 & L3 & L4 & L5 & L6).
  { split; [by apply shiftr_ge | by apply shiftr_lt]. }
  destruct (cont_byte (N.land (N.shiftr c 6) 63) (land63_lt _)) as [C1 C2].
  destruct (cont_byte (N.land c 63) (land63_lt c)) as [D1 D2].
  cbv zeta in *. rewrite L1, L2, L3, L4, L5, C1, D1. cbn [andb].
  rewrite join4, L6, C2, D2.
  change 12 with (6 + 6). rewrite <- N.shiftr_shiftr.
  by rewrite !split6.
Qed.

(** [s.encode('utf8').decode('utf8')] is [s]. *)
Lemma decode_utf8_encode_utf8 (s : unicode) (b : bytes) :
  encode_utf8 s = Some b -> decode_utf8 b = Some s.
Proof.
  revert b. induction s as [|c s IH]; intros b; cbn [encode_utf8].
  { by intros [= <-]. }
  destruct (encode_utf8_char c) as [bs|] eqn:Hc; [|discriminate].
  destruct (encode_utf8 s) as [r|]; [|discriminate].
  intros [= <-]. rewrite (decode_encode_char c bs r Hc), (IH r) by done. done.
Qed.

End Utf8RoundTrip.

(* ===================================================================== *)
(** * Reading back what was saved, for every content *)
(* ===================================================================== *)

(** X10: text goes round.  Whatever text [_save_file] has saved with
    format ['text'], [_read_file] with format ['text'] or with no format
    returns that same text, with format ['text']. *)
Theorem save_text_then_read (self : FileManagerMixin) (path : string)
    (content : unicode) (hint : option string) (w w1 : world) :
  fs_wf (fs w) ->
  reads_allowed w1 path ->
  hint = None \/ hint = Some "text" ->
  _save_file self path content (Some "text") w = (Return tt, w1) ->
  _read_file self path hint w1 = (Return (content, "text"), w1).
Proof.
  intros Hwf Hr Hh H.
  destruct (save_then_read self path _ _ hint w w1 Hwf Hr H) as (b & He & ->).
  unfold _save_file_encode, str_encode_utf8 in He.
  rewrite bool_decide_eq_true_2 in He by done.
  destruct (codecs.encode_utf8 content) as [b'|] eqn:Hc; [|discriminate].
  injection He as ->. apply decode_utf8_encode_utf8 in Hc.
  unfold _read_file_decode, bytes_decode_utf8. rewrite Hc. cbn [of_codec].
  by destruct Hh as [-> | ->].
Qed.

Lemma save_text_then_read_witness :
  let w1 := snd (_save_file sample_manager "/srv/nb/a.txt" [104; 233; 8364; 128512]%N
                   (Some "text") sample_world) in
  _read_file sample_manager "/srv/nb/a.txt" None w1
  = (Return ([104; 233; 8364; 128512]%N, "text"), w1).
Proof.
  apply (save_text_then_read sample_manager "/srv/nb/a.txt" _ None sample_world).
  - exact sample_fs_wf.
  - repeat split; vm_compute; reflexivity.
  - by left.
  - apply run_fst. vm_compute. reflexivity.
Defined.

(** X11: what [_read_file] hands out as base64 can be saved back.  For a
    file the host lets us read, [_read_file] with format ['base64']
    returns a string that [_save_file] with format ['base64'] turns
    back into the bytes of the file: saving it anywhere writes a file
    with the same bytes. *)
Theorem read_file_base64_saves_back (self : FileManagerMixin) (src : string)
    (data : bytes) (w : world) :
  readable w src data ->
  exists c,
    _read_file self src (Some "base64") w = (Return (c, "base64"), w)
    /\ _save_file_encode c (Some "base64") = Return data
    /\ forall dst W W', fs_wf (fs W) ->
         _save_file self dst c (Some "base64") W = (Return tt, W') ->
         file_at W' dst data.
Proof.
  intros Hr. exists (map Byte.to_N (base64.encodestring data)).
  assert (He : _save_file_encode (map Byte.to_N (base64.encodestring data))
                 (Some "base64") = Return data).
  { unfold _save_file_encode, str_encode_ascii, base64_decodestring.
    rewrite bool_decide_eq_false_2 by done.
    rewrite (encode_ascii_of _ (encodestring_ascii data)). cbn [of_codec].
    by rewrite decodestring_encodestring. }
  split; [|split; [done|]].
  - rewrite (read_file_readable _ _ _ _ _ Hr).
    unfold _read_file_decode, bytes_decode_ascii.
    by rewrite (decode_ascii_of _ (encodestring_ascii data)).
  - intros dst W W' Hwf H.
    apply save_file_returns in H as (b & Hb & Hf & _); [|done].
    rewrite He in Hb. by injection Hb as <-.
Qed.

Lemma read_file_base64_saves_back_witness :
  exists c,
    _read_file sample_manager "/srv/nb/raw.bin" (Some "base64") sample_world
    = (Return (c, "base64"), sample_world)
    /\ _save_file_encode c (Some "base64") = Return [x00; x01; xff]
    /\ forall dst W W', fs_wf (fs W) ->
         _save_file sample_manager dst c (Some "base64") W = (Return tt, W') ->
         file_at W' dst [x00; x01; xff].
Proof.
  apply (read_file_base64_saves_back sample_manager "/srv/nb/raw.bin"
           [x00; x01; xff] sample_world).
  exact sample_raw_readable.
Defined.

(* ===================================================================== *)
(** * Notebooks *)
(* ===================================================================== *)

Section NotebookFiles.

Variable notebook : Type.
Variable nbformat_reads : unicode -> Z -> result notebook.

Lemma read_notebook_run (self : FileManagerMixin) (w : world) (path k : string)
    (data : bytes) (mt : meta) (as_version : Z) :
  refused w (sys_open path false) = None ->
  follow SYMLOOP_MAX (fs w) path = Some k ->
  fs w !! k = Some (File data mt) ->
  refused w (sys_read k) = None ->
  refused w (sys_close k) = None ->
  _read_notebook notebook nbformat_reads self path as_version w
  = (perm_to_403 self path
       (match bytes_decode_utf8 data with
        | Return s =>
            match nbformat_reads (universal_newlines s) as_version with
            | Return nb => Return nb
            | Raise e =>
                if exn_is_Exception e
                then Raise (HTTPError 400
                              ("Unreadable Notebook: " +:+ path +:+ " " +:+ exn_repr e)
                              None)
                else Raise e
            end
        | Raise e =>
            if exn_is_Exception e
            then Raise (HTTPError 400
                          ("Unreadable Notebook: " +:+ path +:+ " " +:+ exn_repr e)
                          None)
            else Raise e
        end), w).
Proof.
  intros Ho Hf Hk Hr Hc. unfold _read_notebook.
  apply (open_with self w path k data mt true _ _ Ho Hf Hk Hc).
  unfold try_except, nbformat_read.
  rewrite bind_run, (f_read_readable _ path _ _ _ _ Hk Hr).
  rewrite bind_run. unfold lift.
  destruct (bytes_decode_utf8 data) as [s|e].
  - destruct (nbformat_reads (universal_newlines s) as_version) as [nb|e]; [done|].
    by destruct (exn_is_Exception e).
  - by destruct (exn_is_Exception e).
Qed.

End NotebookFiles.

(** X12: what [_read_notebook] makes of a file the host lets us read.
    When the bytes are UTF-8 and [nbformat.read] returns a notebook for
    the text, that notebook is returned.  When the bytes are not UTF-8,
    the decoding error is reported as a 400 "Unreadable Notebook".  When
    [nbformat.read] raises something that is not an [Exception] (a
    [KeyboardInterrupt], a [SystemExit]), it is raised as it is: the
    [except Exception] clause does not catch it.  The host is left as
    it was in each case.  (The text is one without carriage return:
    a file read in text mode has those translated.) *)
Theorem read_notebook_outcomes (notebook : Type)
    (nbformat_reads : unicode -> Z -> result notebook) (self : FileManagerMixin)
    (w : world) (path : string) (data : bytes) (as_version : Z) :
  readable w path data ->
  (forall s nb,
      codecs.decode_utf8 data = Some s ->
      ~ In 13%N s ->
      nbformat_reads s as_version = Return nb ->
      _read_notebook notebook nbformat_reads self path as_version w = (Return nb, w))
  /\ (codecs.decode_utf8 data = None ->
      exists e,
        bytes_decode_utf8 data = Raise e
        /\ _read_notebook notebook nbformat_reads self path as_version w
           = (Raise (HTTPError 400
                       ("Unreadable Notebook: " +:+ path +:+ " " +:+ exn_repr e)
                       None), w))
  /\ (forall s e,
         codecs.decode_utf8 data = Some s ->
         ~ In 13%N s ->
         nbformat_reads s as_version = Raise e ->
         exn_is_Exception e = false ->
         _read_notebook notebook nbformat_reads self path as_version w = (Raise e, w)).
Proof.
  intros (_ & Ho & k & mt & Hf & Hk & Hr & Hc).
  pose proof (read_notebook_run notebook nbformat_reads self w path k data mt
                as_version Ho Hf Hk Hr Hc) as H.
  split; [|split].
  - intros s nb Hd Hn Hp. rewrite H. unfold bytes_decode_utf8. rewrite Hd.
    cbn [of_codec]. by rewrite (universal_newlines_id _ Hn), Hp.
  - intros Hd. eexists. split.
    + unfold bytes_decode_utf8. rewrite Hd. reflexivity.
    + rewrite H. unfold bytes_decode_utf8. rewrite Hd. reflexivity.
  - intros s e Hd Hn Hp He. rewrite H. unfold bytes_decode_utf8. rewrite Hd.
    cbn [of_codec]. rewrite (universal_newlines_id _ Hn), Hp, He.
    destruct e as [[]|]; try discriminate. reflexivity.
Qed.

Lemma read_notebook_outcomes_witness :
  let reads : unicode -> Z -> result unicode :=
    fun s _ => if bool_decide (s = codecs.u "old") then Return s
               else Raise (Py (NonException "KeyboardInterrupt"
                                 (ExcText "" "KeyboardInterrupt()"))) in
  (forall s nb,
      codecs.decode_utf8 (list_byte_of_string "old") = Some s ->
      ~ In 13%N s ->
      reads s 4%Z = Return nb ->
      _read_notebook unicode reads sample_manager "/srv/nb/a.txt" 4 sample_world
      = (Return nb, sample_world))
  /\ (codecs.decode_utf8 (list_byte_of_string "old") = None ->
      exists e,
        bytes_decode_utf8 (list_byte_of_string "old") = Raise e
        /\ _read_notebook unicode reads sample_manager "/srv/nb/a.txt" 4 sample_world
           = (Raise (HTTPError 400
                       ("Unreadable Notebook: " +:+ "/srv/nb/a.txt" +:+ " "
                        +:+ exn_repr e) None), sample_world))
  /\ (forall s e,
         codecs.decode_utf8 (list_byte_of_string "old") = Some s ->
         ~ In 13%N s ->
         reads s 4%Z = Raise e ->
         exn_is_Exception e = false ->
         _read_notebook unicode reads sample_manager "/srv/nb/a.txt" 4 sample_world
         = (Raise e, sample_world)).
Proof.
  intros reads.
  apply (read_notebook_outcomes unicode reads sample_manager sample_world
           "/srv/nb/a.txt" (list_byte_of_string "old") 4).
  split; [reflexivity|]. split; [reflexivity|].
  exists "/srv/nb/a.txt", (Meta 384 0). repeat split; vm_compute; reflexivity.
Defined.

(** X13: a notebook goes round.  On a host other than Windows, when
    [_save_notebook] has returned, [nbformat.write] has produced a
    text and the file holds its UTF-8 encoding; and if that text has no
    carriage return (a file read in text mode has those translated),
    [_read_notebook] hands [nbformat.read] exactly that text: when the
    parser returns a notebook for it, [_read_notebook] returns that
    notebook. *)
Theorem save_notebook_then_read (notebook : Type)
    (nbformat_reads : unicode -> Z -> result notebook)
    (nbformat_writes : notebook -> result unicode) (self : FileManagerMixin)
    (path : string) (nb : notebook) (as_version : Z) (w w1 : world) :
  fs_wf (fs w) ->
  os_name w <> "nt" ->
  reads_allowed w1 path ->
  _save_notebook notebook nbformat_writes self path nb w = (Return tt, w1) ->
  exists s b,
    nbformat_writes nb = Return s
    /\ codecs.encode_utf8 s = Some b
    /\ file_at w1 path b
    /\ forall nb',
         ~ In 13%N s ->
         nbformat_reads s as_version = Return nb' ->
         _read_notebook notebook nbformat_reads self path as_version w1
         = (Return nb', w1).
Proof.
  intros Hwf _ (_ & Ho & Hk) H.
  unfold _save_notebook, FileManagerMixin_atomic_writing, with_perm_to_403 in H.
  destruct (atomic_writing path true _ w) as [[[]|e] w2] eqn:Ha; [|discriminate].
  injection H as <-.
  apply atomic_writing_returns in Ha as (s & written & mt & Hd & Hb & Hfs & _ & _);
    [|done].
  unfold nbformat_write in Hb.
  destruct (nbformat_writes nb) as [t|e]; [|discriminate].
  unfold f_write_text in Hb.
  destruct (codecs.encode_utf8 t) as [b|] eqn:He; [|discriminate].
  unfold f_write in Hb. injection Hb as <-.
  assert (Hf : follow SYMLOOP_MAX (fs w2) path = Some (dest s)).
  { rewrite Hfs, Hd. apply follow_after_write. }
  assert (Hl : fs w2 !! dest s = Some (File b mt)).
  { rewrite Hfs. apply lookup_insert_eq. }
  exists t, b. split; [done|]. split; [done|]. split; [by exists (dest s), mt|].
  intros nb' Hn Hp. destruct (Hk (dest s)) as [Hr Hc].
  rewrite (read_notebook_run notebook nbformat_reads self w2 path (dest s) b mt
             as_version Ho Hf Hl Hr Hc).
  unfold bytes_decode_utf8. rewrite (decode_utf8_encode_utf8 _ _ He).
  cbn [of_codec]. by rewrite (universal_newlines_id _ Hn), Hp.
Qed.

Lemma save_notebook_then_read_witness :
  let reads : unicode -> Z -> result unicode := fun s _ => Return s in
  let writes : unicode -> result unicode := fun nb => Return nb in
  let w1 := snd (_save_notebook unicode writes sample_manager "/srv/nb/n.ipynb"
                   [123; 233; 125]%N sample_world) in
  exists s b,
    writes [123; 233; 125]%N = Return s
    /\ codecs.encode_utf8 s = Some b
    /\ file_at w1 "/srv/nb/n.ipynb" b
    /\ forall nb',
         ~ In 13%N s ->
         reads s 4%Z = Return nb' ->
         _read_notebook unicode reads sample_manager "/srv/nb/n.ipynb" 4 w1
         = (Return nb', w1).
Proof.
  intros reads writes.
  apply (save_notebook_then_read unicode reads writes sample_manager
           "/srv/nb/n.ipynb" [123; 233; 125]%N 4 sample_world).
  - exact sample_fs_wf.
  - discriminate.
  - repeat split; vm_compute; reflexivity.
  - apply run_fst. vm_compute. reflexivity.
Defined.

(* ===================================================================== *)
(** * [FileManagerMixin._copy] *)
(* ===================================================================== *)

Lemma os_chmeta_raises (c : syscall) (p : string) (f : meta -> meta) (W W' : world)
    (e : exn) :
  os_chmeta c p f W = (Raise e, W') -> is_OSError e = true /\ W' = W.
Proof.
  unfold os_chmeta. rewrite bind_run. unfold call.
  destruct (refused W c); [by intros [= <- <-]|]. rewrite bind_run. unfold get.
  destruct (follow _ _ _) as [k|]; [|by intros [= <- <-]].
  destruct (fs W !! k); [discriminate | by intros [= <- <-]].
Qed.

(** What [os.chmod] and [os.chflags] do to the host: the metadata of
    one name, at most. *)
Lemma os_chmeta_fs (c : syscall) (p : string) (f : meta -> meta) (W W' : world)
    (r : result unit) :
  os_chmeta c p f W = (r, W') ->
  W' = W
  \/ exists k n, fs W !! k = Some n /\ W' = set_fs (insert k (set_node_meta f n)) W.
Proof.
  unfold os_chmeta. rewrite bind_run. unfold call.
  destruct (refused W c); [intros [= _ <-]; by left|]. rewrite bind_run. unfold get.
  destruct (follow _ _ _) as [k|]; [|intros [= _ <-]; by left].
  destruct (fs W !! k) as [n|] eqn:Hk; [|intros [= _ <-]; by left].
  unfold modify. intros [= _ <-]. right. by exists k, n.
Qed.

Lemma follow_links (fuel : nat) (m m' : gmap string node) (p : string) :
  (forall x, node_link (m' !! x) = node_link (m !! x)) ->
  follow fuel m' p = follow fuel m p.
Proof.
  intros Hl. revert p. induction fuel as [|fuel IH]; intros p; cbn [follow];
    specialize (Hl p).
  - destruct (m !! p) as [[| |]|], (m' !! p) as [[| |]|]; try done.
  - destruct (m !! p) as [[| |]|], (m' !! p) as [[| |]|]; try done.
    cbn in Hl. injection Hl as ->. apply IH.
Qed.

Lemma same_content_refl (m : gmap string node) : same_content m m.
Proof. by intros x. Qed.

Lemma same_content_trans (m1 m2 m3 : gmap string node) :
  same_content m1 m2 -> same_content m2 m3 -> same_content m1 m3.
Proof.
  intros H1 H2 x. destruct (H1 x) as [<- <-]. apply H2.
Qed.

Lemma os_chmeta_content (c : syscall) (p : string) (f : meta -> meta) (W W' : world)
    (r : result unit) :
  os_chmeta c p f W = (r, W') ->
  same_content (fs W) (fs W') /\ open_files W' = open_files W.
Proof.
  intros H. apply os_chmeta_fs in H as [->|(k & n & Hk & ->)].
  { split; [apply same_content_refl | done]. }
  split; [|done]. intros x. cbn [fs set_fs]. destruct (decide (x = k)) as [->|Hx].
  - rewrite lookup_insert_eq, Hk. by destruct n.
  - by rewrite lookup_insert_ne.
Qed.

(** [shutil.copystat] raises [OSError]s only, and changes neither the
    names, nor the links, nor the bytes behind a name. *)
Lemma copystat_effect (src dst : string) (W W' : world) (r : result unit) :
  shutil_copystat src dst W = (r, W') ->
  same_content (fs W) (fs W')
  /\ open_files W' = open_files W
  /\ match r with Return _ => True | Raise e => is_OSError e = true end.
Proof.
  unfold shutil_copystat. rewrite bind_run.
  pose proof (os_stat_world src W) as Hw.
  destruct (os_stat src W) as [[st|e] W1] eqn:Hs; cbn [snd] in Hw; subst W1.
  2:{ intros [= <- <-]. split; [apply same_content_refl|]. split; [done|].
      by eapply os_stat_raises. }
  rewrite bind_run. unfold os_chmod.
  destruct (os_chmeta _ dst _ W) as [[u|e] W1] eqn:Hm.
  2:{ intros [= <- <-]. destruct (os_chmeta_content _ _ _ _ _ _ Hm) as [? ?].
      split; [done|]. split; [done|]. by apply os_chmeta_raises in Hm as [? _]. }
  apply os_chmeta_content in Hm as [Hm Ho].
  rewrite bind_run. unfold get. destruct (has_chflags W1).
  2:{ intros [= <- <-]. done. }
  unfold try_except, os_chflags.
  destruct (os_chmeta _ dst _ W1) as [[u1|e] W2] eqn:Hf.
  - intros [= <- <-]. destruct (os_chmeta_content _ _ _ _ _ _ Hf) as [Hc Ho2].
    split; [by eapply same_content_trans|]. split; [congruence | done].
  - pose proof Hf as Hf'. apply os_chmeta_raises in Hf' as [He ->].
    destruct (is_ENOTSUP e); intros [= <- <-]; done.
Qed.

(** X14: [_copy] ends as [shutil.copyfile] ends.  When [copyfile]
    raises, [_copy] raises the same exception and [copystat] is not
    run; when [copyfile] returns, [_copy] returns, whatever the host
    refuses to [copystat]: a failure to copy the metadata is logged, not
    raised, and [copystat] changes the bytes of no file. *)
Theorem copy_ends_as_copyfile (self : FileManagerMixin) (src dest : string)
    (w : world) :
  fst (_copy self src dest w) = fst (shutil_copyfile src dest w)
  /\ same_content (fs (snd (shutil_copyfile src dest w)))
       (fs (snd (_copy self src dest w))).
Proof.
  unfold _copy. rewrite bind_run.
  destruct (shutil_copyfile src dest w) as [[[]|e] w1]; cbn [fst snd].
  2:{ split; [done | apply same_content_refl]. }
  unfold try_except.
  destruct (shutil_copystat src dest w1) as [r w2] eqn:Hc.
  apply copystat_effect in Hc as (Hs & _ & Hr).
  destruct r as [[]|e]; cbn [fst snd]; [done|]. rewrite Hr. done.
Qed.

Lemma io_open_w_inv (p : string) (text : bool) (f : fileobj) (W W' : world) :
  io_open_w p text W = (Return f, W') ->
  exists k mt,
    follow SYMLOOP_MAX (fs W) p = Some k
    /\ node_link (fs W !! k) = None
    /\ f = FileObj k text []
    /\ W' = set_open_files (cons k) (set_fs (insert k (File [] mt)) W).
Proof.
  unfold io_open_w. intros H.
  apply bind_Return_inv in H as (u & w1 & Hc & H).
  apply call_Return_inv in Hc as [_ ->].
  rewrite bind_run in H. unfold get in H.
  destruct (follow SYMLOOP_MAX (fs W) p) as [k|]; [|discriminate].
  destruct (fs W !! k) as [[d mt| |]|] eqn:Hk; try discriminate.
  - exists k, mt. rewrite Hk. rewrite bind_run in H. unfold modify in H.
    rewrite bind_run in H. unfold ret in H. by injection H as <- <-.
  - destruct (bool_decide _); [discriminate|].
    destruct (parent_is_dir _ _); [|discriminate].
    exists k, default_meta. rewrite Hk. rewrite bind_run in H. unfold modify in H.
    rewrite bind_run in H. unfold ret in H. by injection H as <- <-.
Qed.

Lemma f_close_inv (k : string) (text : bool) (b d : bytes) (mt : meta)
    (W W' : world) (u : unit) :
  fs W !! k = Some (File d mt) ->
  f_close (FileObj k text b) W = (Return u, W') ->
  fs W' = <[k := File (d ++ b) mt]> (fs W)
  /\ open_files W' = remove_one k (open_files W).
Proof.
  intros Hk. unfold f_close, f_flush. cbn [f_buf f_name f_text].
  case_bool_decide as Hb.
  - subst b. unfold ret. intros H. apply call_Return_inv in H as [_ ->].
    cbn. by rewrite app_nil_r, insert_id.
  - rewrite bind_run. unfold call at 1.
    destruct (refused W (sys_write k)); [discriminate|].
    rewrite bind_run. unfold modify, ret. intros H.
    apply call_Return_inv in H as [_ ->]. cbn. unfold append_data. by rewrite Hk.
Qed.

(** What [shutil.copyfile] leaves when it returns. *)
Lemma copyfile_inv (src dst : string) (data : bytes) (w w1 : world) (k1 : string)
    (mt1 : meta) :
  refused w (sys_stat src) = None ->
  refused w (sys_stat dst) = None ->
  follow SYMLOOP_MAX (fs w) src = Some k1 ->
  fs w !! k1 = Some (File data mt1) ->
  shutil_copyfile src dst w = (Return tt, w1) ->
  exists k2 mt2,
    follow SYMLOOP_MAX (fs w) dst = Some k2
    /\ k2 <> k1
    /\ node_link (fs w !! k2) = None
    /\ fs w1 = <[k2 := File data mt2]> (fs w)
    /\ open_files w1 = open_files w.
Proof.
  intros Hs Hsd Hf Hk H. unfold shutil_copyfile in H.
  apply bind_Return_inv in H as (same & w0 & Hsame & H).
  unfold shutil_samefile in Hsame.
  rewrite (os_stat_file _ _ _ _ Hs Hf Hk) in Hsame.
  assert (Hne : forall k2, follow SYMLOOP_MAX (fs w) dst = Some k2 ->
                  same = false -> k2 <> k1).
  { intros k2 Hf2 Hfalse E. subst k2.
    rewrite (os_stat_file _ _ _ _ Hsd Hf2 Hk) in Hsame.
    injection Hsame as <- _. by rewrite bool_decide_eq_true_2 in Hfalse. }
  assert (w0 = w) as ->.
  { destruct (os_stat dst w) as [[[? ?]|?] ?]; by injection Hsame. }
  destruct same; [discriminate|]. specialize (fun k2 H2 => Hne k2 H2 eq_refl).
  clear Hsame. unfold with_file in H.
  apply bind_Return_inv in H as (fsrc & W & Ho & H).
  assert (fsrc = FileObj k1 false [] /\ W = set_open_files (cons k1) w) as [-> ->].
  { unfold io_open_r in Ho.
    apply bind_Return_inv in Ho as (u & w2 & Hc & Ho).
    apply call_Return_inv in Hc as [_ ->].
    rewrite bind_run in Ho. unfold get in Ho. rewrite Hf, Hk in Ho.
    rewrite bind_run in Ho. unfold modify, ret in Ho. by injection Ho as <- <-. }
  destruct (copy_into _ dst _) as [r wA] eqn:Hc.
  destruct (f_close (FileObj k1 false []) wA) as [[u|e] wB] eqn:Hcl; [|discriminate].
  injection H as -> ->.
  unfold copy_into in Hc.
  apply bind_Return_inv in Hc as (fdst & W2 & Hod & Hc).
  apply io_open_w_inv in Hod as (k2 & mt2 & Hf2 & Hl2 & -> & ->).
  cbn [fs set_open_files] in Hf2, Hl2. specialize (Hne k2 Hf2).
  set (W2 := set_open_files _ (set_fs _ _)) in *.
  assert (Hk1 : fs W2 !! k1 = Some (File data mt1)).
  { cbn. by rewrite lookup_insert_ne. }
  assert (Hrd : exists r, f_read (FileObj k1 false []) W2 = (r, W2)
                  /\ (forall d, r = Return d -> d = data)).
  { unfold f_read. cbn [f_name]. rewrite bind_run. unfold call.
    destruct (refused W2 _); [eexists; split; [done|]; discriminate|].
    rewrite bind_run. unfold get. rewrite Hk1. eexists. split; [done|].
    unfold ret. by intros d [= <-]. }
  destruct Hrd as (r & Hrd & Hd). rewrite Hrd in Hc.
  destruct r as [d|e].
  2:{ destruct (f_close _ W2) as [[?|?] ?]; discriminate. }
  rewrite (Hd d eq_refl) in Hc. unfold buffered in Hc. cbn [f_name f_text f_buf app] in Hc.
  apply (f_close_inv k2 false data [] mt2) in Hc as [Hfs Hop];
    [|cbn; by rewrite lookup_insert_eq].
  apply (f_close_inv k1 false [] data mt1) in Hcl as [Hfs' Hop'].
  2:{ rewrite Hfs. cbn. by rewrite !lookup_insert_ne. }
  exists k2, mt2. split; [done|]. split; [done|]. split; [done|]. split.
  - rewrite Hfs', Hfs. cbn. rewrite insert_insert_eq, app_nil_r.
    rewrite insert_id; [done|]. by rewrite lookup_insert_ne.
  - rewrite Hop', Hop. unfold W2. cbn. rewrite bool_decide_eq_true_2 by done.
    cbn. by rewrite bool_decide_eq_true_2.
Qed.

(** X15: [_copy] copies the bytes.  When the host lets both names be
    examined and [src] leads to a regular file, then after [_copy] has
    returned [dest] leads to a regular file with the bytes of [src],
    [src] still leads to those bytes, and no file is left open. *)
Theorem copy_copies_bytes (self : FileManagerMixin) (src dest : string)
    (data : bytes) (w w' : world) :
  readable w src data ->
  refused w (sys_stat dest) = None ->
  _copy self src dest w = (Return tt, w') ->
  file_at w' dest data /\ file_at w' src data /\ open_files w' = open_files w.
Proof.
  intros (Hs & _ & k1 & mt1 & Hf & Hk & _) Hsd H. unfold _copy in H.
  apply bind_Return_inv in H as ([] & w1 & Hc & H).
  destruct (copyfile_inv _ _ _ _ _ _ _ Hs Hsd Hf Hk Hc)
    as (k2 & mt2 & Hf2 & Hne & Hl2 & Hfs & Hop).
  unfold try_except in H.
  destruct (shutil_copystat src dest w1) as [r w2] eqn:Hst.
  apply copystat_effect in Hst as (Hsame & Hop2 & Hr).
  assert (w2 = w') as ->.
  { destruct r as [[]|e]; [by injection H|]. rewrite Hr in H. by injection H. }
  clear H.
  assert (Hlinks : forall x, node_link (fs w' !! x) = node_link (fs w !! x)).
  { intros x. destruct (Hsame x) as [-> _]. rewrite Hfs.
    destruct (decide (x = k2)) as [->|Hx].
    - by rewrite lookup_insert_eq, Hl2.
    - by rewrite lookup_insert_ne. }
  assert (Hdata : forall x d, node_data (fs w1 !! x) = Some d ->
                    exists mt, fs w' !! x = Some (File d mt)).
  { intros x d Hx. destruct (Hsame x) as [_ Hd]. rewrite Hx in Hd.
    destruct (fs w' !! x) as [[d' mt| |]|]; try discriminate.
    injection Hd as ->. by exists mt. }
  split; [|split; [|congruence]].
  - destruct (Hdata k2 data) as [mt Hmt]; [by rewrite Hfs, lookup_insert_eq|].
    exists k2, mt. split; [|done]. by rewrite (follow_links _ (fs w) _ _ Hlinks).
  - destruct (Hdata k1 data) as [mt Hmt].
    { by rewrite Hfs, lookup_insert_ne, Hk. }
    exists k1, mt. split; [|done]. by rewrite (follow_links _ (fs w) _ _ Hlinks).
Qed.

Lemma copy_copies_bytes_witness :
  let w' := snd (_copy sample_manager "/srv/nb/raw.bin" "/srv/nb/copy.bin"
                   sample_world) in
  file_at w' "/srv/nb/copy.bin" [x00; x01; xff]
  /\ file_at w' "/srv/nb/raw.bin" [x00; x01; xff]
  /\ open_files w' = open_files sample_world.
Proof.
  apply (copy_copies_bytes sample_manager "/srv/nb/raw.bin" "/srv/nb/copy.bin"
           [x00; x01; xff] sample_world).
  - exact sample_raw_readable.
  - reflexivity.
  - apply run_fst. vm_compute. reflexivity.
Defined.

(* ===================================================================== *)
(** * Paths without [..] are resolved *)
(* ===================================================================== *)

Section Normpath.
Import Str.

Local Abbreviation no_sep := (Forall (fun a : ascii => a <> sep)).
Local Abbreviation dot := ["."%char].
Local Abbreviation dotdot := ["."%char; "."%char].

Lemma norm_step_skip (k : nat) (acc : list (list ascii)) (c : list ascii) :
  c = [] \/ c = dot -> posixpath.norm_step k acc c = acc.
Proof. unfold posixpath.norm_step. by intros [-> | ->]. Qed.

Lemma norm_step_keep (k : nat) (acc : list (list ascii)) (c : list ascii) :
  c <> [] -> c <> dot -> c <> dotdot -> posixpath.norm_step k acc c = acc ++ [c].
Proof.
  intros H1 H2 H3. unfold posixpath.norm_step.
  by rewrite (bool_decide_eq_false_2 _ H1), (bool_decide_eq_false_2 _ H2),
    (bool_decide_eq_false_2 _ H3).
Qed.

(** Over segments none of which is [..], the loop of [normpath] drops
    the [.] and keeps the rest. *)
Lemma fold_norm_step (k : nat) (Y acc : list (list ascii)) :
  Forall (fun c => c <> [] /\ c <> dotdot) Y ->
  fold_left (posixpath.norm_step k) Y acc = acc ++ filter (fun c => c <> dot) Y.
Proof.
  intros HY. revert acc. induction HY as [|c Y [H1 H3] _ IH]; intros acc.
  { by rewrite app_nil_r. }
  cbn [fold_left]. rewrite IH, filter_cons. case_decide as H2.
  - rewrite norm_step_keep by done. by rewrite <- app_assoc.
  - by rewrite norm_step_skip by (by right).
Qed.

Lemma fold_norm_step_empty (k n : nat) (Y acc : list (list ascii)) :
  fold_left (posixpath.norm_step k) (repeat [] n ++ Y) acc
  = fold_left (posixpath.norm_step k) Y acc.
Proof.
  induction n as [|n IH]; [done|]. cbn [repeat app fold_left].
  by rewrite norm_step_skip by (by left).
Qed.

Lemma split_l_repeat_sep (n : nat) (l : list ascii) :
  split_l sep (repeat sep n ++ l) = repeat [] n ++ split_l sep l.
Proof.
  induction n as [|n IH]; [done|]. cbn [repeat app split_l].
  by rewrite (proj2 (eqb_sep sep)), IH.
Qed.

Lemma removelast_Forall {A} (P : A -> Prop) (l : list A) :
  Forall P l -> Forall P (removelast l).
Proof.
  induction 1 as [|a l Ha Hl IH]; [constructor|]. cbn [removelast].
  destruct l; [constructor | by constructor].
Qed.

(** On an absolute path the loop of [normpath] builds plain segments. *)
Lemma fold_norm_step_plain (k : nat) (Y acc : list (list ascii)) :
  k <> 0 ->
  Forall no_sep Y ->
  Forall plain acc ->
  Forall plain (fold_left (posixpath.norm_step k) Y acc).
Proof.
  intros Hk HY. revert acc. induction HY as [|c Y Hc _ IH]; intros acc Hacc; [done|].
  cbn [fold_left]. apply IH. unfold posixpath.norm_step.
  case_bool_decide as H1; [done|]. case_bool_decide as H2; [done|]. cbn [orb].
  case_bool_decide as H3; cbn [negb orb].
  2:{ apply Forall_app. split; [done|]. by repeat constructor. }
  rewrite (bool_decide_eq_false_2 (k = 0)) by done. cbn [andb orb].
  case_bool_decide as H4; cbn [andb].
  2:{ try apply dec_stable in H4. by subst acc. }
  case_bool_decide as H5.
  - apply last_Some in H5 as [l' ->]. apply Forall_app in Hacc as [_ Hl].
    inversion Hl as [|? ? (_ & _ & Hdd) _]; subst. done.
  - by apply removelast_Forall.
Qed.

(** The first characters of an absolute path give its leading slashes. *)
Lemma initial_slashes (k : nat) (l : list ascii) :
  k = 1 \/ k = 2 ->
  startswith_l l [sep] = false ->
  (if startswith_l (repeat sep k ++ l) [sep]
   then if startswith_l (repeat sep k ++ l) [sep; sep]
           && negb (startswith_l (repeat sep k ++ l) [sep; sep; sep])
        then 2 else 1
   else 0) = k.
Proof.
  intros [-> | ->] Hl; cbn [repeat app].
  - change (startswith_l (sep :: l) [sep; sep]) with (true && startswith_l l [sep]).
    by rewrite Hl.
  - change (startswith_l (sep :: sep :: l) [sep; sep; sep])
      with (true && (true && startswith_l l [sep])).
    by rewrite Hl.
Qed.

(** [normpath] of an absolute path made of segments without [..]. *)
Lemma normpath_l_segments (k : nat) (Y : list (list ascii)) :
  k = 1 \/ k = 2 ->
  Forall segment Y ->
  Forall (fun c => c <> dotdot) Y ->
  posixpath.normpath_l (repeat sep k ++ join_l sep Y)
  = repeat sep k ++ join_l sep (filter (fun c => c <> dot) Y).
Proof.
  intros Hk HY Hdd. unfold posixpath.normpath_l.
  assert (Hne : forall l, repeat sep k ++ l <> []) by (by destruct Hk as [-> | ->]).
  rewrite (bool_decide_eq_false_2 _ (Hne _)).
  rewrite (initial_slashes k _ Hk (join_segments_head _ HY)).
  rewrite split_l_repeat_sep, fold_norm_step_empty.
  assert (Hf : fold_left (posixpath.norm_step k) (split_l sep (join_l sep Y)) []
               = filter (fun c => c <> dot) Y).
  { destruct Y as [|y Y]; [done|].
    rewrite split_join_segments by done. rewrite fold_norm_step; [done|].
    apply Forall_forall. intros c Hc.
    rewrite Forall_forall in HY, Hdd. split; [apply (HY c Hc) | by apply Hdd]. }
  rewrite Hf. by rewrite (bool_decide_eq_false_2 _ (Hne _)).
Qed.

(** [normpath] of an absolute path: slashes, then plain segments. *)
Lemma normpath_l_absolute (x : list ascii) :
  startswith_l x [sep] = true ->
  exists k comps,
    (k = 1 \/ k = 2)
    /\ posixpath.normpath_l x = repeat sep k ++ join_l sep comps
    /\ Forall plain comps.
Proof.
  intros Hx. unfold posixpath.normpath_l.
  assert (x <> []) as Hne by (by intros ->).
  rewrite (bool_decide_eq_false_2 _ Hne), Hx.
  set (k := if _ && _ then 2 else 1).
  assert (Hk : k = 1 \/ k = 2) by (unfold k; destruct (_ && _); auto).
  exists k, (fold_left (posixpath.norm_step k) (split_l sep x) []).
  split; [done|]. split.
  - rewrite bool_decide_eq_false_2; [done|]. by destruct Hk as [-> | ->].
  - apply fold_norm_step_plain; [by destruct Hk as [-> | ->]| |constructor].
    apply split_l_no_sep.
Qed.

Lemma join_l_app (X Y : list (list ascii)) :
  X <> [] -> Y <> [] -> join_l sep (X ++ Y) = join_l sep X ++ sep :: join_l sep Y.
Proof.
  intros HX HY. induction X as [|x X IH]; [done|].
  destruct X as [|x' X].
  - cbn [app]. by rewrite join_l_cons.
  - rewrite <- app_comm_cons, join_l_cons by done.
    rewrite IH by done. rewrite (join_l_cons sep x (x' :: X)) by done.
    by rewrite <- app_assoc.
Qed.

Lemma plain_segment (X : list (list ascii)) : Forall plain X -> Forall segment X.
Proof. intros H. eapply Forall_impl; [exact H|]. by intros c [? _]. Qed.

(** Joining segments onto a normalized absolute path. *)
Lemma join_path_l_absolute (k : nat) (comps segs : list (list ascii)) :
  k = 1 \/ k = 2 ->
  Forall segment comps ->
  Forall segment segs ->
  posixpath.join_path_l (repeat sep k ++ join_l sep comps) segs
  = repeat sep k ++ join_l sep (comps ++ segs).
Proof.
  intros Hk Hc Hs. rewrite join_path_l_segments by done.
  destruct segs as [|s segs]; [by rewrite !app_nil_r|].
  destruct comps as [|c comps].
  - cbn [join_l app]. rewrite app_nil_r.
    assert (joint (repeat sep k) = []) as ->; [|done].
    by destruct Hk as [-> | ->].
  - assert (joint (repeat sep k ++ join_l sep (c :: comps)) = [sep]) as ->.
    { unfold joint, endswith_char. rewrite last_app.
      destruct (last (join_l sep (c :: comps))) as [a|] eqn:Ha.
      - rewrite (eqb_not_sep a (join_segments_last (c :: comps) a Hc Ha)).
        by destruct Hk as [-> | ->].
      - apply last_None in Ha. inversion Hc as [|? ? [Hne _] _]; subst.
        destruct comps; [done|]. rewrite join_l_cons in Ha by done.
        by destruct c. }
    rewrite join_l_app by done. by rewrite <- !app_assoc.
Qed.

End Normpath.

(** X16: a path without [..] is never turned down.  In a process whose
    working directory is absolute, [_get_os_path] resolves every
    virtual path none of whose segments is [..]: the 404 is raised
    only for paths that use [..]. *)
Theorem get_os_path_accepts (self : FileManagerMixin) (cwd path : string) :
  Str.startswith cwd "/" = true ->
  Forall (fun c => c <> Str.chars "..") (utils.api_parts (Str.chars path)) ->
  _get_os_path self cwd path
  = Return (utils.to_os_path path (posixpath.abspath cwd (root_dir self))).
Proof.
  intros Hcwd Hdd. rewrite get_os_path_test. cbv zeta.
  set (root := posixpath.abspath cwd (root_dir self)).
  set (segs := utils.api_parts (Str.chars path)) in *.
  pose proof (api_parts_segments (Str.chars path)) as Hsegs. fold segs in Hsegs.
  assert (Habs : forall x, Str.startswith_l (Str.chars cwd) [Str.sep] = true ->
            Str.startswith_l
              (if posixpath.isabs_l x then x
               else posixpath.join_path_l (Str.chars cwd) [x]) [Str.sep] = true).
  { intros x Hc. unfold posixpath.isabs_l.
    destruct (Str.startswith_l x [Str.sep]) eqn:Hx; [done|].
    cbn [posixpath.join_path_l fold_left]. unfold posixpath.join2_l. rewrite Hx.
    destruct (Str.chars cwd) as [|a l]; [done|].
    destruct (_ || _); cbn in Hc |- *; by rewrite Hc. }
  destruct (normpath_l_absolute _ (Habs (Str.chars (root_dir self)) Hcwd))
    as (k & comps & Hk & Hroot & Hcomps).
  assert (Hr : Str.chars root = repeat Str.sep k ++ Str.join_l Str.sep comps).
  { unfold root, posixpath.abspath. rewrite chars_text. exact Hroot. }
  assert (Hos : Str.chars (utils.to_os_path path root)
                = repeat Str.sep k ++ Str.join_l Str.sep (comps ++ segs)).
  { unfold utils.to_os_path. rewrite chars_text, Hr. fold segs.
    apply join_path_l_absolute; [done|by apply plain_segment|done]. }
  assert (Hn : Str.chars (posixpath.abspath cwd (utils.to_os_path path root))
               = repeat Str.sep k
                 ++ Str.join_l Str.sep
                      (comps ++ filter (fun c => c <> ["."%char]) segs)).
  { unfold posixpath.abspath, posixpath.abspath_l. rewrite chars_text, Hos.
    assert (posixpath.isabs_l
              (repeat Str.sep k ++ Str.join_l Str.sep (comps ++ segs)) = true) as ->.
    { by destruct Hk as [-> | ->]. }
    rewrite normpath_l_segments; [|done| |].
    - rewrite filter_app. f_equal. f_equal. f_equal.
      clear -Hcomps. induction Hcomps as [|c X (_ & Hd & _) _ IH]; [done|].
      rewrite filter_cons, IH. by case_decide.
    - apply Forall_app. split; [by apply plain_segment | done].
    - apply Forall_app. split; [|done].
      eapply Forall_impl; [exact Hcomps|]. by intros c (_ & _ & ?). }
  assert (Hstart : Str.startswith
                     (posixpath.abspath cwd (utils.to_os_path path root) +:+ "/") root
                   = true).
  { unfold Str.startswith. rewrite chars_app, Hn, Hr.
    set (F := filter _ segs).
    destruct F as [|f F].
    - rewrite app_nil_r. apply startswith_l_app.
    - destruct comps as [|c comps].
      + cbn [app Str.join_l]. rewrite app_nil_r, <- app_assoc.
        apply startswith_l_app.
      + rewrite join_l_app by done. rewrite <- !app_assoc.
        rewrite (app_assoc (repeat _ _)). apply startswith_l_app. }
  by rewrite Hstart.
Qed.

Lemma get_os_path_accepts_witness :
  _get_os_path sample_manager "/home" "a/./b.txt"
  = Return (utils.to_os_path "a/./b.txt" (posixpath.abspath "/home" (root_dir sample_manager))).
Proof.
  apply (get_os_path_accepts sample_manager "/home" "a/./b.txt").
  - reflexivity.
  - vm_compute. repeat (constructor; [discriminate|]). constructor.
Defined.

(* ===================================================================== *)
(** * Saving is all or nothing *)
(* ===================================================================== *)

(** X17: saving is all or nothing.  On a host other than Windows with a
    well-formed file system, however [_save_file] and [_save_notebook]
    end (a bad format, a content that cannot be encoded, a notebook
    that cannot be written, a call the host refuses at any point): no
    name the file system had, other than the destination, has changed;
    and the destination is exactly as it was, or it is a regular file
    holding all of the encoded content. *)
Theorem saving_all_or_nothing (self : FileManagerMixin) (path : string)
    (w : world) :
  fs_wf (fs w) ->
  os_name w <> "nt" ->
  let dst := resolved_dest (fs w) path in
  (forall content format r w',
      _save_file self path content format w = (r, w') ->
      (forall k, is_Some (fs w !! k) -> k <> dst -> fs w' !! k = fs w !! k)
      /\ (fs w' !! dst = fs w !! dst
          \/ exists b mt,
               _save_file_encode content format = Return b
               /\ fs w' !! dst = Some (File b mt)))
  /\ (forall (notebook : Type) (nbformat_writes : notebook -> result unicode) nb r w',
         _save_notebook notebook nbformat_writes self path nb w = (r, w') ->
         (forall k, is_Some (fs w !! k) -> k <> dst -> fs w' !! k = fs w !! k)
         /\ (fs w' !! dst = fs w !! dst
             \/ exists s b mt,
                  nbformat_writes nb = Return s
                  /\ codecs.encode_utf8 s = Some b
                  /\ fs w' !! dst = Some (File b mt))).
Proof.
  intros Hwf Hnt dst. split.
  - intros content format r w' H. unfold _save_file in H.
    destruct (negb _).
    { injection H as _ <-. by split; [|left]. }
    destruct (_save_file_encode content format) as [b|e] eqn:He.
    2:{ destruct (exn_is_Exception e); injection H as _ <-; by split; [|left]. }
    unfold FileManagerMixin_atomic_writing, with_perm_to_403 in H.
    destruct (atomic_writing path false _ w) as [r1 w1] eqn:Ha.
    injection H as _ <-.
    destruct (atomic_writing_any _ _ _ _ _ _ Hwf Hnt Ha) as [H1 H2].
    split; [done|]. destruct H2 as [H2 | (s & written & mt & Hb & H2)]; [by left|].
    right. unfold f_write in Hb. injection Hb as <-. by exists b, mt.
  - intros notebook nbformat_writes nb r w' H.
    unfold _save_notebook, FileManagerMixin_atomic_writing, with_perm_to_403 in H.
    destruct (atomic_writing path true _ w) as [r1 w1] eqn:Ha.
    injection H as _ <-.
    destruct (atomic_writing_any _ _ _ _ _ _ Hwf Hnt Ha) as [H1 H2].
    split; [done|]. destruct H2 as [H2 | (s & written & mt & Hb & H2)]; [by left|].
    right. unfold nbformat_write in Hb.
    destruct (nbformat_writes nb) as [t|e]; [|discriminate].
    unfold f_write_text in Hb.
    destruct (codecs.encode_utf8 t) as [b|] eqn:He; [|discriminate].
    unfold f_write in Hb. injection Hb as <-. by exists t, b, mt.
Qed.

Lemma saving_all_or_nothing_witness :
  let dst := resolved_dest (fs busy_world) "/srv/nb/a.txt" in
  (forall content format r w',
      _save_file sample_manager "/srv/nb/a.txt" content format busy_world = (r, w') ->
      (forall k, is_Some (fs busy_world !! k) -> k <> dst ->
                 fs w' !! k = fs busy_world !! k)
      /\ (fs w' !! dst = fs busy_world !! dst
          \/ exists b mt,
               _save_file_encode content format = Return b
               /\ fs w' !! dst = Some (File b mt)))
  /\ (forall (notebook : Type) (nbformat_writes : notebook -> result unicode) nb r w',
         _save_notebook notebook nbformat_writes sample_manager "/srv/nb/a.txt" nb
           busy_world = (r, w') ->
         (forall k, is_Some (fs busy_world !! k) -> k <> dst ->
                    fs w' !! k = fs busy_world !! k)
         /\ (fs w' !! dst = fs busy_world !! dst
             \/ exists s b mt,
                  nbformat_writes nb = Return s
                  /\ codecs.encode_utf8 s = Some b
                  /\ fs w' !! dst = Some (File b mt))).
Proof.
  apply (saving_all_or_nothing sample_manager "/srv/nb/a.txt" busy_world).
  - exact sample_fs_wf.
  - discriminate.
Defined.

(* ===================================================================== *)
(** * The format [_read_file] answers with *)
(* ===================================================================== *)

(** X18: the format of what [_read_file] returns, for a file the host
    lets us read.  Bytes that are UTF-8 are returned as text when the
    format is ['text'] or not given.  With any other format (also one
    that is neither ['text'] nor ['base64']: the format is not checked)
    the bytes are returned as base64, whether they are UTF-8 or not.
    With no format given [_read_file] always returns. *)
Theorem read_file_formats (self : FileManagerMixin) (path : string) (data : bytes)
    (w : world) :
  readable w path data ->
  (forall s format,
      codecs.decode_utf8 data = Some s ->
      format = None \/ format = Some "text" ->
      _read_file self path format w = (Return (s, "text"), w))
  /\ (forall format,
         format <> None -> format <> Some "text" ->
         _read_file self path format w
         = (Return (map Byte.to_N (base64.encodestring data), "base64"), w))
  /\ exists x, _read_file self path None w = (Return x, w).
Proof.
  intros Hr. split; [|split].
  - intros s format Hd Hf. rewrite (read_file_readable _ _ _ _ _ Hr).
    unfold _read_file_decode, bytes_decode_utf8. rewrite Hd.
    by destruct Hf as [-> | ->].
  - intros format H1 H2. rewrite (read_file_readable _ _ _ _ _ Hr).
    unfold _read_file_decode, bytes_decode_ascii.
    rewrite (bool_decide_eq_false_2 _ H1), (bool_decide_eq_false_2 _ H2).
    by rewrite (decode_ascii_of _ (encodestring_ascii data)).
  - rewrite (read_file_readable _ _ _ _ _ Hr).
    destruct (codecs.decode_utf8 data) as [s|] eqn:Hd.
    + exists (s, "text"). unfold _read_file_decode, bytes_decode_utf8.
      by rewrite Hd.
    + eexists. by destruct (read_file_decode_not_utf8 path data Hd) as [_ ->].
Qed.

Lemma read_file_formats_witness :
  (forall s format,
      codecs.decode_utf8 [x00; x01; xff] = Some s ->
      format = None \/ format = Some "text" ->
      _read_file sample_manager "/srv/nb/raw.bin" format sample_world
      = (Return (s, "text"), sample_world))
  /\ (forall format,
         format <> None -> format <> Some "text" ->
         _read_file sample_manager "/srv/nb/raw.bin" format sample_world
         = (Return (map Byte.to_N (base64.encodestring [x00; x01; xff]), "base64"),
            sample_world))
  /\ exists x, _read_file sample_manager "/srv/nb/raw.bin" None sample_world
               = (Return x, sample_world).
Proof.
  apply (read_file_formats sample_manager "/srv/nb/raw.bin" [x00; x01; xff]
           sample_world).
  exact sample_raw_readable.
Defined.

(* ===================================================================== *)
(** * A notebook that is not there *)
(* ===================================================================== *)

(** X19: [_read_notebook] of a path at which there is no file.  When the
    path leads to no entry of the file system, or to a directory,
    [_read_notebook] raises the [OSError] of [io.open] as it is (errno
    [ENOENT] or [EISDIR]): it is not turned into an [HTTPError], and the
    host is left as it was. *)
Theorem read_notebook_no_file (notebook : Type)
    (nbformat_reads : unicode -> Z -> result notebook) (self : FileManagerMixin)
    (path k : string) (as_version : Z) (w : world) :
  refused w (sys_open path false) = None ->
  follow SYMLOOP_MAX (fs w) path = Some k ->
  (fs w !! k = None ->
   _read_notebook notebook nbformat_reads self path as_version w
   = (Raise (os_error errno.ENOENT path), w))
  /\ (forall mt, fs w !! k = Some (Dir mt) ->
        _read_notebook notebook nbformat_reads self path as_version w
        = (Raise (os_error errno.EISDIR path), w)).
Proof.
  intros Ho Hf.
  assert (H : forall eno,
            eno = errno.ENOENT \/ eno = errno.EISDIR ->
            io_open_r path true w = (Raise (os_error eno path), w) ->
            _read_notebook notebook nbformat_reads self path as_version w
            = (Raise (os_error eno path), w)).
  { intros eno He Hop. unfold _read_notebook, FileManagerMixin_open, with_perm_to_403,
      with_file. rewrite bind_run, Hop. by destruct He as [-> | ->]. }
  split.
  - intros Hk. apply H; [by left|]. unfold io_open_r.
    rewrite bind_run, (call_allowed _ _ _ Ho), bind_run. unfold get.
    by rewrite Hf, Hk.
  - intros mt Hk. apply H; [by right|]. unfold io_open_r.
    rewrite bind_run, (call_allowed _ _ _ Ho), bind_run. unfold get.
    by rewrite Hf, Hk.
Qed.

Lemma read_notebook_no_file_witness :
  (fs sample_world !! "/srv/nb/none.ipynb" = None ->
   _read_notebook unit (fun _ _ => Raise boom) sample_manager "/srv/nb/none.ipynb" 4
     sample_world
   = (Raise (os_error errno.ENOENT "/srv/nb/none.ipynb"), sample_world))
  /\ (forall mt, fs sample_world !! "/srv/nb/none.ipynb" = Some (Dir mt) ->
        _read_notebook unit (fun _ _ => Raise boom) sample_manager
          "/srv/nb/none.ipynb" 4 sample_world
        = (Raise (os_error errno.EISDIR "/srv/nb/none.ipynb"), sample_world)).
Proof.
  apply (read_notebook_no_file unit (fun _ _ => Raise boom) sample_manager
           "/srv/nb/none.ipynb" "/srv/nb/none.ipynb" 4 sample_world).
  - reflexivity.
  - vm_compute. reflexivity.
Defined.

(* ===================================================================== *)
(** * Failures of the host while saving *)
(* ===================================================================== *)

(** X20: a directory in which nothing can be made.  When the content can
    be encoded and the host refuses to make the staging directory with
    [EPERM] or [EACCES], [_save_file] raises the 403 error that names
    the file being saved (not the staging directory), and the file
    system is as it was. *)
Theorem save_file_forbidden (self : FileManagerMixin) (path : string)
    (content : unicode) (format : option string) (b : bytes) (w : world)
    (d : draw) (rest : list draw) (eno : Z) :
  format = Some "text" \/ format = Some "base64" ->
  _save_file_encode content format = Return b ->
  path <> "" ->
  refused w (sys_readlink path) = None ->
  tmp_names w = d :: rest ->
  refused w (sys_mkdir (staging_dir (resolved_dest (fs w) path) d)) = Some eno ->
  eno = errno.EPERM \/ eno = errno.EACCES ->
  exists w',
    _save_file self path content format w
    = (Raise (HTTPError 403
                ("Permission denied: " +:+ utils.to_api_path path (root_dir self))
                None), w')
    /\ fs w' = fs w
    /\ open_files w' = open_files w.
Proof.
  intros Hf He Hp Hrl Hn Hmk Heno.
  exists (set_tmp_names rest w). split; [|done].
  unfold _save_file.
  assert ((bool_decide (format = Some "text")
           || bool_decide (format = Some "base64")) = true) as ->
    by (destruct Hf as [-> | ->]; reflexivity).
  cbn [negb]. rewrite He.
  unfold FileManagerMixin_atomic_writing, with_perm_to_403, atomic_writing.
  rewrite bind_run, (enter_resolved path false w Hrl).
  rewrite bind_run. unfold tempfile_mkdtemp. rewrite bind_run. unfold get.
  rewrite Hn. cbn [mkdtemp_from]. rewrite bind_run. unfold modify at 1.
  unfold try_except. rewrite bind_run. unfold os_mkdir.
  fold (staging_dir (resolved_dest (fs w) path) d).
  rewrite bind_run, (call_refused _ _ _ eno) by exact Hmk.
  assert (is_EEXIST (os_error eno (staging_dir (resolved_dest (fs w) path) d)) = false)
    as -> by (destruct Heno as [-> | ->]; reflexivity).
  unfold perm_to_403, perm_to_403_handler, os_error.
  assert ((bool_decide (Some eno = Some errno.EPERM)
           || bool_decide (Some eno = Some errno.EACCES)) = true) as ->
    by (destruct Heno as [-> | ->]; reflexivity).
  by rewrite (bool_decide_eq_false_2 _ Hp).
Qed.

Lemma save_file_forbidden_witness :
  exists w',
    _save_file sample_manager "/srv/nb/a.txt" (codecs.u "hello") (Some "text")
      readonly_world
    = (Raise (HTTPError 403
                ("Permission denied: "
                 +:+ utils.to_api_path "/srv/nb/a.txt" (root_dir sample_manager))
                None), w')
    /\ fs w' = fs readonly_world
    /\ open_files w' = open_files readonly_world.
Proof.
  apply (save_file_forbidden sample_manager "/srv/nb/a.txt" (codecs.u "hello")
           (Some "text") (list_byte_of_string "hello") readonly_world
           (10, [29; 23; 35; 16; 28; 0; 1])%N [(5, [5; 5; 5; 5; 5; 5; 5])]%N
           errno.EACCES).
  - by left.
  - vm_compute. reflexivity.
  - discriminate.
  - reflexivity.
  - reflexivity.
  - vm_compute. reflexivity.
  - by right.
Defined.

(** X21: a failure after the block.  When the block has returned and the
    host then refuses to synchronize the temporary file,
    [atomic_writing] raises that error; the destination is untouched,
    but nothing is cleaned up: the staging directory and the temporary
    file, with what was written, are left behind (the [except] clause
    that removes them covers the block only). *)
Theorem atomic_writing_fsync_refused (path : string) (text : bool) (blk : block)
    (w w1 : world) (s : staging) (written : bytes) (eno : Z) :
  fs_wf (fs w) ->
  atomic_writing_enter path text w = (Return s, w1) ->
  blk (handle s) = (Return tt, written) ->
  (written <> [] -> refused w (sys_write (tmp_path s)) = None) ->
  refused w (sys_fsync (tmp_path s)) = Some eno ->
  exists w',
    atomic_writing path text blk w = (Raise (os_error eno (tmp_path s)), w')
    /\ fs w' !! dest s = fs w !! dest s
    /\ fs w' !! tmp_path s = Some (File written default_meta)
    /\ fs w' !! tmp_dir s = Some (Dir (Meta 448 0)).
Proof.
  intros Hwf He Hb Hw Hs.
  destruct (enter_inv _ _ _ _ _ Hwf He)
    as (d & rest & Hd & Htd & Htp & Hh & Hnone & ->).
  assert (Hne : tmp_path s <> tmp_dir s).
  { rewrite Htp, Htd. apply tmp_path_not_dir. }
  assert (Hdst : under (tmp_dir s) (dest s) = false).
  { rewrite Htd. apply dest_not_under_staging. }
  assert (Hdt : dest s <> tmp_path s).
  { intros E. rewrite E in Hdst. rewrite Htp, Htd in Hdst.
    by rewrite tmp_path_under in Hdst. }
  assert (Hdd : dest s <> tmp_dir s).
  { intros E. rewrite E in Hdst. by rewrite under_refl in Hdst. }
  eexists. split; [|split; [|split]].
  - unfold atomic_writing. rewrite bind_run, He, Hb, Hh.
    unfold buffered. cbn [f_name f_text f_buf app].
    unfold atomic_writing_commit.
    rewrite bind_run, (flush_staged_run _ _ _ _ _ _ Hw).
    rewrite bind_run. unfold os_fsync. cbn [f_name].
    rewrite (call_refused _ _ _ eno) by exact Hs. reflexivity.
  - cbn [fs]. by rewrite !lookup_insert_ne.
  - cbn [fs]. by rewrite lookup_insert_eq.
  - cbn [fs]. by rewrite lookup_insert_ne, lookup_insert_eq.
Qed.

Lemma atomic_writing_fsync_refused_witness :
  exists w',
    atomic_writing "/srv/nb/a.txt" false writing_block failing_disk_world
    = (Raise (os_error 5 (tmp_path sample_staging)), w')
    /\ fs w' !! dest sample_staging = fs failing_disk_world !! dest sample_staging
    /\ fs w' !! tmp_path sample_staging
       = Some (File (list_byte_of_string "new") default_meta)
    /\ fs w' !! tmp_dir sample_staging = Some (Dir (Meta 448 0)).
Proof.
  apply (atomic_writing_fsync_refused "/srv/nb/a.txt" false writing_block
           failing_disk_world
           (snd (atomic_writing_enter "/srv/nb/a.txt" false failing_disk_world))
           sample_staging (list_byte_of_string "new") 5%Z).
  - exact sample_fs_wf.
  - apply run_fst. vm_compute. reflexivity.
  - reflexivity.
  - reflexivity.
  - reflexivity.
Defined.

(* ===================================================================== *)
(** * Failures of the host under [self.open] and [self.atomic_writing] *)
(* ===================================================================== *)

(** A path made by [to_os_path] on a root that is not empty is not
    empty. *)
Lemma to_os_path_nonempty (path root : string) :
  Str.startswith root "/" = true -> utils.to_os_path path root <> "".
Proof.
  intros Hr E. apply (f_equal Str.chars) in E. unfold utils.to_os_path in E.
  rewrite chars_text in E.
  rewrite (join_path_l_segments _ _ (api_parts_segments (Str.chars path))) in E.
  unfold Str.startswith in Hr.
  destruct (Str.chars root) as [|a r]; [discriminate Hr|discriminate E].
Qed.

(** X22: with a root directory in absolute normal form, the 403 names the
    virtual path.  When [root_dir] is absolute and [abspath] leaves it
    as it is, and [_get_os_path] has resolved the virtual path [path]
    to [os_path], then a permission failure ([EPERM] or [EACCES]) of
    [io.open] under [self.open], and one of [atomic_writing] under
    [self.atomic_writing], is raised as the 403 error whose message
    is "Permission denied: " followed by the segments of [path] that
    are not empty, joined with slashes: no part of the root is in
    it. *)
Theorem forbidden_names_virtual_path (self : FileManagerMixin)
    (cwd path os_path : string) :
  Str.startswith (root_dir self) "/" = true ->
  posixpath.abspath cwd (root_dir self) = root_dir self ->
  _get_os_path self cwd path = Return os_path ->
  let msg := "Permission denied: "
             +:+ Str.text (Str.join_l Str.sep (utils.api_parts (Str.chars path))) in
  (forall (A : Type) text (blk : fileobj -> M A) w eno,
      refused w (sys_open os_path false) = Some eno ->
      eno = errno.EPERM \/ eno = errno.EACCES ->
      FileManagerMixin_open self os_path text blk w
      = (Raise (HTTPError 403 msg None), w))
  /\ (forall text blk w eno filename t,
         fst (atomic_writing os_path text blk w)
         = Raise (Py (OSError (Some eno) filename t)) ->
         eno = errno.EPERM \/ eno = errno.EACCES ->
         FileManagerMixin_atomic_writing self os_path text blk w
         = (Raise (HTTPError 403 msg None),
            snd (atomic_writing os_path text blk w))).
Proof.
  intros Habs Hroot Hget msg. rewrite get_os_path_test in Hget.
  cbv zeta in Hget.
  destruct (Str.startswith (_ +:+ _) _); [|discriminate]. injection Hget as <-.
  rewrite Hroot.
  pose proof (to_os_path_nonempty path (root_dir self) Habs) as Hne.
  pose proof (to_api_path_to_os_path path (root_dir self)) as Hapi.
  split.
  - intros A text blk w eno Ho He. unfold FileManagerMixin_open.
    rewrite (with_perm_to_403_forbidden self _ _ w w eno
               (Some (utils.to_os_path path (root_dir self))) os_text Hne He).
    + by rewrite Hapi.
    + unfold with_file. rewrite bind_run. unfold io_open_r.
      by rewrite bind_run, (call_refused _ _ _ eno) by exact Ho.
  - intros text blk w eno filename t Ha He. unfold FileManagerMixin_atomic_writing.
    rewrite (with_perm_to_403_forbidden self _ _ w
               (snd (atomic_writing (utils.to_os_path path (root_dir self)) text blk w))
               eno filename t Hne He).
    + by rewrite Hapi.
    + rewrite <- Ha. apply surjective_pairing.
Qed.

Lemma forbidden_names_virtual_path_witness :
  FileManagerMixin_open sample_manager "/srv/nb/a.txt" false f_read locked_world
  = (Raise (HTTPError 403 "Permission denied: a.txt" None), locked_world)
  /\ FileManagerMixin_atomic_writing sample_manager "/srv/nb/a.txt" false
       writing_block readonly_world
     = (Raise (HTTPError 403 "Permission denied: a.txt" None),
        snd (atomic_writing "/srv/nb/a.txt" false writing_block readonly_world)).
Proof.
  destruct (forbidden_names_virtual_path sample_manager "/" "//a.txt"
              "/srv/nb/a.txt") as [H1 H2];
    [reflexivity|vm_compute; reflexivity|vm_compute; reflexivity|].
  split.
  - apply (H1 bytes false f_read locked_world errno.EACCES); [reflexivity|by right].
  - apply (H2 false writing_block readonly_world errno.EACCES
             (Some "/srv/nb/a.txtk3x9q2ab") os_text);
      [vm_compute; reflexivity|by right].
Defined.

(** X23: every other failure goes through [self.open] and
    [self.atomic_writing] as it is.  An exception of the wrapped
    operation that is not an [OSError] with errno [EPERM] or [EACCES]
    (an [OSError] with another errno or with none, or any other
    exception) is raised unchanged, and the host is left as the
    wrapped operation left it. *)
Theorem other_failures_pass (self : FileManagerMixin) (os_path : string) (e : exn) :
  (forall eno filename t,
      e = Py (OSError eno filename t) ->
      eno <> Some errno.EPERM /\ eno <> Some errno.EACCES) ->
  (forall (A : Type) text (blk : fileobj -> M A) w,
      fst (with_file (io_open_r os_path text) blk w) = Raise e ->
      FileManagerMixin_open self os_path text blk w
      = (Raise e, snd (with_file (io_open_r os_path text) blk w)))
  /\ (forall text blk w,
         fst (atomic_writing os_path text blk w) = Raise e ->
         FileManagerMixin_atomic_writing self os_path text blk w
         = (Raise e, snd (atomic_writing os_path text blk w))).
Proof.
  intros He. split.
  - intros A text blk w H. unfold FileManagerMixin_open.
    apply with_perm_to_403_other; [exact He|].
    rewrite <- H. apply surjective_pairing.
  - intros text blk w H. unfold FileManagerMixin_atomic_writing.
    apply with_perm_to_403_other; [exact He|].
    rewrite <- H. apply surjective_pairing.
Qed.

Lemma other_failures_pass_witness :
  FileManagerMixin_open sample_manager "/srv/nb" false f_read sample_world
  = (Raise (os_error errno.EISDIR "/srv/nb"),
     snd (with_file (io_open_r "/srv/nb" false) f_read sample_world))
  /\ FileManagerMixin_atomic_writing sample_manager "/srv/nb/a.txt" false
       writing_block full_world
     = (Raise (os_error errno.ENOSPC "/srv/nb/a.txtk3x9q2ab/a.txt"),
        snd (atomic_writing "/srv/nb/a.txt" false writing_block full_world)).
Proof.
  destruct (other_failures_pass sample_manager "/srv/nb"
              (os_error errno.EISDIR "/srv/nb")) as [H1 _].
  { intros eno filename t [= <- _ _]. split; discriminate. }
  destruct (other_failures_pass sample_manager "/srv/nb/a.txt"
              (os_error errno.ENOSPC "/srv/nb/a.txtk3x9q2ab/a.txt")) as [_ H2].
  { intros eno filename t [= <- _ _]. split; discriminate. }
  split.
  - apply (H1 bytes false f_read sample_world). vm_compute. reflexivity.
  - apply (H2 false writing_block full_world). vm_compute. reflexivity.
Defined.

(* ===================================================================== *)
(** * Checks of the model on concrete values *)
(* ===================================================================== *)

Example normpath_dotdot :
  posixpath.normpath "/root/../root2" = "/root2"
  /\ posixpath.normpath "/root/a/../b//c/." = "/root/b/c"
  /\ posixpath.normpath "//a/b" = "//a/b"
  /\ posixpath.normpath "///a/../.." = "/"
  /\ posixpath.normpath "a/../../b" = "../b"
  /\ posixpath.normpath "" = ".".
Proof. repeat split; vm_compute; reflexivity. Qed.

Example split_examples :
  posixpath.split "/a/b" = ("/a", "b")
  /\ posixpath.split "/a//b" = ("/a", "b")
  /\ posixpath.split "/a/" = ("/a", "")
  /\ posixpath.split "//x" = ("//", "x")
  /\ posixpath.split "x" = ("", "x")
  /\ posixpath.split "" = ("", "").
Proof. repeat split; vm_compute; reflexivity. Qed.

Example to_os_path_examples :
  utils.to_os_path "a/b.txt" "/srv/nb" = "/srv/nb/a/b.txt"
  /\ utils.to_os_path "/a//b/" "/srv/nb" = "/srv/nb/a/b"
  /\ utils.to_os_path "" "/srv/nb" = "/srv/nb"
  /\ utils.to_os_path "x" "/" = "/x"
  /\ utils.to_os_path "../root2" "/root" = "/root/../root2".
Proof. repeat split; vm_compute; reflexivity. Qed.

Example to_api_path_examples :
  utils.to_api_path "/srv/nb/a/b.txt" "/srv/nb" = "a/b.txt"
  /\ utils.to_api_path "/srv/nb" "/srv/nb" = ""
  /\ utils.to_api_path "/x" "/" = "x"
  /\ utils.to_api_path "/etc/passwd" "/srv/nb" = "etc/passwd".
Proof. repeat split; vm_compute; reflexivity. Qed.

Example utf8_examples :
  codecs.encode_utf8 (codecs.u "hello") = Some ["h"; "e"; "l"; "l"; "o"]%byte
  /\ codecs.encode_utf8 [233; 8364; 128512]%N
     = Some [xc3; xa9; xe2; x82; xac; xf0; x9f; x98; x80]
  /\ codecs.decode_utf8 [xc3; xa9; xe2; x82; xac; xf0; x9f; x98; x80]
     = Some [233; 8364; 128512]%N
  /\ codecs.encode_utf8 [55296%N] = None
  /\ codecs.decode_utf8 [x00; x01; xff] = None
  /\ codecs.decode_utf8 [xc0; x80] = None
  /\ codecs.decode_utf8 [xed; xa0; x80] = None.
Proof. repeat split; vm_compute; reflexivity. Qed.

Example base64_examples :
  base64.encodestring [x00; x01; xff] = list_byte_of_string "AAH/" ++ [x0a]
  /\ base64.encodestring [] = []
  /\ base64.encodestring (list_byte_of_string "hello")
     = list_byte_of_string "aGVsbG8=" ++ [x0a]
  /\ base64.decodestring (list_byte_of_string "AAH/") = Some [x00; x01; xff]
  /\ base64.decodestring (list_byte_of_string "aGVsbG8=") = Some (list_byte_of_string "hello")
  /\ base64.decodestring (list_byte_of_string "aGVsbG8") = None
  /\ base64.decodestring (list_byte_of_string "aG Vs*bG8=") = Some (list_byte_of_string "hello")
  /\ length (base64.encodestring (repeat x41 58)) = 82.
Proof. repeat split; vm_compute; reflexivity. Qed.

(** A notebook server saving and reading on the sample host. *)
Example save_file_example :
  let saved := _save_file sample_manager "/srv/nb/a.txt" (codecs.u "hello")
                 (Some "text") sample_world in
  fst saved = Return tt
  /\ map_to_list (fs (snd saved))
     = map_to_list (<["/srv/nb/a.txt" := File (list_byte_of_string "hello") (Meta 384 0)]>
                      sample_fs)
  /\ open_files (snd saved) = [].
Proof. repeat split; vm_compute; reflexivity. Qed.

(** A block that raises leaves the old file. *)
Example atomic_writing_example :
  let run := atomic_writing "/srv/nb/a.txt" false failing_block sample_world in
  fst run = Raise boom
  /\ map_to_list (fs (snd run)) = map_to_list sample_fs.
Proof. repeat split; vm_compute; reflexivity. Qed.

(** A permission failure while writing comes out as a 403 that names the
    virtual path. *)
Example save_file_forbidden_example :
  fst (_save_file sample_manager "/srv/nb/a.txt" (codecs.u "hello") (Some "text")
         readonly_world)
  = Raise (HTTPError 403 "Permission denied: a.txt" None).
Proof. vm_compute. reflexivity. Qed.

(** Another failure of the host goes through as it is. *)
Example save_file_busy_example :
  fst (_save_file sample_manager "/srv/nb/a.txt" (codecs.u "hello") (Some "text")
         busy_world)
  = Raise (os_error 16 "/srv/nb/a.txtk3x9q2ab").
Proof. vm_compute. reflexivity. Qed.
